(** * STLSlicer: a shallow embedding of [stlslicer.py], [main.py] and [util.py]

    The Python sources are embedded as executable Rocq functions.

    - Python numbers (floats, numpy float64, ints used as heights) are exact
      rationals [Q]: the embedding idealises floating point rounding away.
    - Exceptions are values of [exn]; a call returns a [result].
    - The slicer object, the log, the file system and the clock are threaded
      explicitly through a small state-and-error monad.
    - trimesh, the operating system and the float printer are collaborators
      that the sources only call: they are fields of the class
      [Collaborators]. *)

From Stdlib Require Import ZArith QArith Qround List String Ascii Bool Lia Arith.
From Stdlib Require Import DecimalString SetoidList.
Import ListNotations.

Set Warnings "-register-all,-abstract-large-number".

Local Open Scope string_scope.
Local Open Scope list_scope.

(** ** Python runtime: exceptions and results *)

Inductive exn : Type :=
| AttributeError (attr : string)
| IndexError
| TypeError
| ValueError
| OverflowError
| RecursionError
| FileExistsError
| OSError
| OtherError (name : string).

(** [OutOfFuel]: a loop of the source was still running when the bound given
    to its model was used up; the source itself has no bound. *)
Inductive result (A : Type) : Type :=
| Ok (a : A)
| Raise (e : exn)
| OutOfFuel.

Arguments Ok {A} a.
Arguments Raise {A} e.
Arguments OutOfFuel {A}.

Definition rbind {A B : Type} (r : result A) (k : A -> result B) : result B :=
  match r with
  | Ok a => k a
  | Raise e => Raise e
  | OutOfFuel => OutOfFuel
  end.

Fixpoint rmap_list {A B : Type} (f : A -> result B) (l : list A) : result (list B) :=
  match l with
  | [] => Ok []
  | x :: xs => rbind (f x) (fun y => rbind (rmap_list f xs) (fun ys => Ok (y :: ys)))
  end.

Definition exn_name (e : exn) : string :=
  match e with
  | AttributeError _ => "AttributeError"
  | IndexError => "IndexError"
  | TypeError => "TypeError"
  | ValueError => "ValueError"
  | OverflowError => "OverflowError"
  | RecursionError => "RecursionError"
  | FileExistsError => "FileExistsError"
  | OSError => "OSError"
  | OtherError name => name
  end.

(** [except OSError] also catches its subclass [FileExistsError]. *)
Definition is_OSError (e : exn) : bool :=
  match e with
  | OSError | FileExistsError => true
  | _ => false
  end.

Definition is_AttributeError (e : exn) : bool :=
  match e with
  | AttributeError _ => true
  | _ => false
  end.

(** ** Python classes and values *)

(** A class with its [__name__] and its [__bases__]. *)
Inductive pyclass : Type :=
| PyClass (name : string) (bases : list pyclass).

Definition cls_name (c : pyclass) : string :=
  match c with PyClass n _ => n end.

Definition cls_bases (c : pyclass) : list pyclass :=
  match c with PyClass _ bs => bs end.

(** [c.__base__]: the first base, [None] for [object]. *)
Definition cls_base (c : pyclass) : option pyclass := hd_error (cls_bases c).

Definition py_object : pyclass := PyClass "object" [].
Definition py_NoneType : pyclass := PyClass "NoneType" [py_object].
Definition py_int : pyclass := PyClass "int" [py_object].
Definition py_bool : pyclass := PyClass "bool" [py_int].
Definition py_float : pyclass := PyClass "float" [py_object].
Definition py_str_cls : pyclass := PyClass "str" [py_object].
Definition py_list : pyclass := PyClass "list" [py_object].
Definition py_dict : pyclass := PyClass "dict" [py_object].
Definition py_method : pyclass := PyClass "method" [py_object].

(** The part of numpy's scalar hierarchy the encoder looks at, with the
    class names of numpy 1.x ([bool_] for the boolean scalar). *)
Definition np_generic : pyclass := PyClass "generic" [py_object].
Definition np_bool_ : pyclass := PyClass "bool_" [np_generic].
Definition np_number : pyclass := PyClass "number" [np_generic].
Definition np_integer : pyclass := PyClass "integer" [np_number].
Definition np_signedinteger : pyclass := PyClass "signedinteger" [np_integer].
Definition np_int64 : pyclass := PyClass "int64" [np_signedinteger].
Definition np_inexact : pyclass := PyClass "inexact" [np_number].
Definition np_floating : pyclass := PyClass "floating" [np_inexact].
Definition np_float64 : pyclass := PyClass "float64" [np_floating; py_float].
Definition np_ndarray : pyclass := PyClass "ndarray" [py_object].

(** trimesh's path classes. *)
Definition tm_Geometry : pyclass := PyClass "Geometry" [PyClass "ABC" [py_object]].
Definition tm_Path : pyclass := PyClass "Path" [tm_Geometry].
Definition tm_Path2D : pyclass := PyClass "Path2D" [tm_Path].

(** Python values.  A numpy array carries the nested list [tolist()] returns,
    a [Path2D] the dictionary [to_dict()] returns; [Opaque] is an instance of
    any other class, [BoundMethod] what reading a method attribute without
    calling it yields. *)
Inductive value : Type :=
| VNone
| VBool (b : bool)
| VInt (z : Z)
| VFloat (q : Q)
| VStr (s : string)
| VList (items : list value)
| VDict (items : list (value * value))
| NpInteger (z : Z)
| NpFloating (q : Q)
| NpBool (b : bool)
| NdArray (items : list value)
| VPath2D (as_dict : list (value * value))
| BoundMethod (name : string)
| Opaque (cls : pyclass).

Definition class_of (v : value) : pyclass :=
  match v with
  | VNone => py_NoneType
  | VBool _ => py_bool
  | VInt _ => py_int
  | VFloat _ => py_float
  | VStr _ => py_str_cls
  | VList _ => py_list
  | VDict _ => py_dict
  | NpInteger _ => np_int64
  | NpFloating _ => np_float64
  | NpBool _ => np_bool_
  | NdArray _ => np_ndarray
  | VPath2D _ => tm_Path2D
  | BoundMethod _ => py_method
  | Opaque c => c
  end.

(** [issubclass(c, target)]; classes are identified by their names. *)
Fixpoint issubclass (c : pyclass) (target : string) : bool :=
  match c with
  | PyClass n bs => String.eqb n target || existsb (fun b => issubclass b target) bs
  end.

Definition isinstance (v : value) (c : pyclass) : bool :=
  issubclass (class_of v) (cls_name c).

(** [bool(v)]: Python truthiness. *)
Definition truthy (v : value) : bool :=
  match v with
  | VNone => false
  | VBool b => b
  | VInt z => negb (Z.eqb z 0)
  | VFloat q => negb (Qeq_bool q 0)
  | VStr s => negb (String.eqb s "")
  | VList l => negb (Nat.eqb (List.length l) 0)
  | VDict l => negb (Nat.eqb (List.length l) 0)
  | NpInteger z => negb (Z.eqb z 0)
  | NpFloating q => negb (Qeq_bool q 0)
  | NpBool b => b
  | NdArray _ => true
  | VPath2D _ => true
  | BoundMethod _ => true
  | Opaque _ => true
  end.

Definition string_of_nat (n : nat) : string :=
  NilEmpty.string_of_uint (Nat.to_uint n).

Definition string_of_Z (z : Z) : string :=
  match z with
  | Zneg p => "-" ++ string_of_nat (Pos.to_nat p)
  | _ => string_of_nat (Z.to_nat z)
  end.

(** ** JSON documents *)

Inductive json : Type :=
| JNull
| JBool (b : bool)
| JNumber (q : Q)
| JString (s : string)
| JArray (items : list json)
| JObject (members : list (string * json)).

(** ** Collaborators: trimesh, the float printer *)

Definition vec3 : Type := (Q * Q * Q)%type.

(** What the slicer reads of a [trimesh.Trimesh]: [bounds] is [None] for a
    mesh without vertices, otherwise the two corners
    [[x_min, y_min, z_min], [x_max, y_max, z_max]]. *)
Record Mesh : Type := mkMesh {
  bounds : option (vec3 * vec3);
  centroid : vec3;
  is_watertight : bool;
  units : option string
}.

Definition set_units (m : Mesh) (u : string) : Mesh :=
  {| bounds := bounds m; centroid := centroid m;
     is_watertight := is_watertight m; units := Some u |}.

Class Collaborators : Type := {
  (** [float.__repr__], used by f-strings and by JSON object keys. *)
  float_repr : Q -> string;
  (** [trimesh.load(f, process=...)]. *)
  trimesh_load : string -> bool -> result Mesh;
  (** [mesh.section_multiplane(plane_origin, plane_normal, heights)]:
      a list of [Path2D] or [None]. *)
  section_multiplane : Mesh -> list Q -> list Q -> list Q -> list value;
  (** [path2D.export(file_obj, file_type)] on a [Path2D] given by its
      dictionary: the text written to [file_obj], or the exception raised. *)
  path_export : list (value * value) -> string -> string -> result string
}.

(** * util.py *)

Module Util.
Section Encoder.
Context `{Collaborators}.

(** [type_bases(obj, depth=4)]: the direct bases, then [depth] rounds of
    [__base__] of the previous round, concatenated ([np.hstack]); [None]
    entries have no [__name__] and are filtered out at the end. *)
Definition next_bases (last : list (option pyclass)) : list (option pyclass) :=
  flat_map (fun i => match i with Some c => [cls_base c] | None => [] end) last.

Fixpoint base_rounds (depth : nat) (last : list (option pyclass))
  : list (list (option pyclass)) :=
  match depth with
  | O => []
  | S d => let next := next_bases last in next :: base_rounds d next
  end.

Definition type_bases (obj : value) (depth : nat) : list pyclass :=
  let first := map Some (cls_bases (class_of obj)) in
  let bases := first :: base_rounds depth first in
  flat_map (fun i => match i with Some c => [c] | None => [] end) (List.concat bases).

Definition type_named (obj : value) (name : string) : result pyclass :=
  if String.eqb (cls_name (class_of obj)) name then Ok (class_of obj)
  else
    match find (fun base => String.eqb (cls_name base) name) (type_bases obj 4) with
    | Some base => Ok base
    | None => Raise ValueError
    end.

Definition is_instance_named (obj : value) (name : string) : result bool :=
  match type_named obj name with
  | Ok _ => Ok true
  | Raise ValueError => Ok false
  | Raise e => Raise e
  | OutOfFuel => OutOfFuel
  end.

(** [str(obj)].  Containers and instances of other classes are rendered by
    a placeholder of the shape of [object.__repr__]. *)
Definition py_str (v : value) : string :=
  match v with
  | VNone => "None"
  | VBool true | NpBool true => "True"
  | VBool false | NpBool false => "False"
  | VInt z | NpInteger z => string_of_Z z
  | VFloat q | NpFloating q => float_repr q
  | VStr s => s
  | _ => "<" ++ cls_name (class_of v) ++ " object>"
  end.

(** [bool(s)] for a string. *)
Definition bool_of_str (s : string) : bool := negb (String.eqb s "").

(** [int(obj)], [float(obj)], [obj.tolist()], [obj.to_dict()]. *)
Definition int_of (v : value) : result value :=
  match v with
  | NpInteger z | VInt z => Ok (VInt z)
  | VBool b | NpBool b => Ok (VInt (if b then 1 else 0))
  | VFloat q | NpFloating q => Ok (VInt (if Qle_bool 0 q then Qfloor q else Qceiling q))
  | _ => Raise TypeError
  end.

Definition float_of (v : value) : result value :=
  match v with
  | NpFloating q | VFloat q => Ok (VFloat q)
  | NpInteger z | VInt z => Ok (VFloat (inject_Z z))
  | VBool b | NpBool b => Ok (VFloat (if b then 1 else 0))
  | _ => Raise TypeError
  end.

Definition tolist (v : value) : result value :=
  match v with
  | NdArray items => Ok (VList items)
  | _ => Raise (AttributeError "tolist")
  end.

Definition to_dict (v : value) : result value :=
  match v with
  | VPath2D d => Ok (VDict d)
  | _ => Raise (AttributeError "to_dict")
  end.

(** [NumpyArrayEncoder.default]; the last branch is [JSONEncoder.default],
    which raises [TypeError]. *)
Definition default (obj : value) : result value :=
  if isinstance obj np_integer then int_of obj
  else if isinstance obj np_floating then float_of obj
  else if isinstance obj np_ndarray then tolist obj
  else
    rbind (is_instance_named obj "bool_") (fun named_bool =>
    if named_bool then Ok (VBool (bool_of_str (py_str obj)))
    else
      rbind (is_instance_named obj "Path2D") (fun named_path =>
      if named_path then to_dict obj
      else Raise TypeError)).

(** The key of a JSON object member: [str], [float], [bool], [None] and
    [int] keys are converted, any other key is a [TypeError]. *)
Definition json_key (k : value) : result string :=
  match k with
  | VStr s => Ok s
  | VFloat q | NpFloating q => Ok (float_repr q)
  | VBool true => Ok "true"
  | VBool false => Ok "false"
  | VNone => Ok "null"
  | VInt z => Ok (string_of_Z z)
  | _ => Raise TypeError
  end.

(** [JSONEncoder] with [default] as its hook: an object that is not a
    JSON type is replaced by [default(obj)] and encoded again.  [fuel]
    bounds the nesting, as the interpreter's recursion limit does. *)
Fixpoint encode (fuel : nat) (v : value) : result json :=
  match fuel with
  | O => Raise RecursionError
  | S n =>
    match v with
    | VNone => Ok JNull
    | VBool b => Ok (JBool b)
    | VInt z => Ok (JNumber (inject_Z z))
    | VFloat q | NpFloating q => Ok (JNumber q)
    | VStr s => Ok (JString s)
    | VList items => rbind (rmap_list (encode n) items) (fun js => Ok (JArray js))
    | VDict items =>
        rbind (rmap_list (fun kv => rbind (json_key (fst kv)) (fun k =>
                                    rbind (encode n (snd kv)) (fun j => Ok (k, j))))
                         items)
              (fun ms => Ok (JObject ms))
    | _ => rbind (default v) (encode n)
    end
  end.

Definition recursion_limit : nat := 1000.

(** [json.dumps(v, cls=NumpyArrayEncoder, indent=2)], as the document it
    renders. *)
Definition json_dumps (v : value) : result json := encode recursion_limit v.

(** Every numpy boolean of a value replaced by numpy [True]. *)
Fixpoint np_bools_true (v : value) : value :=
  match v with
  | NpBool _ => NpBool true
  | VList items => VList (map np_bools_true items)
  | VDict items => VDict (map (fun kv => (fst kv, np_bools_true (snd kv))) items)
  | NdArray items => NdArray (map np_bools_true items)
  | VPath2D d => VPath2D (map (fun kv => (fst kv, np_bools_true (snd kv))) d)
  | _ => v
  end.

End Encoder.
End Util.

(** * The slicer session: object, log, file system, clock *)

(** An instance attribute: [Unset] when no assignment has created it yet, so
    that reading it raises [AttributeError]. *)
Inductive attr (A : Type) : Type :=
| Unset
| Bound (a : A).

Arguments Unset {A}.
Arguments Bound {A} a.

(** A Python [dict] keyed by heights, in insertion order.  Assigning to a key
    that is already present replaces its value in place. *)
Definition dict : Type := list (Q * value).

Fixpoint dict_set (d : dict) (k : Q) (v : value) : dict :=
  match d with
  | [] => [(k, v)]
  | (k', v') :: rest =>
      if Qeq_bool k' k then (k', v) :: rest else (k', v') :: dict_set rest k v
  end.

Definition dict_set_item (d : dict) (kv : Q * value) : dict :=
  dict_set d (fst kv) (snd kv).

(** The attributes of an [STLSlicer] instance; [mesh] may hold [None]. *)
Record STLSlicer : Type := mkSlicer {
  layers : attr dict;
  distance : attr Q;
  full_filename : attr string;
  filename : attr string;
  mesh : attr (option Mesh);
  mesh_watertight : attr bool
}.

Inductive level : Type := DEBUG | INFO | ERROR.

(** A file holds text, or the JSON document that [json.dumps] rendered
    into it. *)
Inductive content : Type :=
| Text (s : string)
| Document (j : json).

Record datetime : Type := mkDatetime {
  year : nat; month : nat; day : nat;
  hour : nat; minute : nat; second : nat
}.

(** The world outside the object: directories and files by path, the clock
    as the sequence of its readings, and the log, oldest record first. *)
Record World : Type := mkWorld {
  dirs : list string;
  files : list (string * content);
  clock : nat -> datetime;
  ticks : nat;
  logged : list (level * string)
}.

Record state : Type := mkState {
  self : STLSlicer;
  world : World
}.

(** ** The state-and-error monad *)

Definition M (A : Type) : Type := state -> result A * state.

Definition ret {A : Type} (a : A) : M A := fun s => (Ok a, s).

Definition raise {A : Type} (e : exn) : M A := fun s => (Raise e, s).

Definition bind {A B : Type} (c : M A) (k : A -> M B) : M B :=
  fun s =>
    match c s with
    | (Ok a, s') => k a s'
    | (Raise e, s') => (Raise e, s')
    | (OutOfFuel, s') => (OutOfFuel, s')
    end.

Declare Scope slicer_scope.
Delimit Scope slicer_scope with slicer.

Notation "x <- c1 ;; c2" := (bind c1 (fun x => c2))
  (at level 61, c1 at next level, right associativity) : slicer_scope.
Notation "c1 ;; c2" := (bind c1 (fun _ => c2))
  (at level 61, right associativity) : slicer_scope.

Local Open Scope slicer_scope.

Definition lift {A : Type} (r : result A) : M A := fun s => (r, s).

(** [try: c except <handled>: h]. *)
Definition try_except {A : Type} (c : M A) (handled : exn -> bool) (h : exn -> M A) : M A :=
  fun s =>
    match c s with
    | (Raise e, s') => if handled e then h e s' else (Raise e, s')
    | other => other
    end.

Definition get_self : M STLSlicer := fun s => (Ok (self s), s).

Definition put_self (o : STLSlicer) : M unit :=
  fun s => (Ok tt, {| self := o; world := world s |}).

Definition get_world : M World := fun s => (Ok (world s), s).

Definition put_world (w : World) : M unit :=
  fun s => (Ok tt, {| self := self s; world := w |}).

(** [self.<name>]. *)
Definition getattr {A : Type} (name : string) (proj : STLSlicer -> attr A) : M A :=
  o <- get_self ;;
  match proj o with
  | Bound a => ret a
  | Unset => raise (AttributeError name)
  end.

Definition with_layers (o : STLSlicer) (d : dict) : STLSlicer :=
  {| layers := Bound d; distance := distance o;
     full_filename := full_filename o; filename := filename o;
     mesh := mesh o; mesh_watertight := mesh_watertight o |}.

Definition set_layers (d : dict) : M unit :=
  o <- get_self ;;
  put_self (with_layers o d).

Definition set_full_filename (f : string) : M unit :=
  o <- get_self ;;
  put_self {| layers := layers o; distance := distance o;
              full_filename := Bound f; filename := filename o;
              mesh := mesh o; mesh_watertight := mesh_watertight o |}.

Definition set_filename (f : string) : M unit :=
  o <- get_self ;;
  put_self {| layers := layers o; distance := distance o;
              full_filename := full_filename o; filename := Bound f;
              mesh := mesh o; mesh_watertight := mesh_watertight o |}.

Definition set_distance (d : Q) : M unit :=
  o <- get_self ;;
  put_self {| layers := layers o; distance := Bound d;
              full_filename := full_filename o; filename := filename o;
              mesh := mesh o; mesh_watertight := mesh_watertight o |}.

Definition set_mesh (m : option Mesh) : M unit :=
  o <- get_self ;;
  put_self {| layers := layers o; distance := distance o;
              full_filename := full_filename o; filename := filename o;
              mesh := Bound m; mesh_watertight := mesh_watertight o |}.

Definition set_mesh_watertight (b : bool) : M unit :=
  o <- get_self ;;
  put_self {| layers := layers o; distance := distance o;
              full_filename := full_filename o; filename := filename o;
              mesh := mesh o; mesh_watertight := Bound b |}.

(** [self.mesh.<name>]: [AttributeError] when [self.mesh] is [None]. *)
Definition mesh_attr (name : string) : M Mesh :=
  m <- getattr "mesh" mesh ;;
  match m with
  | Some m => ret m
  | None => raise (AttributeError name)
  end.

(** [log.<level>(msg)]. *)
Definition log (l : level) (msg : string) : M unit :=
  w <- get_world ;;
  put_world {| dirs := dirs w; files := files w; clock := clock w;
               ticks := ticks w; logged := logged w ++ [(l, msg)] |}.

Definition with_logged (w : World) (records : list (level * string)) : World :=
  {| dirs := dirs w; files := files w; clock := clock w; ticks := ticks w;
     logged := logged w ++ records |}.

(** ** The operating system *)

Definition path_exists (w : World) (p : string) : bool :=
  existsb (String.eqb p) (dirs w) || existsb (fun f => String.eqb p (fst f)) (files w).

(** [os.makedirs(p, exist_ok=False)]: [FileExistsError] when the path is
    taken.  Other failures of the operating system are not modelled. *)
Definition makedirs (p : string) : M unit :=
  w <- get_world ;;
  if path_exists w p then raise FileExistsError
  else put_world {| dirs := dirs w ++ [p]; files := files w; clock := clock w;
                    ticks := ticks w; logged := logged w |}.

Fixpoint file_set (fs : list (string * content)) (p : string) (c : content)
  : list (string * content) :=
  match fs with
  | [] => [(p, c)]
  | (p', c') :: rest =>
      if String.eqb p' p then (p', c) :: rest else (p', c') :: file_set rest p c
  end.

(** Writing [c] to the file at [p], created when it is missing. *)
Definition write_file (p : string) (c : content) : M unit :=
  w <- get_world ;;
  put_world {| dirs := dirs w; files := file_set (files w) p c; clock := clock w;
               ticks := ticks w; logged := logged w |}.

(** [open(p, "w")] creates the file or empties it. *)
Definition open_w (p : string) : M unit := write_file p (Text "").

(** [datetime.now()]: the next reading of the clock. *)
Definition now : M datetime :=
  w <- get_world ;;
  put_world {| dirs := dirs w; files := files w; clock := clock w;
               ticks := S (ticks w); logged := logged w |} ;;
  ret (clock w (ticks w)).

(** Decimal digits of [n], left-padded with zeros to [width]. *)
Fixpoint zeros (n : nat) : string :=
  match n with
  | O => ""
  | S k => "0" ++ zeros k
  end.

Definition pad (width n : nat) : string :=
  let s := string_of_nat n in
  zeros (width - String.length s) ++ s.

Definition STR_DATETIME_FORMAT : string := "%Y%m%d-%H%M%S".

(** A reading of the clock as a calendar allows it, with a four-digit
    year. *)
Definition plausible (t : datetime) : Prop :=
  (year t < 10000 /\ month t < 100 /\ day t < 100 /\
   hour t < 100 /\ minute t < 100 /\ second t < 100)%nat.

(** [t.strftime(STR_DATETIME_FORMAT)]. *)
Definition strftime (t : datetime) : string :=
  pad 4 (year t) ++ pad 2 (month t) ++ pad 2 (day t) ++ "-" ++
  pad 2 (hour t) ++ pad 2 (minute t) ++ pad 2 (second t).

(** [sep.join(parts)]. *)
Definition join (sep : string) (parts : list string) : string :=
  String.concat sep parts.

(** [s.rfind(c)], counted from [i]; [-1] when [c] does not occur. *)
Fixpoint rfind_from (c : ascii) (s : string) (i : Z) : Z :=
  match s with
  | EmptyString => (-1)%Z
  | String a rest =>
      let r := rfind_from c rest (i + 1)%Z in
      if (0 <=? r)%Z then r else if Ascii.eqb a c then i else (-1)%Z
  end.

Definition rfind (c : ascii) (s : string) : Z := rfind_from c s 0%Z.

(** [s[i:]] and [s[:i]] for [0 <= i]. *)
Definition slice_from (s : string) (i : Z) : string :=
  String.substring (Z.to_nat i) (String.length s - Z.to_nat i) s.

Definition slice_to (s : string) (i : Z) : string :=
  String.substring 0 (Z.to_nat i) s.

(** [os.path.split(p)[1]] (posixpath). *)
Definition os_path_split_tail (p : string) : string :=
  slice_from p (rfind "/"%char p + 1)%Z.

(** [os.path.splitext(p)[0]] (posixpath): the last dot starts the extension
    when it lies after the last separator and after a character of the file
    name that is not a dot. *)
Definition os_path_splitext_root (p : string) : string :=
  let sepIndex := rfind "/"%char p in
  let dotIndex := rfind "."%char p in
  if (sepIndex <? dotIndex)%Z then
    let between := seq (Z.to_nat (sepIndex + 1)) (Z.to_nat dotIndex - Z.to_nat (sepIndex + 1)) in
    if existsb (fun i => match String.get i p with
                         | Some a => negb (Ascii.eqb a "."%char)
                         | None => false
                         end) between
    then slice_to p dotIndex
    else p
  else p.

(** ** Pieces that [stlslicer.py] and [main.py] share word for word *)

Section Shared.
Context `{Collaborators}.

(** [int(x / d)] for a numpy float [x]: the quotient is truncated towards
    zero; a zero divisor gives numpy's [inf] or [nan], which [int] refuses
    with [OverflowError] or [ValueError]. *)
Definition int_of_quotient (x d : Q) : result Z :=
  if Qeq_bool d 0 then
    if Qeq_bool x 0 then Raise ValueError else Raise OverflowError
  else
    let q := (x / d)%Q in
    Ok (if Qle_bool 0 q then Qfloor q else Qceiling q).

(** [[i * distance for i in range(no_of_planes + 1)]]. *)
Definition heights (no_of_planes : Z) (distance : Q) : list Q :=
  map (fun i => (inject_Z (Z.of_nat i) * distance)%Q)
      (seq 0 (Z.to_nat (no_of_planes + 1))).

(** [z_list[0]] and [z_list[-1]]. *)
Definition first_item (l : list Q) : result Q :=
  match l with
  | [] => Raise IndexError
  | x :: _ => Ok x
  end.

Definition last_item (l : list Q) : result Q :=
  match rev l with
  | [] => Raise IndexError
  | x :: _ => Ok x
  end.

(** [str(mesh.units)]; the f-string prints the same. *)
Definition str_units (m : Mesh) : string :=
  match units m with
  | Some u => u
  | None => "None"
  end.

(** The record [slice_mesh] logs about its schedule. *)
Definition layer_heights_message (m : Mesh) (lo hi distance : Q) (count : nat) : string :=
  "Layer heights between " ++ float_repr lo ++ str_units m ++ " and " ++
  float_repr hi ++ str_units m ++ ". " ++
  "Distance: " ++ float_repr distance ++ str_units m ++
  ". Count: " ++ string_of_nat count ++ ".".

(** [for i in range(len(slices_2D)): layers[z_list[i]] = slices_2D[i]]. *)
Fixpoint assign_layers (indices : list nat) (z_list : list Q) (slices_2D : list value)
    (layers : dict) : result dict :=
  match indices with
  | [] => Ok layers
  | i :: rest =>
      match nth_error z_list i, nth_error slices_2D i with
      | Some z, Some s => assign_layers rest z_list slices_2D (dict_set layers z s)
      | _, _ => Raise IndexError
      end
  end.

(** A height-keyed dict as a Python value. *)
Definition dict_value (d : dict) : value :=
  VDict (map (fun kv => (VFloat (fst kv), snd kv)) d).

(** [arg or self.<name>]: the attribute is only read when [arg] is falsy. *)
Definition distance_or_self (arg : option Q) : M Q :=
  match arg with
  | Some q => if truthy (VFloat q) then ret q else getattr "distance" distance
  | None => getattr "distance" distance
  end.

Definition layers_or_self (arg : option dict) : M dict :=
  match arg with
  | Some d => if truthy (dict_value d) then ret d else getattr "layers" layers
  | None => getattr "layers" layers
  end.

(** [date_time_str = t.strftime(STR_DATETIME_FORMAT)] and
    [dir_name = "_".join([self.filename, exp_type, date_time_str])]. *)
Definition export_dir_name (stem exp_type : string) (t : datetime) : string :=
  let date_time_str := strftime t in
  join "_" [stem; exp_type; date_time_str].

(** [f"{dir_name}/{base_name}_{height}.{exp_type}"]. *)
Definition layer_file (dir_name base_name exp_type : string) (height : Q) : string :=
  dir_name ++ "/" ++ base_name ++ "_" ++ float_repr height ++ "." ++ exp_type.

(** The [while True] block of [export_layers]: name a directory after the
    clock, create it exclusively, start over on [OSError].  [fuel] bounds
    the number of rounds of the model. *)
Fixpoint make_export_dir (fuel : nat) (exp_type : string) : M string :=
  match fuel with
  | O => fun s => (OutOfFuel, s)
  | S n =>
      t <- now ;;
      stem <- getattr "filename" filename ;;
      let dir_name := export_dir_name stem exp_type t in
      created <- try_except (makedirs dir_name ;; ret true) is_OSError
                            (fun _ => ret false) ;;
      if (created : bool) then ret dir_name else make_export_dir n exp_type
  end.

(** [path2D.export(file_obj=..., file_type=...)]: only a [Path2D] has the
    method. *)
Definition export_outcome (path2D : value) (file_obj file_type : string) : result string :=
  match path2D with
  | VPath2D d => path_export d file_obj file_type
  | _ => Raise (AttributeError "export")
  end.

Definition export_path (path2D : value) (file_obj file_type : string) : M unit :=
  text <- lift (export_outcome path2D file_obj file_type) ;;
  write_file file_obj (Text text).

(** The head of [slice_data], in the order the dict literal evaluates it. *)
Definition slice_data_head : M (list (value * value)) :=
  source <- getattr "full_filename" full_filename ;;
  m <- mesh_attr "units" ;;
  watertight <- getattr "mesh_watertight" mesh_watertight ;;
  ret [(VStr "source", VStr source);
       (VStr "units", VStr (str_units m));
       (VStr "watertight", VBool watertight)].

Definition unsupported_message (exp_type : string) : string :=
  "Extension '" ++ exp_type ++ "' not supported. " ++
  "Currently supported: ['json', 'dxf', 'svg']".

End Shared.

(** * stlslicer.py *)

Module Stlslicer.
Section Slicer.
Context `{Collaborators}.

(** [STLSlicer.__init__]: [self.distance: float] is an annotation without a
    value and creates no attribute. *)
Definition __init__ : STLSlicer :=
  {| layers := Bound []; distance := Unset;
     full_filename := Bound ""; filename := Bound "";
     mesh := Bound None; mesh_watertight := Bound false |}.

(** [mesh.fix_normals] and [mesh.fill_holes] are read, not called: each is
    a bound method object. *)
Definition repair_mesh_watertight (m : Mesh) : M bool :=
  if negb (truthy (VBool (is_watertight m))) then
    log DEBUG "Mesh not watertight. Fixing normals." ;;
    if negb (truthy (BoundMethod "fix_normals")) then
      log DEBUG "Mesh not watertight. Filling holes." ;;
      if negb (truthy (BoundMethod "fill_holes")) then
        log DEBUG "Mesh is not watertight. Not fixed!" ;;
        ret false
      else ret true
    else ret true
  else ret true.

Definition load_mesh (f : string) : M unit :=
  set_full_filename f ;;
  set_filename (os_path_splitext_root f) ;;
  try_except
    (m <- lift (trimesh_load f false) ;;
     set_mesh (Some (set_units m "mm")) ;;
     log INFO ("File '" ++ f ++ "' loaded. Units set to '" ++ "mm" ++ "'."))
    (fun _ => true)
    (fun e => log INFO ("File '" ++ f ++ "' not loaded. ERROR: " ++ exn_name e) ;; raise e) ;;
  m <- getattr "mesh" mesh ;;
  match m with
  | Some m =>
      repaired <- repair_mesh_watertight m ;;
      if (repaired : bool) then
        set_mesh_watertight true ;;
        log DEBUG "Mesh is watertight."
      else ret tt
  | None => raise (AttributeError "is_watertight")
  end.

(** The plane origin [list(self.mesh.centroid[:2]) + [z_min]]. *)
Definition plane_origin (m : Mesh) (z_min : Q) : list Q :=
  match centroid m with
  | (cx, cy, _) => [cx; cy; z_min]
  end.

Definition slice_mesh (arg : option Q) : M dict :=
  distance <- distance_or_self arg ;;
  m <- mesh_attr "bounds" ;;
  match bounds m with
  | None => raise TypeError
  | Some ((_, _, z_min), (_, _, z_max)) =>
      let origin := plane_origin m z_min in
      no_of_planes <- lift (int_of_quotient (z_max - z_min) distance) ;;
      let z_list := heights no_of_planes distance in
      lo <- lift (first_item z_list) ;;
      hi <- lift (last_item z_list) ;;
      log DEBUG (layer_heights_message m lo hi distance (List.length z_list)) ;;
      let slices_2D := section_multiplane m origin [0; 0; 1]%Q z_list in
      layers <- lift (assign_layers (seq 0 (List.length slices_2D)) z_list slices_2D []) ;;
      set_layers layers ;;
      ret layers
  end.

(** The body of [for height, path2D in layers.items()], with the index
    [json_dict["files"]] threaded through. *)
Fixpoint export_each (items : dict) (dir_name base_name exp_type : string)
    (index : dict) : M dict :=
  match items with
  | [] => ret index
  | (height, path2D) :: rest =>
      let layer_filename_full := layer_file dir_name base_name exp_type height in
      index' <- try_except
                  (export_path path2D layer_filename_full exp_type ;;
                   ret (dict_set index height (VStr layer_filename_full)))
                  is_AttributeError
                  (fun _ =>
                     log DEBUG (layer_filename_full ++ " not created. No data to display.") ;;
                     ret index) ;;
      export_each rest dir_name base_name exp_type index'
  end.

(** The rest of the directory branch of [export_layers], from
    [base_name = ...] to [return True]; [head] is [slice_data] without its
    layers. *)
Definition export_into (dir_name exp_type : string) (head : list (value * value))
    (layers : dict) : M bool :=
  stem <- getattr "filename" filename ;;
  let base_name := os_path_split_tail stem in
  let index_file := (dir_name ++ "/" ++ base_name ++ "_info.json")%string in
  open_w index_file ;;
  index <- export_each layers dir_name base_name exp_type [] ;;
  let json_dict := head ++ [(VStr "files", dict_value index)] in
  exp_string <- lift (Util.json_dumps (VDict json_dict)) ;;
  write_file index_file (Document exp_string) ;;
  log DEBUG ("Export to " ++ dir_name ++ " finished.") ;;
  ret true.

Definition export_layers (fuel : nat) (exp_type : string) (arg : option dict) : M bool :=
  layers <- layers_or_self arg ;;
  head <- slice_data_head ;;
  let slice_data := head ++ [(VStr "layers", dict_value layers)] in
  if String.eqb exp_type "json" then
    stem <- getattr "filename" filename ;;
    let exp_filename := (stem ++ "." ++ exp_type)%string in
    open_w exp_filename ;;
    exp_string <- lift (Util.json_dumps (VDict slice_data)) ;;
    write_file exp_filename (Document exp_string) ;;
    log DEBUG ("Export to " ++ exp_filename ++ " finished.") ;;
    ret true
  else if existsb (String.eqb exp_type) ["dxf"; "svg"] then
    dir_name <- make_export_dir fuel exp_type ;;
    export_into dir_name exp_type head layers
  else
    log ERROR (unsupported_message exp_type) ;;
    ret false.

End Slicer.
End Stlslicer.

(** * main.py *)

Module Main.
Section Slicer.
Context `{Collaborators}.

(** An object before [__init__] has run: no attribute exists. *)
Definition blank : STLSlicer :=
  {| layers := Unset; distance := Unset; full_filename := Unset;
     filename := Unset; mesh := Unset; mesh_watertight := Unset |}.

(** As in [stlslicer.py], [fill_holes] and [fix_normals] are read, not
    called. *)
Definition load_mesh (f : string) : M unit :=
  set_full_filename f ;;
  set_filename (os_path_splitext_root f) ;;
  m <- lift (trimesh_load f true) ;;
  let m := set_units m "mm" in
  set_mesh (Some m) ;;
  log INFO ("File '" ++ f ++ "' loaded. Units set to '" ++ "mm" ++ "'.") ;;
  (if negb (truthy (VBool (is_watertight m))) then
     log DEBUG "Mesh not yet watertight. Filling holes." ;;
     if negb (truthy (BoundMethod "fill_holes")) then
       log DEBUG "Mesh not yet watertight. Fixing normals." ;;
       if negb (truthy (BoundMethod "fix_normals")) then
         log DEBUG "Mesh is not watertight. Not fixed."
       else set_mesh_watertight true
     else set_mesh_watertight true
   else set_mesh_watertight true) ;;
  watertight <- getattr "mesh_watertight" mesh_watertight ;;
  if (watertight : bool) then log DEBUG "Mesh is watertight." else ret tt.

(** [STLSlicer.__init__(f=None)], run on a [blank] object. *)
Definition __init__ (f : option string) : M unit :=
  set_layers [] ;;
  set_distance 1 ;;
  match f with
  | Some f =>
      if truthy (VStr f) then
        try_except (load_mesh f) (fun _ => true)
          (fun e =>
             log INFO ("File '" ++ f ++ "' not loaded. ERROR: " ++ exn_name e) ;;
             set_full_filename "" ;;
             set_filename "" ;;
             set_mesh None ;;
             set_mesh_watertight false)
      else ret tt
  | None => ret tt
  end.

(** The plane origin [list(self.mesh.centroid[:2]) + [0]]. *)
Definition plane_origin (m : Mesh) : list Q :=
  match centroid m with
  | (cx, cy, _) => [cx; cy; 0%Q]
  end.

Definition slice_mesh (arg : option Q) : M dict :=
  distance <- distance_or_self arg ;;
  m <- mesh_attr "bounds" ;;
  match bounds m with
  | None => raise TypeError
  | Some (_, (_, _, z_max)) =>
      let origin := plane_origin m in
      no_of_planes <- lift (int_of_quotient z_max distance) ;;
      let z_list := heights no_of_planes distance in
      lo <- lift (first_item z_list) ;;
      hi <- lift (last_item z_list) ;;
      log DEBUG (layer_heights_message m lo hi distance (List.length z_list)) ;;
      let slices_2D := section_multiplane m origin [0; 0; 1]%Q z_list in
      layers <- lift (assign_layers (seq 0 (List.length slices_2D)) z_list slices_2D []) ;;
      set_layers layers ;;
      ret layers
  end.

Fixpoint export_each (items : dict) (dir_name base_name exp_type : string)
    (index : dict) : M dict :=
  match items with
  | [] => ret index
  | (height, path2D) :: rest =>
      let layer_filename_full := layer_file dir_name base_name exp_type height in
      index' <- try_except
                  (export_path path2D layer_filename_full exp_type ;;
                   ret (dict_set index height (VStr layer_filename_full)))
                  is_AttributeError
                  (fun _ =>
                     log DEBUG (layer_filename_full ++ " not created due to no data to display.") ;;
                     ret index) ;;
      export_each rest dir_name base_name exp_type index'
  end.

(** The rest of the directory branch of [export_layers], from
    [base_name = ...] to [return True]; [head] is [slice_data] without its
    layers. *)
Definition export_into (dir_name exp_type : string) (head : list (value * value))
    (layers : dict) : M bool :=
  stem <- getattr "filename" filename ;;
  let base_name := os_path_split_tail stem in
  let index_file := (dir_name ++ "/" ++ base_name ++ ".json")%string in
  open_w index_file ;;
  index <- export_each layers dir_name base_name exp_type [] ;;
  let json_dict := head ++ [(VStr "files", dict_value index)] in
  exp_string <- lift (Util.json_dumps (VDict json_dict)) ;;
  write_file index_file (Document exp_string) ;;
  log DEBUG ("Export to " ++ dir_name ++ " finished.") ;;
  ret true.

Definition export_layers (fuel : nat) (exp_type : string) (arg : option dict) : M bool :=
  layers <- layers_or_self arg ;;
  head <- slice_data_head ;;
  let slice_data := head ++ [(VStr "layers", dict_value layers)] in
  if String.eqb exp_type "json" then
    stem <- getattr "filename" filename ;;
    let exp_filename := (stem ++ "." ++ exp_type)%string in
    open_w exp_filename ;;
    exp_string <- lift (Util.json_dumps (VDict slice_data)) ;;
    write_file exp_filename (Document exp_string) ;;
    log DEBUG ("Export to " ++ exp_filename ++ " finished.") ;;
    ret true
  else if existsb (String.eqb exp_type) ["dxf"; "svg"] then
    dir_name <- make_export_dir fuel exp_type ;;
    export_into dir_name exp_type head layers
  else
    log ERROR (unsupported_message exp_type) ;;
    ret false.

End Slicer.
End Main.

(** * Reading the outcome of an export *)

Fixpoint file_lookup (fs : list (string * content)) (p : string) : option content :=
  match fs with
  | [] => None
  | (p', c) :: rest => if String.eqb p' p then Some c else file_lookup rest p
  end.

(** Every attribute that the methods of a session read, apart from
    [distance], exists, and a mesh is loaded. *)
Definition session_ready (o : STLSlicer) (store : dict) (source stem : string)
    (m : Mesh) (watertight : bool) : Prop :=
  layers o = Bound store /\ full_filename o = Bound source /\
  filename o = Bound stem /\ mesh o = Bound (Some m) /\
  mesh_watertight o = Bound watertight.

(** The layers an export works on: [layers or self.layers]. *)
Definition effective_layers (arg : option dict) (store : dict) : dict :=
  match arg with
  | Some d => if truthy (VDict (map (fun kv => (VFloat (fst kv), snd kv)) d)) then d else store
  | None => store
  end.

(** The world after [k] refused attempts and one successful creation of
    [dir]: [k + 1] readings of the clock, one new directory. *)
Definition world_with_dir (w : World) (dir : string) (k : nat) : World :=
  {| dirs := dirs w ++ [dir]; files := files w; clock := clock w;
     ticks := ticks w + S k; logged := logged w |}.

(** [w'] differs from [w] by files below the directory [dir] and by log
    records only. *)
Definition writes_inside (dir : string) (w w' : World) : Prop :=
  dirs w' = dirs w /\ ticks w' = ticks w /\ clock w' = clock w /\
  forall p, String.prefix (dir ++ "/") p = false ->
            file_lookup (files w') p = file_lookup (files w) p.

(** The world with [c] written to the file at [p]. *)
Definition world_write (w : World) (p : string) (c : content) : World :=
  {| dirs := dirs w; files := file_set (files w) p c; clock := clock w;
     ticks := ticks w; logged := logged w |}.

Section ExportReading.
Context `{Collaborators}.

(** The layers whose vector file gets written: those whose export returns. *)
Definition export_succeeds (dir base fmt : string) (kv : Q * value) : bool :=
  match export_outcome (snd kv) (layer_file dir base fmt (fst kv)) fmt with
  | Ok _ => true
  | _ => false
  end.

Definition exported_layers (dir base fmt : string) (items : dict) : dict :=
  filter (export_succeeds dir base fmt) items.

(** Height and file path of every written layer, in the order of the store. *)
Definition index_entries (dir base fmt : string) (items : dict) : list (Q * string) :=
  map (fun kv => (fst kv, layer_file dir base fmt (fst kv))) (exported_layers dir base fmt items).

(** The index as the height-keyed dict [json_dict["files"]]. *)
Definition index_values (entries : list (Q * string)) : dict :=
  map (fun kv => (fst kv, VStr (snd kv))) entries.

(** The index document: source, units, watertight flag and the mapping from
    each height to its file. *)
Definition index_document (source units_str : string) (watertight : bool)
    (entries : list (Q * string)) : json :=
  JObject [("source", JString source); ("units", JString units_str);
           ("watertight", JBool watertight);
           ("files", JObject (map (fun kv => (float_repr (fst kv), JString (snd kv)))
                                  entries))].

(** The world after the loop over the layers, when every export either
    returns or raises [AttributeError]: a file per success, a debug record
    per failure. *)
Fixpoint layers_written (dir base fmt : string) (items : dict) (w : World) : World :=
  match items with
  | [] => w
  | (h, p) :: rest =>
      let file := layer_file dir base fmt h in
      match export_outcome p file fmt with
      | Ok text => layers_written dir base fmt rest (world_write w file (Text text))
      | _ =>
          layers_written dir base fmt rest
            (with_logged w [(DEBUG, (file ++ " not created. No data to display.")%string)])
      end
  end.

(** The world after the directory branch has run in [w], the world in which
    the export directory was just created. *)
Definition directory_exported (dir base fmt : string) (items : dict)
    (source units_str : string) (watertight : bool) (w : World) : World :=
  let index_file := (dir ++ "/" ++ base ++ "_info.json")%string in
  with_logged
    (world_write
       (layers_written dir base fmt items (world_write w index_file (Text "")))
       index_file
       (Document (index_document source units_str watertight
                    (index_entries dir base fmt items))))
    [(DEBUG, ("Export to " ++ dir ++ " finished.")%string)].

(** An export that returns, or fails the way a missing cross-section does. *)
Definition returns_or_AttributeError (r : result string) : Prop :=
  (exists text, r = Ok text) \/ (exists a, r = Raise (AttributeError a)).

End ExportReading.

(** A computation that leaves the object alone and only writes below
    [dir] or logs. *)
Definition keeps_inside {A : Type} (dir : string) (c : M A) : Prop :=
  forall s, self (snd (c s)) = self s /\
            writes_inside dir (world s) (world (snd (c s))).

(** * The plane schedule in the words of the specification

    [floor((z_max - z_min) / pitch) + 1] planes, at the heights [i * pitch]
    for [i] from [0] to [floor((z_max - z_min) / pitch)]. *)

Definition spec_plane_count (z_min z_max pitch : Q) : nat :=
  Z.to_nat (Qfloor ((z_max - z_min) / pitch) + 1).

Definition spec_schedule (z_min z_max pitch : Q) : list Q :=
  map (fun i => (inject_Z (Z.of_nat i) * pitch)%Q)
      (seq 0 (spec_plane_count z_min z_max pitch)).

(** * A concrete world for examples

    A float printer with one decimal, a loader that knows two files, a
    sectioner that cuts the bounding box of the mesh (a plane outside the Z
    bounds gives [None]) and a path exporter that always succeeds. *)

Module Demo.

Definition repr1 (q : Q) : string :=
  let f := Qfloor q in
  string_of_Z f ++ "." ++ string_of_Z (Qfloor ((q - inject_Z f) * 10)).

(** A 10 mm cube standing on [z = 0], as a triangle soup: not watertight. *)
Definition cube : Mesh :=
  {| bounds := Some ((0, 0, 0)%Q, (10, 10, 10)%Q); centroid := (5, 5, 5)%Q;
     is_watertight := false; units := None |}.

(** The same cube moved away from the origin, to [5 <= z <= 15]. *)
Definition lifted_cube : Mesh :=
  {| bounds := Some ((20, 30, 5)%Q, (30, 40, 15)%Q); centroid := (25, 35, 10)%Q;
     is_watertight := false; units := None |}.

Definition load (f : string) (process : bool) : result Mesh :=
  if String.eqb f "cube.stl" then Ok cube
  else if String.eqb f "lifted/cube.stl" then Ok lifted_cube
  else Raise (OtherError "ValueError").

Definition box_section (m : Mesh) (origin normal hs : list Q) : list value :=
  map (fun h =>
         match bounds m, origin with
         | Some ((_, _, lo), (_, _, hi)), [x; y; z] =>
             if Qle_bool lo (z + h) && Qle_bool (z + h) hi
             then VPath2D [(VStr "plane_origin", VList [VFloat x; VFloat y; VFloat z]);
                           (VStr "plane_z", VFloat (z + h))]
             else VNone
         | _, _ => VNone
         end) hs.

Definition collaborators : Collaborators :=
  {| float_repr := repr1;
     trimesh_load := load;
     section_multiplane := box_section;
     path_export := fun _ _ file_type => Ok ("<" ++ file_type ++ ">")%string |}.

(** The same world with a vector writer that rejects every path with
    [ValueError]. *)
Definition collaborators_rejecting : Collaborators :=
  {| float_repr := repr1;
     trimesh_load := load;
     section_multiplane := box_section;
     path_export := fun _ _ _ => Raise ValueError |}.

Definition world0 : World :=
  {| dirs := []; files := [];
     clock := fun n => mkDatetime 2024 1 2 3 4 (5 + n);
     ticks := 0; logged := [] |}.

(** A world in which the directory of the first clock reading is taken. *)
Definition world_taken : World :=
  {| dirs := ["cube_svg_20240102-030405"]; files := [];
     clock := fun n => mkDatetime 2024 1 2 3 4 (5 + n);
     ticks := 0; logged := [] |}.

Definition fresh : state := {| self := Stlslicer.__init__; world := world0 |}.

(** A session of [stlslicer.py] in the world where the first directory name
    is taken, with the cube loaded and sliced at pitch 5. *)
Definition sliced_taken : state :=
  snd (Stlslicer.slice_mesh (H := collaborators) (Some 5)
         (snd (Stlslicer.load_mesh (H := collaborators) "cube.stl"
                 {| self := Stlslicer.__init__; world := world_taken |}))).

(** Sessions of [stlslicer.py] and of [main.py] with a file loaded. *)
Definition loaded (f : string) : state :=
  snd (Stlslicer.load_mesh (H := collaborators) f fresh).

Definition main_loaded (f : string) : state :=
  snd (Main.__init__ (H := collaborators) (Some f) {| self := Main.blank; world := world0 |}).

Definition cube_layers : dict :=
  Eval vm_compute in
    match layers (self sliced_taken) with
    | Bound store => store
    | Unset => []
    end.

End Demo.


(** * Further notions used by the properties of the code *)

(** [a] is reached from [c] through [__bases__]. *)
Inductive ancestor : pyclass -> pyclass -> Prop :=
| ancestor_base (c b : pyclass) : In b (cls_bases c) -> ancestor c b
| ancestor_step (c b a : pyclass) : In b (cls_bases c) -> ancestor b a -> ancestor c a.

(** The chain of [__base__] above a class. *)
Fixpoint lineage (c : pyclass) : list pyclass :=
  match c with
  | PyClass _ (b :: _) => b :: lineage b
  | PyClass _ [] => []
  end.

(** A class hierarchy without multiple inheritance. *)
Fixpoint single_inheritance (c : pyclass) : Prop :=
  match c with
  | PyClass _ [] => True
  | PyClass _ [b] => single_inheritance b
  | PyClass _ _ => False
  end.

(** The entries of a list of bases that are classes. *)
Definition somes (l : list (option pyclass)) : list pyclass :=
  flat_map (fun i => match i with Some c => [c] | None => [] end) l.

(** The plain Python data that the conversions of
    [NumpyArrayEncoder.default] lead to: [int(obj)], [float(obj)],
    [obj.tolist()], [bool(str(obj))] (always [True]) and [obj.to_dict()],
    applied throughout a value. *)
Fixpoint plain (v : value) : value :=
  match v with
  | NpInteger z => VInt z
  | NpFloating q => VFloat q
  | NpBool _ => VBool true
  | NdArray items => VList (map plain items)
  | VList items => VList (map plain items)
  | VDict items => VDict (map (fun kv => (fst kv, plain (snd kv))) items)
  | VPath2D d => VDict (map (fun kv => (fst kv, plain (snd kv))) d)
  | _ => v
  end.

(** A class seven levels below [object] whose only trimesh ancestor,
    [Path2D], is six [__base__] steps away. *)
Definition deep_path_class : pyclass :=
  PyClass "Sketch5" [PyClass "Sketch4" [PyClass "Sketch3" [PyClass "Sketch2"
    [PyClass "Sketch1" [PyClass "Sketch0" [tm_Path2D]]]]]].

(** The nesting budget left for a cross-section inside the JSON document:
    two levels, the document and its [layers] object, are above it. *)
Definition layer_budget : nat := Util.recursion_limit - 2.

Section JsonExportReading.
Context `{Collaborators}.

(** The members of the [layers] object: each stored height, printed, with
    the rendering of its cross-section. *)
Definition layer_members (items : dict) : result (list (string * json)) :=
  rmap_list (fun kv : Q * value =>
               rbind (Util.encode layer_budget (snd kv))
                     (fun j => Ok (float_repr (fst kv), j)))
            items.

Definition slice_document (source units_str : string) (watertight : bool)
    (members : list (string * json)) : json :=
  JObject [("source", JString source); ("units", JString units_str);
           ("watertight", JBool watertight); ("layers", JObject members)].

End JsonExportReading.

(** A computation that leaves the attributes of the object as they are. *)
Definition keeps_self {A : Type} (c : M A) : Prop :=
  forall s, self (snd (c s)) = self s.

(** A slicing method that changes nothing but [self.layers] and the log:
    the store is the returned one on success and the old one on an
    exception. *)
Definition changes_only_layers (slice : option Q -> M dict) : Prop :=
  forall arg s,
    let run := slice arg s in
    let s' := snd run in
    (dirs (world s') = dirs (world s) /\
     files (world s') = files (world s) /\
     ticks (world s') = ticks (world s)) /\
    (distance (self s') = distance (self s) /\
     full_filename (self s') = full_filename (self s) /\
     filename (self s') = filename (self s) /\
     mesh (self s') = mesh (self s) /\
     mesh_watertight (self s') = mesh_watertight (self s)) /\
    layers (self s') = match fst run with
                       | Ok store => Bound store
                       | _ => layers (self s)
                       end.

(** A slicing method whose result depends on the object only through
    [self.distance] and [self.mesh]. *)
Definition reads_only_distance_and_mesh (slice : option Q -> M dict) : Prop :=
  forall arg s1 s2,
    distance (self s1) = distance (self s2) ->
    mesh (self s1) = mesh (self s2) ->
    fst (slice arg s1) = fst (slice arg s2).

(** Slicing again with the same argument gives the same result and leaves
    the object as the first call left it. *)
Definition reslicing_stable (slice : option Q -> M dict) : Prop :=
  forall arg s,
    let s' := snd (slice arg s) in
    fst (slice arg s') = fst (slice arg s) /\
    self (snd (slice arg s')) = self s'.


(** More sessions for examples. *)
Module DemoMore.

(** The cube below the build plate, [-15 <= z <= -5]. *)
Definition sunk_cube : Mesh :=
  {| bounds := Some ((0, 0, -15)%Q, (10, 10, -5)%Q); centroid := (5, 5, -10)%Q;
     is_watertight := false; units := Some "mm" |}.

(** A mesh without vertices. *)
Definition empty_mesh : Mesh :=
  {| bounds := None; centroid := (0, 0, 0)%Q; is_watertight := false; units := Some "mm" |}.

Definition session (m : option Mesh) (d : attr Q) : state :=
  {| self := {| layers := Bound []; distance := d;
                full_filename := Bound "part.stl"; filename := Bound "part";
                mesh := Bound m; mesh_watertight := Bound true |};
     world := Demo.world0 |}.


End DemoMore.
(** * Properties of util.py *)

Section UtilFacts.
Context `{Collaborators}.

Lemma rmap_list_ext {A B : Type} (f g : A -> result B) (l : list A) :
  (forall x, f x = g x) -> rmap_list f l = rmap_list g l.
Proof.
  intros Hfg. induction l as [|x xs IH]; simpl.
  - reflexivity.
  - now rewrite Hfg, IH.
Qed.

Lemma rmap_list_map {A B C : Type} (f : B -> result C) (g : A -> B) (l : list A) :
  rmap_list f (map g l) = rmap_list (fun x => f (g x)) l.
Proof.
  induction l as [|x xs IH]; simpl.
  - reflexivity.
  - now rewrite IH.
Qed.

Lemma default_NpBool (b : bool) : Util.default (NpBool b) = Ok (VBool true).
Proof. destruct b; reflexivity. Qed.

(** The encoder never looks at the value of a numpy boolean. *)
Lemma encode_np_bools_true (fuel : nat) :
  forall v, Util.encode fuel (Util.np_bools_true v) = Util.encode fuel v.
Proof.
  induction fuel as [|n IH]; intros v.
  - reflexivity.
  - destruct v; try reflexivity.
    + (* list *)
      cbn [Util.np_bools_true Util.encode].
      rewrite rmap_list_map.
      now rewrite (rmap_list_ext _ (Util.encode n) items IH).
    + (* dict *)
      cbn [Util.np_bools_true Util.encode].
      rewrite rmap_list_map.
      f_equal. apply rmap_list_ext. intros [k x]. cbn [fst snd].
      now rewrite IH.
    + (* numpy bool *)
      cbn [Util.np_bools_true Util.encode].
      now rewrite !default_NpBool.
    + (* numpy array *)
      change (Util.encode (S n) (Util.np_bools_true (NdArray items)))
        with (Util.encode n (Util.np_bools_true (VList items))).
      change (Util.encode (S n) (NdArray items)) with (Util.encode n (VList items)).
      apply IH.
    + (* Path2D *)
      change (Util.encode (S n) (Util.np_bools_true (VPath2D as_dict)))
        with (Util.encode n (Util.np_bools_true (VDict as_dict))).
      change (Util.encode (S n) (VPath2D as_dict)) with (Util.encode n (VDict as_dict)).
      apply IH.
Qed.

(** C9. [NumpyArrayEncoder.default] maps every numpy boolean, [True] and
    [False] alike, to Python [True]: [str] of either is a non-empty string
    and [bool] of a non-empty string is [True].  Hence [json.dumps] renders
    a numpy boolean as JSON [true], and the document rendered for a value
    does not change when all its numpy booleans are replaced by numpy
    [True]. *)
Theorem numpy_bool_serialized_as_true :
  (forall b : bool,
      Util.is_instance_named (NpBool b) "bool_" = Ok true /\
      Util.py_str (NpBool b) <> "" /\
      Util.default (NpBool b) = Ok (VBool (Util.bool_of_str (Util.py_str (NpBool b)))) /\
      Util.default (NpBool b) = Ok (VBool true) /\
      Util.json_dumps (NpBool b) = Ok (JBool true)) /\
  (forall v : value, Util.json_dumps (Util.np_bools_true v) = Util.json_dumps v).
Proof.
  split.
  - intros b. repeat split; destruct b; try reflexivity; discriminate.
  - intros v. apply encode_np_bools_true.
Qed.

End UtilFacts.

(** * Properties of the watertightness repair *)

Section RepairFacts.
Context `{Collaborators}.

(** C2.  What [repair_mesh_watertight] does on every mesh: it returns [True],
    also for a mesh that is not watertight, for which it logs that normals
    are being fixed and stops there.  It never reaches the hole filling step
    nor the [False] result, and it leaves the session as it was. *)
Theorem repair_mesh_watertight_returns_True (m : Mesh) (s : state) :
  Stlslicer.repair_mesh_watertight m s =
  (Ok true,
   {| self := self s;
      world := if is_watertight m then world s
               else with_logged (world s)
                      [(DEBUG, "Mesh not watertight. Fixing normals.")] |}).
Proof.
  destruct s as [o w]. unfold Stlslicer.repair_mesh_watertight.
  destruct (is_watertight m); reflexivity.
Qed.

(** [load_mesh] of [stlslicer.py] therefore records [mesh_watertight = True]
    for every mesh that loads. *)
Lemma load_mesh_records_watertight (f : string) (m : Mesh) (s : state) :
  trimesh_load f false = Ok m ->
  fst (Stlslicer.load_mesh f s) = Ok tt /\
  mesh (self (snd (Stlslicer.load_mesh f s))) = Bound (Some (set_units m "mm")) /\
  mesh_watertight (self (snd (Stlslicer.load_mesh f s))) = Bound true.
Proof.
  intros Hload. destruct s as [o w].
  unfold Stlslicer.load_mesh, Stlslicer.repair_mesh_watertight, bind, try_except, lift.
  cbn. rewrite Hload. cbn.
  destruct (is_watertight m); cbn; auto.
Qed.

(** The same holds for [load_mesh] of [main.py]. *)
Lemma main_load_mesh_records_watertight (f : string) (m : Mesh) (s : state) :
  trimesh_load f true = Ok m ->
  fst (Main.load_mesh f s) = Ok tt /\
  mesh_watertight (self (snd (Main.load_mesh f s))) = Bound true.
Proof.
  intros Hload. destruct s as [o w].
  unfold Main.load_mesh, bind, lift.
  cbn. rewrite Hload. cbn.
  destruct (is_watertight m); cbn; auto.
Qed.

End RepairFacts.

(** The open cube is loaded and recorded as watertight. *)
Example load_open_cube :
  is_watertight Demo.cube = false /\
  fst (Stlslicer.load_mesh (H := Demo.collaborators) "cube.stl" Demo.fresh) = Ok tt /\
  mesh_watertight
    (self (snd (Stlslicer.load_mesh (H := Demo.collaborators) "cube.stl" Demo.fresh)))
  = Bound true.
Proof. repeat split. Qed.

(** * Arithmetic of the schedule and height-keyed dicts *)

Lemma Qeq_bool_pos (d : Q) : (0 < d)%Q -> Qeq_bool d 0 = false.
Proof.
  intros Hd. destruct (Qeq_bool d 0) eqn:E; [|reflexivity].
  apply Qeq_bool_eq in E. rewrite E in Hd. now apply Qlt_irrefl in Hd.
Qed.

Lemma Qeq_bool_neg (d : Q) : (d < 0)%Q -> Qeq_bool d 0 = false.
Proof.
  intros Hd. destruct (Qeq_bool d 0) eqn:E; [|reflexivity].
  apply Qeq_bool_eq in E. rewrite E in Hd. now apply Qlt_irrefl in Hd.
Qed.

Lemma Qdiv_nonneg (x d : Q) : (0 <= x)%Q -> (0 < d)%Q -> (0 <= x / d)%Q.
Proof.
  intros Hx Hd. apply Qle_shift_div_l; [exact Hd|].
  now rewrite Qmult_0_l.
Qed.

Lemma Qfloor_nonneg (q : Q) : (0 <= q)%Q -> (0 <= Qfloor q)%Z.
Proof.
  intros Hq. change 0%Z with (Qfloor 0). now apply Qfloor_resp_le.
Qed.

(** For a positive divisor and a non-negative numerator [int(x / d)] is the
    floor of the quotient. *)
Lemma int_of_quotient_floor (x d : Q) :
  (0 <= x)%Q -> (0 < d)%Q -> int_of_quotient x d = Ok (Qfloor (x / d)).
Proof.
  intros Hx Hd. unfold int_of_quotient.
  rewrite (Qeq_bool_pos d Hd).
  assert (Hq : Qle_bool 0 (x / d) = true)
    by (apply Qle_bool_iff; now apply Qdiv_nonneg).
  now rewrite Hq.
Qed.

Lemma heights_length (n : Z) (d : Q) :
  List.length (heights n d) = Z.to_nat (n + 1).
Proof. unfold heights. now rewrite length_map, length_seq. Qed.

Lemma heights_spec_schedule (z_min z_max pitch : Q) :
  heights (Qfloor ((z_max - z_min) / pitch)) pitch = spec_schedule z_min z_max pitch.
Proof. reflexivity. Qed.

Lemma heights_nth (n : Z) (d : Q) (i : nat) :
  (i < Z.to_nat (n + 1))%nat ->
  nth_error (heights n d) i = Some (inject_Z (Z.of_nat i) * d)%Q.
Proof.
  intros Hi. unfold heights.
  rewrite nth_error_map, nth_error_seq.
  destruct (Nat.ltb_spec i (Z.to_nat (n + 1))); [reflexivity | lia].
Qed.

Lemma first_item_heights (n : Z) (d : Q) :
  (0 <= n)%Z -> first_item (heights n d) = Ok (inject_Z 0 * d)%Q.
Proof.
  intros Hn. unfold heights.
  replace (Z.to_nat (n + 1)) with (S (Z.to_nat n)) by lia.
  reflexivity.
Qed.

Lemma last_item_heights (n : Z) (d : Q) :
  (0 <= n)%Z -> last_item (heights n d) = Ok (inject_Z n * d)%Q.
Proof.
  intros Hn. unfold heights, last_item.
  replace (Z.to_nat (n + 1)) with (S (Z.to_nat n)) by lia.
  rewrite seq_S, map_app, rev_app_distr. cbn.
  now rewrite Z2Nat.id by exact Hn.
Qed.

(** The last height [floor(x / d) * d] does not pass [x]. *)
Lemma floor_times_pitch_le (x d : Q) :
  (0 < d)%Q -> (inject_Z (Qfloor (x / d)) * d <= x)%Q.
Proof.
  intros Hd.
  assert (Hnz : ~ (d == 0)%Q)
    by (intros E; rewrite E in Hd; now apply Qlt_irrefl in Hd).
  rewrite <- (Qmult_div_r x d Hnz) at 2.
  rewrite (Qmult_comm d).
  apply Qmult_le_compat_r; [apply Qfloor_le | now apply Qlt_le_weak].
Qed.

(** Multiples of a non-zero pitch by different indices are different
    numbers. *)
Lemma multiples_NoDupA (d : Q) (n a : nat) :
  ~ (d == 0)%Q ->
  NoDupA Qeq (map (fun i => (inject_Z (Z.of_nat i) * d)%Q) (seq a n)).
Proof.
  intros Hnz. revert a. induction n as [|n IH]; intros a; cbn.
  - constructor.
  - constructor; [|apply IH].
    intros Hin. apply InA_alt in Hin. destruct Hin as [y [Hy Hin]].
    apply in_map_iff in Hin. destruct Hin as [j [<- Hj]].
    apply in_seq in Hj.
    pose proof (proj1 (Qmult_inj_r _ _ d Hnz) Hy) as Hy'.
    pose proof (proj1 (inject_Z_injective _ _) Hy') as Hy''. lia.
Qed.

Lemma heights_NoDupA (n : Z) (d : Q) : ~ (d == 0)%Q -> NoDupA Qeq (heights n d).
Proof. intros Hnz. now apply multiples_NoDupA. Qed.

Lemma dict_set_fresh (d : dict) (k : Q) (v : value) :
  ~ InA Qeq k (map fst d) -> dict_set d k v = d ++ [(k, v)].
Proof.
  induction d as [|[k' v'] rest IH]; cbn; intros Hfresh.
  - reflexivity.
  - destruct (Qeq_bool k' k) eqn:E.
    + exfalso. apply Hfresh. constructor. symmetry. now apply Qeq_bool_eq.
    + rewrite IH; [reflexivity|]. intros Hin. apply Hfresh. now constructor 2.
Qed.

Lemma fold_dict_set_fresh (l acc : dict) :
  (forall k, InA Qeq k (map fst acc) -> ~ InA Qeq k (map fst l)) ->
  NoDupA Qeq (map fst l) ->
  fold_left dict_set_item l acc = acc ++ l.
Proof.
  revert acc. induction l as [|[k v] l IH]; intros acc Hdisj Hnd; cbn.
  - now rewrite app_nil_r.
  - inversion Hnd as [|? ? Hk Hnd']; subst.
    unfold dict_set_item at 2. cbn [fst snd].
    rewrite dict_set_fresh.
    + rewrite IH; [now rewrite <- app_assoc | | exact Hnd'].
      intros k0 Hin. rewrite map_app in Hin. apply InA_app in Hin.
      destruct Hin as [Hin | Hin].
      * intros Hin'. apply (Hdisj k0 Hin). now constructor 2.
      * cbn in Hin. inversion Hin as [? ? E | ? ? Hnil]; subst.
        -- intros Hin'. apply Hk. now rewrite <- E.
        -- inversion Hnil.
    + intros Hin. apply (Hdisj k Hin). now constructor.
Qed.

Lemma assign_layers_shift (indices : list nat) (z : Q) (zs : list Q) (s : value)
    (ss : list value) (acc : dict) :
  assign_layers (map S indices) (z :: zs) (s :: ss) acc = assign_layers indices zs ss acc.
Proof.
  revert acc. induction indices as [|i rest IH]; intros acc; cbn.
  - reflexivity.
  - destruct (nth_error zs i), (nth_error ss i); auto.
Qed.

Lemma assign_layers_fold (zs : list Q) :
  forall (ss : list value) (acc : dict),
    List.length ss = List.length zs ->
    assign_layers (seq 0 (List.length ss)) zs ss acc
    = Ok (fold_left dict_set_item (combine zs ss) acc).
Proof.
  induction zs as [|z zs IH]; intros [|s ss] acc Hlen; try discriminate.
  - reflexivity.
  - cbn [List.length seq assign_layers nth_error combine fold_left].
    rewrite <- seq_shift, assign_layers_shift.
    apply IH. now injection Hlen.
Qed.

Lemma map_fst_combine_eq {A B : Type} (l : list A) :
  forall l' : list B, List.length l' = List.length l -> map fst (combine l l') = l.
Proof.
  induction l as [|x l IH]; intros [|y l'] Hlen; try discriminate; cbn.
  - reflexivity.
  - f_equal. apply IH. now injection Hlen.
Qed.

(** With one slice per height and heights that differ, the loop of
    [slice_mesh] pairs them up in order. *)
Lemma assign_layers_combine (zs : list Q) (ss : list value) :
  List.length ss = List.length zs ->
  NoDupA Qeq zs ->
  assign_layers (seq 0 (List.length ss)) zs ss [] = Ok (combine zs ss).
Proof.
  intros Hlen Hnd. rewrite assign_layers_fold by exact Hlen.
  rewrite fold_dict_set_fresh; [reflexivity | | ].
  - intros k Hin. inversion Hin.
  - now rewrite map_fst_combine_eq.
Qed.

(** * Properties of the plane schedule *)

Section ScheduleFacts.
Context `{Collaborators}.

(** What a run of [slice_mesh] of [stlslicer.py] amounts to for a loaded
    mesh and a positive pitch: the schedule is the specification's, the
    plane origin is the centroid's X and Y over the lowest Z, and the
    slices the sectioner returns are assigned to the heights by index. *)
Lemma slice_mesh_run (s : state) (m : Mesh) (x0 y0 z_min x1 y1 z_max pitch : Q) :
  mesh (self s) = Bound (Some m) ->
  bounds m = Some ((x0, y0, z_min), (x1, y1, z_max)) ->
  (z_min <= z_max)%Q ->
  (0 < pitch)%Q ->
  let z_list := spec_schedule z_min z_max pitch in
  let slices_2D :=
    section_multiplane m (Stlslicer.plane_origin m z_min) [0; 0; 1]%Q z_list in
  let w' :=
    with_logged (world s)
      [(DEBUG, layer_heights_message m (inject_Z 0 * pitch)%Q
                 (inject_Z (Qfloor ((z_max - z_min) / pitch)) * pitch)%Q pitch
                 (List.length z_list))] in
  Stlslicer.slice_mesh (Some pitch) s =
  match assign_layers (seq 0 (List.length slices_2D)) z_list slices_2D [] with
  | Ok layers => (Ok layers, {| self := with_layers (self s) layers; world := w' |})
  | Raise e => (Raise e, {| self := self s; world := w' |})
  | OutOfFuel => (OutOfFuel, {| self := self s; world := w' |})
  end.
Proof.
  intros Hmesh Hbounds Hz Hp z_list slices_2D w'.
  destruct s as [o w]. cbn [self world] in *.
  assert (Hext : (0 <= z_max - z_min)%Q)
    by (apply (Qplus_le_l _ _ z_min); ring_simplify; exact Hz).
  assert (Hn : (0 <= Qfloor ((z_max - z_min) / pitch))%Z)
    by (apply Qfloor_nonneg; now apply Qdiv_nonneg).
  unfold Stlslicer.slice_mesh, distance_or_self, mesh_attr, getattr, get_self, bind.
  cbn [truthy]. rewrite (Qeq_bool_pos pitch Hp). cbn [negb ret self world].
  rewrite Hmesh. cbn [ret]. rewrite Hbounds.
  unfold lift. rewrite (int_of_quotient_floor _ _ Hext Hp). cbv beta iota.
  rewrite (first_item_heights _ _ Hn), (last_item_heights _ _ Hn). cbv beta iota.
  rewrite heights_spec_schedule. fold z_list. fold slices_2D.
  unfold log, set_layers, get_self, get_world, put_self, put_world, bind, ret.
  cbn [world self].
  fold (with_logged w [(DEBUG, layer_heights_message m (inject_Z 0 * pitch)%Q
                 (inject_Z (Qfloor ((z_max - z_min) / pitch)) * pitch)%Q pitch
                 (List.length z_list))]).
  fold w'.
  destruct (assign_layers (seq 0 (List.length slices_2D)) z_list slices_2D []);
    reflexivity.
Qed.


(** The specification's schedule starts at offset 0 and ends at or below
    the extent of the mesh. *)
Lemma spec_schedule_bounds (z_min z_max pitch : Q) :
  (z_min <= z_max)%Q ->
  (0 < pitch)%Q ->
  List.length (spec_schedule z_min z_max pitch)
    = S (Z.to_nat (Qfloor ((z_max - z_min) / pitch))) /\
  (exists z0, first_item (spec_schedule z_min z_max pitch) = Ok z0 /\ (z0 == 0)%Q) /\
  (exists zn, last_item (spec_schedule z_min z_max pitch) = Ok zn /\
              (zn <= z_max - z_min)%Q).
Proof.
  intros Hz Hp.
  assert (Hext : (0 <= z_max - z_min)%Q)
    by (apply (Qplus_le_l _ _ z_min); ring_simplify; exact Hz).
  assert (Hn : (0 <= Qfloor ((z_max - z_min) / pitch))%Z)
    by (apply Qfloor_nonneg; now apply Qdiv_nonneg).
  rewrite <- heights_spec_schedule. repeat split.
  - rewrite heights_length. lia.
  - exists (inject_Z 0 * pitch)%Q. split.
    + now apply first_item_heights.
    + apply Qmult_0_l.
  - exists (inject_Z (Qfloor ((z_max - z_min) / pitch)) * pitch)%Q. split.
    + now apply last_item_heights.
    + now apply floor_times_pitch_le.
Qed.

(** [slice_mesh] of [stlslicer.py] hands the sectioner the specification's
    schedule and the origin at the bottom of the mesh, and keeps what comes
    back, whenever the sectioner returns one slice per height. *)
Lemma slice_mesh_conforms (s : state) (m : Mesh) (x0 y0 z_min x1 y1 z_max pitch : Q) :
  mesh (self s) = Bound (Some m) ->
  bounds m = Some ((x0, y0, z_min), (x1, y1, z_max)) ->
  (z_min <= z_max)%Q ->
  (0 < pitch)%Q ->
  (forall origin normal hs,
      List.length (section_multiplane m origin normal hs) = List.length hs) ->
  let z_list := spec_schedule z_min z_max pitch in
  Stlslicer.plane_origin m z_min = [fst (fst (centroid m)); snd (fst (centroid m)); z_min] /\
  fst (Stlslicer.slice_mesh (Some pitch) s)
    = Ok (combine z_list
            (section_multiplane m (Stlslicer.plane_origin m z_min) [0; 0; 1]%Q z_list)) /\
  layers (self (snd (Stlslicer.slice_mesh (Some pitch) s)))
    = Bound (combine z_list
               (section_multiplane m (Stlslicer.plane_origin m z_min) [0; 0; 1]%Q z_list)).
Proof.
  intros Hmesh Hbounds Hz Hp Hlen z_list.
  assert (Hnz : ~ (pitch == 0)%Q)
    by (intros E; rewrite E in Hp; now apply Qlt_irrefl in Hp).
  split.
  - unfold Stlslicer.plane_origin. now destruct (centroid m) as [[cx cy] c].
  - rewrite (slice_mesh_run s m x0 y0 z_min x1 y1 z_max pitch Hmesh Hbounds Hz Hp).
    cbv zeta. fold z_list.
    rewrite assign_layers_combine.
    + split; reflexivity.
    + apply Hlen.
    + unfold z_list. rewrite <- heights_spec_schedule. now apply heights_NoDupA.
Qed.

Lemma nth_error_combine {A B : Type} (l : list A) :
  forall (l' : list B) (i : nat) (a : A) (b : B),
    nth_error l i = Some a -> nth_error l' i = Some b ->
    nth_error (combine l l') i = Some (a, b).
Proof.
  induction l as [|x l IH]; intros [|y l'] [|i] a b Ha Hb; try discriminate; cbn in *.
  - congruence.
  - now apply IH.
Qed.

(** C4.  For a loaded mesh with bounds and a positive pitch, given a
    sectioner that returns one result per height, the layer store that
    [slice_mesh] returns and keeps in [self.layers] pairs the scheduled
    heights with the sectioner's results, one entry per height and in the
    order of the schedule; a height whose plane gave [None] keeps its entry,
    with [None] as its cross-section. *)
Theorem layer_store_one_entry_per_height
    (s : state) (m : Mesh) (x0 y0 z_min x1 y1 z_max pitch : Q) :
  mesh (self s) = Bound (Some m) ->
  bounds m = Some ((x0, y0, z_min), (x1, y1, z_max)) ->
  (z_min <= z_max)%Q ->
  (0 < pitch)%Q ->
  (forall origin normal hs,
      List.length (section_multiplane m origin normal hs) = List.length hs) ->
  let z_list := spec_schedule z_min z_max pitch in
  let slices_2D :=
    section_multiplane m (Stlslicer.plane_origin m z_min) [0; 0; 1]%Q z_list in
  exists store : dict,
    fst (Stlslicer.slice_mesh (Some pitch) s) = Ok store /\
    layers (self (snd (Stlslicer.slice_mesh (Some pitch) s))) = Bound store /\
    List.length store = List.length z_list /\
    map fst store = z_list /\
    map snd store = slices_2D /\
    (forall i, nth_error slices_2D i = Some VNone ->
               exists z, nth_error z_list i = Some z /\
                         nth_error store i = Some (z, VNone)).
Proof.
  intros Hmesh Hbounds Hz Hp Hlen z_list slices_2D.
  destruct (slice_mesh_conforms s m x0 y0 z_min x1 y1 z_max pitch
              Hmesh Hbounds Hz Hp Hlen) as [_ [Hres Hself]].
  fold z_list in Hres, Hself. fold slices_2D in Hres, Hself.
  assert (Hl : List.length slices_2D = List.length z_list) by apply Hlen.
  exists (combine z_list slices_2D). repeat split.
  - exact Hres.
  - exact Hself.
  - rewrite length_combine, Hl. apply Nat.min_id.
  - now apply map_fst_combine_eq.
  - clear Hres Hself. revert Hl. generalize slices_2D as ss. generalize z_list as zs.
    induction zs as [|z zs IH]; intros [|x ss] Hl'; try discriminate; cbn.
    + reflexivity.
    + f_equal. apply IH. now injection Hl'.
  - intros i Hi.
    assert (Hlt : (i < List.length z_list)%nat)
      by (rewrite <- Hl; apply nth_error_Some; congruence).
    destruct (nth_error z_list i) as [z|] eqn:Ez.
    + exists z. split; [reflexivity|]. now apply nth_error_combine.
    + apply nth_error_None in Ez. lia.
Qed.

(** [int(x / d)] for a negative divisor: the quotient is not positive and
    truncation rounds it up. *)
Lemma int_of_quotient_negative (x d : Q) :
  (0 <= x)%Q -> (d < 0)%Q -> int_of_quotient x d = Ok (- Qfloor (x / - d))%Z.
Proof.
  intros Hx Hd. unfold int_of_quotient.
  rewrite (Qeq_bool_neg d Hd).
  assert (Hnz : ~ (d == 0)%Q)
    by (intros E; rewrite E in Hd; now apply Qlt_irrefl in Hd).
  assert (Hpos : (0 < - d)%Q)
    by (apply (Qplus_lt_l _ _ d); ring_simplify; exact Hd).
  assert (E : (- (x / d) == x / - d)%Q) by (field; exact Hnz).
  destruct (Qle_bool 0 (x / d)) eqn:Hq.
  - apply Qle_bool_iff in Hq.
    assert (Hr : (0 <= x / - d)%Q) by now apply Qdiv_nonneg.
    assert (Hz : (x / d == 0)%Q).
    { apply Qle_antisym; [|exact Hq].
      apply (Qplus_le_l _ _ (- (x / d))). ring_simplify.
      setoid_replace (-1 * (x / d))%Q with (x / - d)%Q; [exact Hr|].
      rewrite <- E. ring. }
    rewrite (Qfloor_comp _ _ Hz).
    assert (Hz' : (x / - d == 0)%Q) by (rewrite <- E, Hz; reflexivity).
    now rewrite (Qfloor_comp _ _ Hz').
  - unfold Qceiling. now rewrite (Qfloor_comp _ _ E).
Qed.

Lemma Qfloor_ge_1 (r : Q) : (1 <= r)%Q -> (1 <= Qfloor r)%Z.
Proof. intros Hr. change 1%Z with (Qfloor 1). now apply Qfloor_resp_le. Qed.

Lemma Qfloor_lt_1 (r : Q) : (r < 1)%Q -> (Qfloor r < 1)%Z.
Proof.
  intros Hr. rewrite Zlt_Qlt.
  apply Qle_lt_trans with r; [apply Qfloor_le | exact Hr].
Qed.

(** C3, as the code has it.  [slice_mesh] has no parameter check and no
    [InvalidParameter] failure.  A zero pitch counts as no pitch: the call
    behaves as the call without argument, which reads [self.distance].  A
    negative pitch is divided by as given: when the extent of the mesh
    reaches its magnitude the schedule is empty and logging its first height
    raises [IndexError]; when the extent is smaller the schedule is the
    single height [0 * pitch], which is sliced. *)
Theorem slice_mesh_nonpositive_pitch
    (s : state) (m : Mesh) (x0 y0 z_min x1 y1 z_max pitch : Q) :
  mesh (self s) = Bound (Some m) ->
  bounds m = Some ((x0, y0, z_min), (x1, y1, z_max)) ->
  (z_min <= z_max)%Q ->
  (pitch <= 0)%Q ->
  ((pitch == 0)%Q ->
     Stlslicer.slice_mesh (Some pitch) s = Stlslicer.slice_mesh None s) /\
  ((pitch < 0)%Q -> (- pitch <= z_max - z_min)%Q ->
     Stlslicer.slice_mesh (Some pitch) s = (Raise IndexError, s)) /\
  ((pitch < 0)%Q -> (z_max - z_min < - pitch)%Q ->
     fst (Stlslicer.slice_mesh (Some pitch) s) =
     let z_list := [(inject_Z 0 * pitch)%Q] in
     let slices_2D :=
       section_multiplane m (Stlslicer.plane_origin m z_min) [0; 0; 1]%Q z_list in
     assign_layers (seq 0 (List.length slices_2D)) z_list slices_2D []).
Proof.
  intros Hmesh Hbounds Hz Hp.
  assert (Hext : (0 <= z_max - z_min)%Q)
    by (apply (Qplus_le_l _ _ z_min); ring_simplify; exact Hz).
  destruct s as [o w]. cbn [self world] in *.
  split; [|split].
  - intros E. unfold Stlslicer.slice_mesh, distance_or_self. cbn [truthy].
    now rewrite (Qeq_eq_bool _ _ E).
  - intros Hneg Hreach.
    assert (Hpos : (0 < - pitch)%Q)
      by (apply (Qplus_lt_l _ _ pitch); ring_simplify; exact Hneg).
    assert (Hr : (1 <= Qfloor ((z_max - z_min) / - pitch))%Z).
    { apply Qfloor_ge_1. apply Qle_shift_div_l; [exact Hpos|].
      now rewrite Qmult_1_l. }
    unfold Stlslicer.slice_mesh, distance_or_self, mesh_attr, getattr, get_self, bind.
    cbn [truthy]. rewrite (Qeq_bool_neg pitch Hneg). cbn [negb ret self world].
    rewrite Hmesh. cbn [ret]. rewrite Hbounds.
    unfold lift. rewrite (int_of_quotient_negative _ _ Hext Hneg). cbv beta iota.
    unfold heights.
    replace (Z.to_nat (- Qfloor ((z_max - z_min) / - pitch) + 1)) with 0%nat by lia.
    reflexivity.
  - intros Hneg Hshort.
    assert (Hpos : (0 < - pitch)%Q)
      by (apply (Qplus_lt_l _ _ pitch); ring_simplify; exact Hneg).
    assert (Hr : (Qfloor ((z_max - z_min) / - pitch) = 0)%Z).
    { assert (Hlo : (0 <= Qfloor ((z_max - z_min) / - pitch))%Z)
        by (apply Qfloor_nonneg; now apply Qdiv_nonneg).
      assert (Hhi : (Qfloor ((z_max - z_min) / - pitch) < 1)%Z).
      { apply Qfloor_lt_1. apply Qlt_shift_div_r; [exact Hpos|].
        now rewrite Qmult_1_l. }
      lia. }
    unfold Stlslicer.slice_mesh, distance_or_self, mesh_attr, getattr, get_self, bind.
    cbn [truthy]. rewrite (Qeq_bool_neg pitch Hneg). cbn [negb ret self world].
    rewrite Hmesh. cbn [ret]. rewrite Hbounds.
    unfold lift. rewrite (int_of_quotient_negative _ _ Hext Hneg). cbv beta iota.
    rewrite Hr. change (heights (- 0) pitch) with [(inject_Z 0 * pitch)%Q].
    cbn [first_item last_item rev app]. cbv beta iota zeta.
    unfold log, set_layers, get_self, get_world, put_self, put_world, bind, ret.
    cbn [world self].
    destruct (assign_layers _ _ _ _); reflexivity.
Qed.

(** C10.  With [distance] never assigned, as [STLSlicer.__init__] of
    [stlslicer.py] leaves it, [slice_mesh] called without a distance, with
    [None] or with [0] raises [AttributeError] for the attribute [distance]
    before anything else happens: [distance or self.distance] takes [0] as
    absent and reads the attribute. *)
Theorem slice_mesh_unset_distance (s : state) (arg : option Q) :
  distance (self s) = Unset ->
  (arg = None \/ exists q, arg = Some q /\ (q == 0)%Q) ->
  Stlslicer.slice_mesh arg s = (Raise (AttributeError "distance"), s).
Proof.
  intros Hd Harg. destruct s as [o w]. cbn in Hd.
  unfold Stlslicer.slice_mesh, distance_or_self, getattr, get_self, bind, raise.
  destruct Harg as [-> | [q [-> Hq]]]; cbn.
  - now rewrite Hd.
  - rewrite (Qeq_eq_bool _ _ Hq). cbn. now rewrite Hd.
Qed.

End ScheduleFacts.

(** C1, on [main.py].  For the cube at [5 <= z <= 15] and pitch 5 the
    specification schedules [floor((15 - 5) / 5) + 1 = 3] heights, [0, 5, 10].
    [slice_mesh] of [main.py] divides [z_max] alone by the pitch and builds
    4 heights, [0, 5, 10, 15]; the last one is beyond the extent
    [z_max - z_min = 10] of the mesh. *)
Theorem main_slice_mesh_schedule_ignores_z_min :
  bounds Demo.lifted_cube = Some ((20, 30, 5)%Q, (30, 40, 15)%Q) /\
  spec_plane_count 5 15 5 = 3%nat /\
  spec_schedule 5 15 5 = [0; 5; 10]%Q /\
  exists store : dict,
    fst (Main.slice_mesh (H := Demo.collaborators) (Some 5)
           (Demo.main_loaded "lifted/cube.stl")) = Ok store /\
    map fst store = [0; 5; 10; 15]%Q /\
    List.length store = 4%nat /\
    ~ (15 <= 15 - 5)%Q.
Proof.
  split; [reflexivity|]. split; [reflexivity|]. split; [reflexivity|].
  eexists. split; [vm_compute; reflexivity|].
  split; [reflexivity|]. split; [reflexivity|].
  intros Hle. vm_compute in Hle. exact (Hle eq_refl).
Qed.

(** On the same input [slice_mesh] of [stlslicer.py] builds the
    specification's three heights. *)
Example stlslicer_schedule_on_lifted_cube :
  exists store : dict,
    fst (Stlslicer.slice_mesh (H := Demo.collaborators) (Some 5)
           (Demo.loaded "lifted/cube.stl")) = Ok store /\
    map fst store = spec_schedule 5 15 5.
Proof. eexists. split; vm_compute; reflexivity. Qed.

(** C5, on [main.py].  For the cube at [5 <= z <= 15] with centroid
    [(25, 35, 10)], [slice_mesh] of [main.py] uses the plane origin
    [(25, 35, 0)]: X and Y are the centroid's, Z is [0] and not the lowest
    Z of the mesh, [5].  The slice at offset 0 therefore lies below the model
    and is empty, and every reported plane carries that origin. *)
Theorem main_slice_mesh_origin_at_zero :
  bounds Demo.lifted_cube = Some ((20, 30, 5)%Q, (30, 40, 15)%Q) /\
  centroid Demo.lifted_cube = (25, 35, 10)%Q /\
  Main.plane_origin Demo.lifted_cube = [25; 35; 0]%Q /\
  Stlslicer.plane_origin Demo.lifted_cube 5 = [25; 35; 5]%Q /\
  exists store : dict,
    fst (Main.slice_mesh (H := Demo.collaborators) (Some 5)
           (Demo.main_loaded "lifted/cube.stl")) = Ok store /\
    nth_error store 0 = Some (0%Q, VNone) /\
    nth_error store 1 =
      Some (5%Q, VPath2D [(VStr "plane_origin", VList [VFloat 25; VFloat 35; VFloat 0]);
                          (VStr "plane_z", VFloat 5)]).
Proof.
  split; [reflexivity|]. split; [reflexivity|].
  split; [reflexivity|]. split; [reflexivity|].
  eexists. split; [vm_compute; reflexivity|].
  split; reflexivity.
Qed.

(** On the same input [slice_mesh] of [stlslicer.py] puts the origin at the
    bottom of the model. *)
Example stlslicer_origin_on_lifted_cube :
  exists store : dict,
    fst (Stlslicer.slice_mesh (H := Demo.collaborators) (Some 5)
           (Demo.loaded "lifted/cube.stl")) = Ok store /\
    nth_error store 0 =
      Some (0%Q, VPath2D [(VStr "plane_origin", VList [VFloat 25; VFloat 35; VFloat 5]);
                          (VStr "plane_z", VFloat 5)]).
Proof. eexists. split; vm_compute; reflexivity. Qed.

Lemma slice_mesh_unset_distance_witness :
  distance (self Demo.fresh) = Unset /\
  Stlslicer.slice_mesh (H := Demo.collaborators) (Some (0 # 7)) Demo.fresh =
    (Raise (AttributeError "distance"), Demo.fresh).
Proof.
  split; [reflexivity|].
  apply (slice_mesh_unset_distance (H := Demo.collaborators) Demo.fresh (Some (0 # 7))).
  - reflexivity.
  - right. exists (0 # 7). split; reflexivity.
Defined.

Lemma layer_store_one_entry_per_height_witness :
  exists store : dict,
    fst (Stlslicer.slice_mesh (H := Demo.collaborators) (Some (5 # 2))
           (Demo.loaded "cube.stl")) = Ok store /\
    layers (self (snd (Stlslicer.slice_mesh (H := Demo.collaborators) (Some (5 # 2))
                         (Demo.loaded "cube.stl")))) = Bound store /\
    List.length store
      = List.length (spec_schedule 0 10 (5 # 2)) /\
    map fst store = spec_schedule 0 10 (5 # 2) /\
    map snd store
      = Demo.box_section (set_units Demo.cube "mm")
          (Stlslicer.plane_origin (set_units Demo.cube "mm") 0) [0; 0; 1]%Q
          (spec_schedule 0 10 (5 # 2)) /\
    (forall i,
        nth_error (Demo.box_section (set_units Demo.cube "mm")
                     (Stlslicer.plane_origin (set_units Demo.cube "mm") 0) [0; 0; 1]%Q
                     (spec_schedule 0 10 (5 # 2))) i = Some VNone ->
        exists z, nth_error (spec_schedule 0 10 (5 # 2)) i = Some z /\
                  nth_error store i = Some (z, VNone)).
Proof.
  apply (layer_store_one_entry_per_height (H := Demo.collaborators)
           (Demo.loaded "cube.stl") (set_units Demo.cube "mm") 0 0 0 10 10 10 (5 # 2)).
  - reflexivity.
  - reflexivity.
  - unfold Qle; simpl; lia.
  - unfold Qlt; simpl; lia.
  - intros origin normal hs. apply length_map.
Defined.

Lemma slice_mesh_nonpositive_pitch_witness :
  (((-20) == 0)%Q ->
     Stlslicer.slice_mesh (H := Demo.collaborators) (Some (-20)%Q) (Demo.loaded "cube.stl")
     = Stlslicer.slice_mesh (H := Demo.collaborators) None (Demo.loaded "cube.stl")) /\
  (((-20) < 0)%Q -> (- (-20) <= 10 - 0)%Q ->
     Stlslicer.slice_mesh (H := Demo.collaborators) (Some (-20)%Q) (Demo.loaded "cube.stl")
     = (Raise IndexError, Demo.loaded "cube.stl")) /\
  (((-20) < 0)%Q -> (10 - 0 < - (-20))%Q ->
     fst (Stlslicer.slice_mesh (H := Demo.collaborators) (Some (-20)%Q)
            (Demo.loaded "cube.stl")) =
     let z_list := [(inject_Z 0 * (-20))%Q] in
     let slices_2D :=
       Demo.box_section (set_units Demo.cube "mm")
         (Stlslicer.plane_origin (set_units Demo.cube "mm") 0) [0; 0; 1]%Q z_list in
     assign_layers (seq 0 (List.length slices_2D)) z_list slices_2D []).
Proof.
  apply (slice_mesh_nonpositive_pitch (H := Demo.collaborators)
           (Demo.loaded "cube.stl") (set_units Demo.cube "mm") 0 0 0 10 10 10 (-20)%Q).
  - reflexivity.
  - reflexivity.
  - unfold Qle; simpl; lia.
  - unfold Qle; simpl; lia.
Defined.

(** A negative pitch is accepted: on the 10 mm cube, pitch [-20] is divided
    by, a one-plane schedule is built and the call returns its layer. *)
Lemma slice_mesh_negative_pitch_accepted :
  ((-20) <= 0)%Q /\
  fst (Stlslicer.slice_mesh (H := Demo.collaborators) (Some (-20)%Q)
         (Demo.loaded "cube.stl"))
  = Ok [(0%Q, VPath2D [(VStr "plane_origin", VList [VFloat 5; VFloat 5; VFloat 0]);
                       (VStr "plane_z", VFloat 0)])].
Proof.
  split.
  - unfold Qle; simpl; lia.
  - vm_compute. reflexivity.
Qed.

(** * Properties of the export *)

Section ExportFacts.
Context `{Collaborators}.

Lemma layers_or_self_run (arg : option dict) (s : state) (store : dict) :
  layers (self s) = Bound store ->
  layers_or_self arg s = (Ok (effective_layers arg store), s).
Proof.
  intros Hl. destruct s as [o w]. cbn [self] in Hl.
  unfold layers_or_self, effective_layers, dict_value, getattr, get_self, bind, ret.
  destruct arg as [[|kv d]|]; cbn; now rewrite ?Hl.
Qed.

Lemma slice_data_head_run (s : state) (store : dict) (source stem : string)
    (m : Mesh) (watertight : bool) :
  session_ready (self s) store source stem m watertight ->
  slice_data_head s =
  (Ok [(VStr "source", VStr source); (VStr "units", VStr (str_units m));
       (VStr "watertight", VBool watertight)], s).
Proof.
  intros (_ & Hsrc & _ & Hmesh & Hwt). destruct s as [o w]. cbn [self] in *.
  unfold slice_data_head, mesh_attr, getattr, get_self, bind, ret. cbn.
  rewrite Hsrc. cbn. rewrite Hmesh. cbn. now rewrite Hwt.
Qed.

Lemma string_length_append (a b : string) :
  String.length (a ++ b) = (String.length a + String.length b)%nat.
Proof. induction a as [|c a IH]; cbn; [reflexivity | now rewrite IH]. Qed.

Lemma get_skip (s1 s2 : string) (n : nat) :
  String.get (String.length s1 + n) (s1 ++ s2) = String.get n s2.
Proof. rewrite Nat.add_comm. symmetry. apply append_correct2. Qed.

Lemma pad_2_length (n : nat) : (n < 100)%nat -> String.length (pad 2 n) = 2%nat.
Proof.
  intros Hn.
  assert (Hall : forallb (fun i => Nat.eqb (String.length (pad 2 i)) 2) (seq 0 100) = true)
    by (vm_compute; reflexivity).
  rewrite forallb_forall in Hall. apply Nat.eqb_eq, Hall, in_seq. lia.
Qed.

Lemma pad_4_length (n : nat) : (n < 10000)%nat -> String.length (pad 4 n) = 4%nat.
Proof.
  intros Hn.
  assert (Hall : forallb (fun i => Nat.eqb (String.length (pad 4 i)) 4) (seq 0 10000) = true)
    by (vm_compute; reflexivity).
  rewrite forallb_forall in Hall. apply Nat.eqb_eq, Hall, in_seq. lia.
Qed.

(** The timestamp has the shape [YYYYMMDD-HHMMSS]: fifteen characters with
    the dash in ninth place. *)
Lemma strftime_shape (t : datetime) :
  plausible t ->
  String.length (strftime t) = 15%nat /\ String.get 8 (strftime t) = Some "-"%char.
Proof.
  intros (Hy & Hmo & Hd & Hh & Hmi & Hs). unfold strftime. split.
  - rewrite !string_length_append.
    rewrite (pad_4_length _ Hy), (pad_2_length _ Hmo), (pad_2_length _ Hd),
      (pad_2_length _ Hh), (pad_2_length _ Hmi), (pad_2_length _ Hs).
    reflexivity.
  - match goal with
    | |- String.get 8 (?a ++ ?b) = _ => pose proof (get_skip a b 4) as E
    end.
    rewrite (pad_4_length _ Hy) in E. cbn [Nat.add] in E. rewrite E. clear E.
    match goal with
    | |- String.get 4 (?a ++ ?b) = _ => pose proof (get_skip a b 2) as E
    end.
    rewrite (pad_2_length _ Hmo) in E. cbn [Nat.add] in E. rewrite E. clear E.
    match goal with
    | |- String.get 2 (?a ++ ?b) = _ => pose proof (get_skip a b 0) as E
    end.
    rewrite (pad_2_length _ Hd) in E. cbn [Nat.add] in E. rewrite E.
    reflexivity.
Qed.

(** The retry loop: if the [k] next readings of the clock name taken paths
    and the reading after them names a free one, the loop returns that name
    after [k + 1] rounds, having created exactly that directory. *)
Lemma make_export_dir_spec (exp_type stem : string) (k : nat) :
  forall (fuel : nat) (o : STLSlicer) (w : World),
    filename o = Bound stem ->
    (forall j, (j < k)%nat ->
       path_exists w (export_dir_name stem exp_type (clock w (ticks w + j))) = true) ->
    path_exists w (export_dir_name stem exp_type (clock w (ticks w + k))) = false ->
    (k < fuel)%nat ->
    make_export_dir fuel exp_type {| self := o; world := w |} =
    (Ok (export_dir_name stem exp_type (clock w (ticks w + k))),
     {| self := o;
        world := world_with_dir w
                   (export_dir_name stem exp_type (clock w (ticks w + k))) k |}).
Proof.
  induction k as [|k IH]; intros fuel o w Hstem Hbusy Hfree Hfuel;
    (destruct fuel as [|fuel]; [lia|]).
  - rewrite Nat.add_0_r in *.
    cbn [make_export_dir].
    unfold now, getattr, try_except, makedirs, get_world, put_world,
      get_self, ret, raise, bind.
    cbn [world self]. rewrite Hstem. cbv beta iota.
    unfold path_exists in *. cbn [dirs files clock ticks world self].
    rewrite Hfree. cbv beta iota. cbn [dirs files clock ticks logged world self].
    unfold world_with_dir. now rewrite Nat.add_1_r.
  - cbn [make_export_dir].
    unfold now, getattr, try_except, makedirs, get_world, put_world,
      get_self, ret, raise, bind.
    cbn [world self]. rewrite Hstem. cbv beta iota.
    pose proof (Hbusy 0%nat ltac:(lia)) as Hfirst. rewrite Nat.add_0_r in Hfirst.
    unfold path_exists in Hfirst |- *. cbn [dirs files clock ticks world self].
    rewrite Hfirst. cbv beta iota. cbn [is_OSError].
    rewrite (IH fuel o _ Hstem).
    + cbn [clock ticks]. unfold world_with_dir. cbn [dirs files clock ticks logged].
      replace (S (ticks w) + k)%nat with (ticks w + S k)%nat by lia.
      replace (S (ticks w) + S k)%nat with (ticks w + S (S k))%nat by lia.
      reflexivity.
    + intros j Hj. cbn [clock ticks].
      replace (S (ticks w) + j)%nat with (ticks w + S j)%nat by lia.
      apply (Hbusy (S j)). lia.
    + cbn [clock ticks].
      replace (S (ticks w) + k)%nat with (ticks w + S k)%nat by lia.
      exact Hfree.
    + lia.
Qed.

Lemma prefix_app (d x : string) : String.prefix d (d ++ x) = true.
Proof.
  induction d as [|a d IH]; cbn.
  - now destruct x.
  - destruct (ascii_dec a a); [exact IH | congruence].
Qed.

Lemma prefix_dir_slash (d x : string) : String.prefix (d ++ "/") (d ++ "/" ++ x) = true.
Proof.
  replace (d ++ "/" ++ x)%string with ((d ++ "/") ++ x)%string.
  - apply prefix_app.
  - induction d as [|a d IH]; cbn; [reflexivity | now rewrite IH].
Qed.

Lemma file_lookup_file_set_other (fs : list (string * content)) (p p' : string)
    (c : content) :
  p' <> p -> file_lookup (file_set fs p c) p' = file_lookup fs p'.
Proof.
  intros Hne. induction fs as [|[q c'] fs IH]; cbn.
  - destruct (String.eqb_spec p p'); [congruence | reflexivity].
  - destruct (String.eqb_spec q p) as [->|Hq]; cbn.
    + destruct (String.eqb_spec p p'); [congruence | reflexivity].
    + destruct (String.eqb_spec q p'); [reflexivity | exact IH].
Qed.

Lemma file_lookup_file_set_same (fs : list (string * content)) (p : string) (c : content) :
  file_lookup (file_set fs p c) p = Some c.
Proof.
  induction fs as [|[q c'] fs IH]; cbn.
  - now rewrite String.eqb_refl.
  - destruct (String.eqb_spec q p) as [->|Hq]; cbn.
    + now rewrite String.eqb_refl.
    + destruct (String.eqb_spec q p); [congruence | exact IH].
Qed.

Lemma writes_inside_refl (dir : string) (w : World) : writes_inside dir w w.
Proof. repeat split. Qed.

Lemma writes_inside_trans (dir : string) (w1 w2 w3 : World) :
  writes_inside dir w1 w2 -> writes_inside dir w2 w3 -> writes_inside dir w1 w3.
Proof.
  intros (Hd & Ht & Hc & Hf) (Hd' & Ht' & Hc' & Hf'). repeat split; try congruence.
  intros p Hp. now rewrite Hf', Hf.
Qed.

Lemma keeps_inside_ret {A : Type} (dir : string) (a : A) : keeps_inside dir (ret a).
Proof. intros s. split; [reflexivity | apply writes_inside_refl]. Qed.

Lemma keeps_inside_raise {A : Type} (dir : string) (e : exn) :
  keeps_inside dir (raise (A := A) e).
Proof. intros s. split; [reflexivity | apply writes_inside_refl]. Qed.

Lemma keeps_inside_lift {A : Type} (dir : string) (r : result A) :
  keeps_inside dir (lift r).
Proof. intros s. split; [reflexivity | apply writes_inside_refl]. Qed.

Lemma keeps_inside_bind {A B : Type} (dir : string) (c : M A) (k : A -> M B) :
  keeps_inside dir c -> (forall a, keeps_inside dir (k a)) ->
  keeps_inside dir (bind c k).
Proof.
  intros Hc Hk s. unfold bind. specialize (Hc s).
  destruct (c s) as [[a|e|] s1]; cbn [fst snd] in *; try exact Hc.
  destruct Hc as [Hself Hw]. destruct (Hk a s1) as [Hself' Hw']. split.
  - congruence.
  - eapply writes_inside_trans; eassumption.
Qed.

Lemma keeps_inside_try_except {A : Type} (dir : string) (c : M A)
    (handled : exn -> bool) (h : exn -> M A) :
  keeps_inside dir c -> (forall e, keeps_inside dir (h e)) ->
  keeps_inside dir (try_except c handled h).
Proof.
  intros Hc Hh s. unfold try_except. specialize (Hc s).
  destruct (c s) as [[a|e|] s1]; cbn [fst snd] in *; try exact Hc.
  destruct (handled e); [|exact Hc].
  destruct Hc as [Hself Hw]. destruct (Hh e s1) as [Hself' Hw']. split.
  - congruence.
  - eapply writes_inside_trans; eassumption.
Qed.

Lemma keeps_inside_getattr {A : Type} (dir name : string) (proj : STLSlicer -> attr A) :
  keeps_inside dir (getattr name proj).
Proof.
  intros [o w]. unfold getattr, get_self, bind. cbn.
  destruct (proj o); cbn; split; auto using writes_inside_refl.
Qed.

Lemma keeps_inside_log (dir : string) (l : level) (msg : string) :
  keeps_inside dir (log l msg).
Proof. intros [o w]. cbn. repeat split. Qed.

Lemma keeps_inside_write_file (dir rest : string) (c : content) :
  keeps_inside dir (write_file (dir ++ "/" ++ rest) c).
Proof.
  intros [o w]. cbn -[String.prefix String.append file_lookup file_set]. repeat split.
  intros p Hp. apply file_lookup_file_set_other.
  intros ->. now rewrite prefix_dir_slash in Hp.
Qed.

Lemma layer_file_inside (dir base fmt : string) (h : Q) :
  layer_file dir base fmt h = (dir ++ "/" ++ base ++ "_" ++ float_repr h ++ "." ++ fmt)%string.
Proof. reflexivity. Qed.

(** Whatever the vector writer does, the loop over the layers only writes
    below the export directory. *)
Lemma export_each_keeps_inside (dir base fmt : string) (items : dict) :
  forall index : dict, keeps_inside dir (Stlslicer.export_each items dir base fmt index).
Proof.
  induction items as [|[h p] items IH]; intros index; cbn [Stlslicer.export_each].
  - apply keeps_inside_ret.
  - apply keeps_inside_bind; [|intros a; apply IH].
    apply keeps_inside_try_except.
    + apply keeps_inside_bind; [|intros a; apply keeps_inside_ret].
      unfold export_path. apply keeps_inside_bind; [apply keeps_inside_lift|].
      intros text. rewrite layer_file_inside. apply keeps_inside_write_file.
    + intros e. apply keeps_inside_bind; [apply keeps_inside_log|].
      intros a. apply keeps_inside_ret.
Qed.

Lemma export_into_keeps_inside (dir exp_type : string) (head : list (value * value))
    (layers : dict) :
  keeps_inside dir (Stlslicer.export_into dir exp_type head layers).
Proof.
  unfold Stlslicer.export_into.
  apply keeps_inside_bind; [apply keeps_inside_getattr|]. intros stem.
  apply keeps_inside_bind; [apply keeps_inside_write_file|]. intros _.
  apply keeps_inside_bind; [apply export_each_keeps_inside|]. intros index.
  apply keeps_inside_bind; [apply keeps_inside_lift|]. intros exp_string.
  apply keeps_inside_bind; [apply keeps_inside_write_file|]. intros _.
  apply keeps_inside_bind; [apply keeps_inside_log|]. intros _.
  apply keeps_inside_ret.
Qed.

(** Reading attributes changes nothing. *)
Lemma getattr_reads_only {A : Type} (name : string) (proj : STLSlicer -> attr A) (s : state) :
  snd (getattr name proj s) = s.
Proof.
  destruct s as [o w]. unfold getattr, get_self, bind. cbn.
  now destruct (proj o).
Qed.

Lemma layers_or_self_reads_only (arg : option dict) (s : state) :
  snd (layers_or_self arg s) = s.
Proof.
  unfold layers_or_self. destruct arg as [d|].
  - destruct (truthy (dict_value d)); [reflexivity | apply getattr_reads_only].
  - apply getattr_reads_only.
Qed.

Lemma slice_data_head_reads_only (s : state) : snd (slice_data_head s) = s.
Proof.
  destruct s as [o w].
  unfold slice_data_head, mesh_attr, getattr, get_self, bind, ret, raise. cbn.
  destruct (full_filename o); cbn; [reflexivity|].
  destruct (mesh o) as [|[m|]]; cbn; try reflexivity.
  now destruct (mesh_watertight o).
Qed.

(** The retry loop on any session, with any bound: either it returns the
    name of a path that was free, having created that directory and nothing
    else, or it does not return and directories, files and log are as they
    were. *)
Lemma make_export_dir_safe (exp_type : string) (fuel : nat) :
  forall (o : STLSlicer) (w : World),
    self (snd (make_export_dir fuel exp_type {| self := o; world := w |})) = o /\
    ((exists stem k,
         filename o = Bound stem /\
         fst (make_export_dir fuel exp_type {| self := o; world := w |})
           = Ok (export_dir_name stem exp_type (clock w (ticks w + k))) /\
         path_exists w (export_dir_name stem exp_type (clock w (ticks w + k))) = false /\
         world (snd (make_export_dir fuel exp_type {| self := o; world := w |}))
           = world_with_dir w (export_dir_name stem exp_type (clock w (ticks w + k))) k)
     \/
     ((forall d, fst (make_export_dir fuel exp_type {| self := o; world := w |}) <> Ok d) /\
      dirs (world (snd (make_export_dir fuel exp_type {| self := o; world := w |}))) = dirs w /\
      files (world (snd (make_export_dir fuel exp_type {| self := o; world := w |}))) = files w)).
Proof.
  induction fuel as [|fuel IH]; intros o w.
  - cbn. split; [reflexivity|]. right. repeat split. discriminate.
  - cbn [make_export_dir].
    unfold now, getattr, try_except, makedirs, get_world, put_world,
      get_self, ret, raise, bind.
    cbn [world self]. destruct (filename o) as [|stem] eqn:Hstem; cbv beta iota.
    + cbn. split; [reflexivity|]. right. repeat split. discriminate.
    + cbn [dirs files clock ticks world self].
      change (path_exists {| dirs := dirs w; files := files w; clock := clock w;
                             ticks := S (ticks w); logged := logged w |}
                (export_dir_name stem exp_type (clock w (ticks w))))
        with (path_exists w (export_dir_name stem exp_type (clock w (ticks w)))).
      destruct (path_exists w (export_dir_name stem exp_type (clock w (ticks w))))
        eqn:Htaken; cbv beta iota; cbn [is_OSError]; cbv beta iota.
      * set (w1 := {| dirs := dirs w; files := files w; clock := clock w;
                      ticks := S (ticks w); logged := logged w |}).
        destruct (IH o w1) as [Hself [(stem' & k & Hstem' & Hres & Hfree & Hw) | (Hno & Hd & Hf)]].
        -- split; [exact Hself|]. left. exists stem, (S k).
           assert (stem' = stem) as -> by congruence.
           assert (Et : (ticks w1 + k = ticks w + S k)%nat) by (cbn [ticks w1]; lia).
           assert (Ec : clock w1 = clock w) by reflexivity.
           rewrite Et, Ec in Hres, Hfree, Hw.
           split; [reflexivity|]. split; [exact Hres|]. split; [exact Hfree|].
           rewrite Hw. unfold world_with_dir. cbn [dirs files clock ticks logged w1].
           f_equal. lia.
        -- split; [exact Hself|]. right. repeat split; assumption.
      * cbn [self world snd fst dirs files clock ticks logged].
        split; [reflexivity|]. left. exists stem, 0%nat.
        rewrite Nat.add_0_r. repeat split; try assumption.
        unfold world_with_dir. now rewrite Nat.add_1_r.
Qed.

(** Directory export on any session never touches what existed: either
    no directory and no file changed, or exactly one directory was created,
    at a path that was free, named [<stem>_<format>_<timestamp>] after a
    reading of the clock, and every file outside it is as it was. *)
Lemma export_layers_directory_safe
    (fuel : nat) (exp_type : string) (arg : option dict) (s : state) :
  exp_type = "dxf" \/ exp_type = "svg" ->
  let after := world (snd (Stlslicer.export_layers fuel exp_type arg s)) in
  (dirs after = dirs (world s) /\ files after = files (world s)) \/
  (exists stem k,
      let dir := export_dir_name stem exp_type (clock (world s) (ticks (world s) + k)) in
      filename (self s) = Bound stem /\
      path_exists (world s) dir = false /\
      dirs after = dirs (world s) ++ [dir] /\
      forall p, String.prefix (dir ++ "/") p = false ->
                file_lookup (files after) p = file_lookup (files (world s)) p).
Proof.
  intros Hfmt after. subst after.
  assert (Hj : String.eqb exp_type "json" = false)
    by (destruct Hfmt; subst; reflexivity).
  assert (Hv : existsb (String.eqb exp_type) ["dxf"; "svg"] = true)
    by (destruct Hfmt; subst; reflexivity).
  remember (Stlslicer.export_layers fuel exp_type arg s) as run eqn:Hrun.
  unfold Stlslicer.export_layers in Hrun. unfold bind at 1 in Hrun.
  pose proof (layers_or_self_reads_only arg s) as Hl.
  destruct (layers_or_self arg s) as [[layers|e|] s1]; cbn [snd] in Hl; subst s1;
    try (subst run; left; split; reflexivity).
  unfold bind at 1 in Hrun.
  pose proof (slice_data_head_reads_only s) as Hh.
  destruct (slice_data_head s) as [[head|e|] s1]; cbn [snd] in Hh; subst s1;
    try (subst run; left; split; reflexivity).
  rewrite Hj, Hv in Hrun. unfold bind at 1 in Hrun.
  destruct s as [o w]. cbn [self world].
  destruct (make_export_dir_safe exp_type fuel o w)
    as [Hself [(stem & k & Hstem & Hres & Hfree & Hw) | (Hno & Hd & Hf)]].
  - destruct (make_export_dir fuel exp_type {| self := o; world := w |})
      as [[d|e|] s1]; cbn [fst snd] in *; try discriminate.
    injection Hres as ->. subst run.
    right. exists stem, k. cbv zeta.
    destruct (export_into_keeps_inside
                (export_dir_name stem exp_type (clock w (ticks w + k))) exp_type head
                layers s1) as [_ (Hd & _ & _ & Hf)].
    rewrite Hw in Hd, Hf. repeat split; assumption.
  - destruct (make_export_dir fuel exp_type {| self := o; world := w |})
      as [[d|e|] s1]; cbn [fst snd] in *; subst run; cbn [snd].
    + now destruct (Hno d).
    + left. now split.
    + left. now split.
Qed.

(** The directory branch of [export_layers], once the retry loop is known
    to end after [k] refusals. *)
Lemma export_layers_directory_run
    (fuel : nat) (exp_type : string) (arg : option dict) (s : state)
    (store : dict) (source stem : string) (m : Mesh) (watertight : bool) (k : nat) :
  session_ready (self s) store source stem m watertight ->
  exp_type = "dxf" \/ exp_type = "svg" ->
  (forall j, (j < k)%nat ->
     path_exists (world s)
       (export_dir_name stem exp_type (clock (world s) (ticks (world s) + j))) = true) ->
  path_exists (world s)
    (export_dir_name stem exp_type (clock (world s) (ticks (world s) + k))) = false ->
  (k < fuel)%nat ->
  let dir_name := export_dir_name stem exp_type (clock (world s) (ticks (world s) + k)) in
  Stlslicer.export_layers fuel exp_type arg s =
  Stlslicer.export_into dir_name exp_type
    [(VStr "source", VStr source); (VStr "units", VStr (str_units m));
     (VStr "watertight", VBool watertight)]
    (effective_layers arg store)
    {| self := self s; world := world_with_dir (world s) dir_name k |}.
Proof.
  intros Hready Hfmt Hbusy Hfree Hfuel dir_name.
  assert (Hj : String.eqb exp_type "json" = false)
    by (destruct Hfmt; subst; reflexivity).
  assert (Hv : existsb (String.eqb exp_type) ["dxf"; "svg"] = true)
    by (destruct Hfmt; subst; reflexivity).
  unfold Stlslicer.export_layers. unfold bind at 1.
  rewrite (layers_or_self_run arg s store) by apply Hready.
  unfold bind at 1.
  rewrite (slice_data_head_run s store source stem m watertight Hready).
  rewrite Hj, Hv. unfold bind at 1.
  destruct s as [o w]. cbn [self world] in *.
  rewrite (make_export_dir_spec exp_type stem k fuel o w); try assumption.
  - reflexivity.
  - apply Hready.
Qed.

(** The retry loop reaches a free name: when the next [k] clock readings
    name paths that are taken and the one after them names a free path, the
    loop returns after [k + 1] readings with the name of the last one. *)
Lemma export_directory_retry
    (fuel : nat) (exp_type : string) (arg : option dict) (s : state)
    (store : dict) (source stem : string) (m : Mesh) (watertight : bool) (k : nat) :
  session_ready (self s) store source stem m watertight ->
  exp_type = "dxf" \/ exp_type = "svg" ->
  (forall j, (j < k)%nat ->
     path_exists (world s)
       (export_dir_name stem exp_type (clock (world s) (ticks (world s) + j))) = true) ->
  path_exists (world s)
    (export_dir_name stem exp_type (clock (world s) (ticks (world s) + k))) = false ->
  (k < fuel)%nat ->
  let t := clock (world s) (ticks (world s) + k) in
  let dir_name := (stem ++ "_" ++ exp_type ++ "_" ++ strftime t)%string in
  let after := world (snd (Stlslicer.export_layers fuel exp_type arg s)) in
  strftime t = (pad 4 (year t) ++ pad 2 (month t) ++ pad 2 (day t) ++ "-" ++
                pad 2 (hour t) ++ pad 2 (minute t) ++ pad 2 (second t))%string /\
  make_export_dir fuel exp_type s =
    (Ok dir_name, {| self := self s; world := world_with_dir (world s) dir_name k |}) /\
  path_exists (world s) dir_name = false /\
  dirs after = dirs (world s) ++ [dir_name] /\
  ticks after = (ticks (world s) + S k)%nat /\
  (forall p, String.prefix (dir_name ++ "/") p = false ->
             file_lookup (files after) p = file_lookup (files (world s)) p).
Proof.
  intros Hready Hfmt Hbusy Hfree Hfuel t dir_name after.
  assert (Hname : export_dir_name stem exp_type t = dir_name) by reflexivity.
  pose proof (export_layers_directory_run fuel exp_type arg s store source stem m
                watertight k Hready Hfmt Hbusy Hfree Hfuel) as Hrun.
  cbv zeta in Hrun. fold t in Hrun. rewrite Hname in Hrun.
  fold t in Hfree. rewrite Hname in Hfree.
  split; [reflexivity|].
  split.
  { destruct s as [o w]. cbn [self world] in *.
    rewrite (make_export_dir_spec exp_type stem k fuel o w); try assumption.
    - reflexivity.
    - apply Hready. }
  subst after. rewrite Hrun.
  set (s1 := {| self := self s; world := world_with_dir (world s) dir_name k |}).
  destruct (export_into_keeps_inside dir_name exp_type
              [(VStr "source", VStr source); (VStr "units", VStr (str_units m));
               (VStr "watertight", VBool watertight)]
              (effective_layers arg store) s1) as [_ (Hd & Ht & _ & Hf)].
  split; [exact Hfree|split; [exact Hd|split; [exact Ht|exact Hf]]].
Qed.

(** ** The loop over the layers *)

Lemma export_each_run (dir base fmt : string) (items : dict) :
  forall (index : dict) (o : STLSlicer) (w : World),
    (forall h p, In (h, p) items ->
       returns_or_AttributeError (export_outcome p (layer_file dir base fmt h) fmt)) ->
    Stlslicer.export_each items dir base fmt index {| self := o; world := w |} =
    (Ok (fold_left dict_set_item (index_values (index_entries dir base fmt items)) index),
     {| self := o; world := layers_written dir base fmt items w |}).
Proof.
  induction items as [|[h p] items IH]; intros index o w Hall.
  - reflexivity.
  - cbn [Stlslicer.export_each layers_written].
    unfold index_entries, exported_layers, export_succeeds.
    cbn [filter fst snd].
    assert (Hrest : forall h' p', In (h', p') items ->
              returns_or_AttributeError
                (export_outcome p' (layer_file dir base fmt h') fmt))
      by (intros h' p' Hin; apply Hall; now right).
    unfold bind at 1. unfold try_except, export_path, lift, write_file,
      get_world, put_world, log, ret, bind.
    destruct (Hall h p (or_introl eq_refl)) as [[text E] | [a E]]; rewrite E.
    + cbv beta iota. cbn [world self is_AttributeError map fold_left index_values fst snd].
      exact (IH _ o _ Hrest).
    + cbv beta iota. cbn [world self is_AttributeError].
      exact (IH _ o _ Hrest).
Qed.

Lemma InA_filter_keys (f : Q * value -> bool) (k : Q) (l : dict) :
  InA Qeq k (map fst (filter f l)) -> InA Qeq k (map fst l).
Proof.
  induction l as [|kv l IH]; cbn; intros Hin.
  - exact Hin.
  - destruct (f kv); cbn in Hin.
    + inversion Hin; subst; [now constructor | constructor 2; now apply IH].
    + constructor 2. now apply IH.
Qed.

Lemma NoDupA_filter_keys (f : Q * value -> bool) (l : dict) :
  NoDupA Qeq (map fst l) -> NoDupA Qeq (map fst (filter f l)).
Proof.
  induction l as [|kv l IH]; cbn; intros Hnd.
  - constructor.
  - inversion Hnd; subst. destruct (f kv); cbn.
    + constructor; [|now apply IH].
      intros Hin. apply InA_filter_keys in Hin. contradiction.
    + now apply IH.
Qed.

Lemma keys_index_values (entries : list (Q * string)) :
  map fst (index_values entries) = map fst entries.
Proof. unfold index_values. rewrite map_map. reflexivity. Qed.

Lemma keys_index_entries (dir base fmt : string) (items : dict) :
  map fst (index_entries dir base fmt items) = map fst (exported_layers dir base fmt items).
Proof. unfold index_entries. rewrite map_map. reflexivity. Qed.

(** With a store whose heights differ, the index the loop builds lists the
    written layers in order. *)
Lemma index_of_distinct_heights (dir base fmt : string) (items : dict) :
  NoDupA Qeq (map fst items) ->
  fold_left dict_set_item (index_values (index_entries dir base fmt items)) []
  = index_values (index_entries dir base fmt items).
Proof.
  intros Hnd. rewrite fold_dict_set_fresh; [reflexivity | | ].
  - intros k Hin. inversion Hin.
  - rewrite keys_index_values, keys_index_entries.
    now apply NoDupA_filter_keys.
Qed.

Lemma keys_unique (l : dict) (h h' : Q) (p p' : value) :
  NoDupA Qeq (map fst l) -> In (h, p) l -> In (h', p') l -> (h == h')%Q ->
  (h, p) = (h', p').
Proof.
  induction l as [|[k v] l IH]; cbn; intros Hnd Hin Hin' Heq; [contradiction|].
  inversion Hnd as [|? ? Hk Hnd']; subst.
  destruct Hin as [E | Hin], Hin' as [E' | Hin'].
  - congruence.
  - exfalso. apply Hk. injection E as -> ->.
    apply InA_alt. exists h'. split; [exact Heq|].
    apply in_map_iff. now exists (h', p').
  - exfalso. apply Hk. injection E' as -> ->.
    apply InA_alt. exists h. split; [now symmetry|].
    apply in_map_iff. now exists (h, p).
  - now apply IH.
Qed.

Lemma layers_written_keeps_file (dir base fmt : string) (items : dict) :
  forall (w : World) (q : string),
    file_lookup (files w) q <> None ->
    file_lookup (files (layers_written dir base fmt items w)) q <> None.
Proof.
  induction items as [|[h p] items IH]; intros w q Hq; cbn [layers_written].
  - exact Hq.
  - destruct (export_outcome p (layer_file dir base fmt h) fmt); apply IH; cbn [files with_logged world_write];
      try exact Hq.
    destruct (String.eqb_spec q (layer_file dir base fmt h)) as [->|Hne].
    + rewrite file_lookup_file_set_same. discriminate.
    + now rewrite file_lookup_file_set_other.
Qed.

Lemma layers_written_keeps_record (dir base fmt : string) (items : dict) :
  forall (w : World) (r : level * string),
    In r (logged w) -> In r (logged (layers_written dir base fmt items w)).
Proof.
  induction items as [|[h p] items IH]; intros w r Hr; cbn [layers_written].
  - exact Hr.
  - destruct (export_outcome p (layer_file dir base fmt h) fmt); apply IH;
      cbn [logged with_logged world_write]; try exact Hr; apply in_or_app; now left.
Qed.

Lemma layers_written_file (dir base fmt : string) (items : dict) :
  forall (w : World) (h : Q) (p : value) (text : string),
    In (h, p) items ->
    export_outcome p (layer_file dir base fmt h) fmt = Ok text ->
    file_lookup (files (layers_written dir base fmt items w)) (layer_file dir base fmt h)
      <> None.
Proof.
  induction items as [|[h0 p0] items IH]; intros w h p text Hin Hok; [contradiction|].
  cbn [layers_written]. destruct Hin as [E | Hin].
  - injection E as -> ->. rewrite Hok.
    apply layers_written_keeps_file. cbn [files world_write].
    rewrite file_lookup_file_set_same. discriminate.
  - destruct (export_outcome p0 (layer_file dir base fmt h0) fmt);
      now apply (IH _ h p text).
Qed.

Lemma layers_written_record (dir base fmt : string) (items : dict) :
  forall (w : World) (h : Q) (p : value) (a : string),
    In (h, p) items ->
    export_outcome p (layer_file dir base fmt h) fmt = Raise (AttributeError a) ->
    In (DEBUG, (layer_file dir base fmt h ++ " not created. No data to display.")%string)
       (logged (layers_written dir base fmt items w)).
Proof.
  induction items as [|[h0 p0] items IH]; intros w h p a Hin Hfail; [contradiction|].
  cbn [layers_written]. destruct Hin as [E | Hin].
  - injection E as -> ->. rewrite Hfail.
    apply layers_written_keeps_record. cbn [logged with_logged].
    apply in_or_app. right. now left.
  - destruct (export_outcome p0 (layer_file dir base fmt h0) fmt);
      now apply (IH _ h p a).
Qed.

(** ** The index document *)

Lemma rmap_index_entries (n : nat) (entries : list (Q * string)) :
  rmap_list (fun kv : value * value =>
               rbind (Util.json_key (fst kv)) (fun k =>
               rbind (Util.encode (S n) (snd kv)) (fun j => Ok (k, j))))
            (map (fun kv : Q * string => (VFloat (fst kv), VStr (snd kv))) entries)
  = Ok (map (fun kv : Q * string => (float_repr (fst kv), JString (snd kv))) entries).
Proof.
  induction entries as [|[h p] entries IH]; cbn [map rmap_list].
  - reflexivity.
  - rewrite IH. reflexivity.
Qed.

Lemma encode_VDict (n : nat) (items : list (value * value)) :
  Util.encode (S n) (VDict items)
  = rbind (rmap_list (fun kv : value * value =>
                        rbind (Util.json_key (fst kv)) (fun k =>
                        rbind (Util.encode n (snd kv)) (fun j => Ok (k, j))))
                     items)
          (fun ms => Ok (JObject ms)).
Proof. reflexivity. Qed.

Lemma encode_VStr (n : nat) (s : string) : Util.encode (S n) (VStr s) = Ok (JString s).
Proof. reflexivity. Qed.

Lemma encode_VBool (n : nat) (b : bool) : Util.encode (S n) (VBool b) = Ok (JBool b).
Proof. reflexivity. Qed.

Lemma encode_index_files (n : nat) (entries : list (Q * string)) :
  Util.encode (S (S n)) (dict_value (index_values entries))
  = Ok (JObject (map (fun kv : Q * string => (float_repr (fst kv), JString (snd kv)))
                     entries)).
Proof.
  unfold dict_value, index_values. rewrite map_map. cbn [fst snd].
  rewrite encode_VDict. now rewrite rmap_index_entries.
Qed.

(** The index document is always encodable: its keys are strings and
    heights, its values strings and a boolean. *)
Lemma json_dumps_index_document (source units_str : string) (watertight : bool)
    (entries : list (Q * string)) :
  Util.json_dumps
    (VDict ([(VStr "source", VStr source); (VStr "units", VStr units_str);
             (VStr "watertight", VBool watertight)]
            ++ [(VStr "files", dict_value (index_values entries))]))
  = Ok (index_document source units_str watertight entries).
Proof.
  unfold Util.json_dumps. change Util.recursion_limit with (S (S (S 997))).
  rewrite encode_VDict.
  cbn [app rmap_list fst snd Util.json_key rbind].
  rewrite !encode_VStr, encode_VBool, encode_index_files. reflexivity.
Qed.

(** The directory branch after the retry loop, when every layer export
    returns or raises [AttributeError] and the heights of the store
    differ. *)
Lemma export_into_run (dir fmt source stem : string) (m : Mesh) (watertight : bool)
    (items : dict) (o : STLSlicer) (w : World) :
  filename o = Bound stem ->
  (forall h p, In (h, p) items ->
     returns_or_AttributeError
       (export_outcome p (layer_file dir (os_path_split_tail stem) fmt h) fmt)) ->
  NoDupA Qeq (map fst items) ->
  Stlslicer.export_into dir fmt
    [(VStr "source", VStr source); (VStr "units", VStr (str_units m));
     (VStr "watertight", VBool watertight)]
    items {| self := o; world := w |}
  = (Ok true,
     {| self := o;
        world := directory_exported dir (os_path_split_tail stem) fmt items
                   source (str_units m) watertight w |}).
Proof.
  intros Hstem Hall Hnd.
  unfold Stlslicer.export_into. unfold bind at 1.
  unfold getattr, get_self, bind at 1. cbn [self]. rewrite Hstem. cbn [ret].
  unfold bind at 1. unfold open_w, write_file, get_world, put_world, bind at 1.
  cbn [world self]. unfold bind at 1.
  rewrite export_each_run by exact Hall.
  rewrite index_of_distinct_heights by exact Hnd.
  unfold bind at 1, lift. rewrite json_dumps_index_document.
  reflexivity.
Qed.

(** C6, for a session with a mesh.  For every format other than ["json"],
    ["dxf"] and ["svg"], [export_layers] returns [False] without raising;
    directories, files and clock are untouched and the only effect is one
    error record that lists the supported formats. *)
Theorem export_layers_unsupported_format
    (fuel : nat) (exp_type : string) (arg : option dict) (s : state)
    (store : dict) (source stem : string) (m : Mesh) (watertight : bool) :
  session_ready (self s) store source stem m watertight ->
  exp_type <> "json" -> exp_type <> "dxf" -> exp_type <> "svg" ->
  Stlslicer.export_layers fuel exp_type arg s =
  (Ok false,
   {| self := self s;
      world := with_logged (world s)
                 [(ERROR, ("Extension '" ++ exp_type ++ "' not supported. " ++
                           "Currently supported: ['json', 'dxf', 'svg']")%string)] |}).
Proof.
  intros Hready Hjson Hdxf Hsvg.
  unfold Stlslicer.export_layers, bind.
  rewrite (layers_or_self_run arg s store) by apply Hready.
  rewrite (slice_data_head_run s store source stem m watertight Hready).
  apply String.eqb_neq in Hjson, Hdxf, Hsvg.
  rewrite Hjson. cbn [existsb]. rewrite Hdxf, Hsvg. cbn [orb].
  destruct s as [o w]. reflexivity.
Qed.

(** C8, as the code has it ([stlslicer.py]).  Directory export, once its
    directory [dir] is created, for a store with distinct heights in which
    every layer export either returns or raises [AttributeError] (as the
    export of an absent cross-section, [None], does): the export returns
    [True]; the file [dir/<base>_info.json] holds the index document, whose
    [files] map lists, in store order, each height whose export returned
    together with its file [dir/<base>_<height>.<format>]; each such file
    exists; a layer whose export raised [AttributeError] has a debug record
    and no entry in the index. *)
Theorem directory_export_index
    (fuel : nat) (exp_type : string) (arg : option dict) (s : state)
    (store : dict) (source stem : string) (m : Mesh) (watertight : bool) (k : nat) :
  session_ready (self s) store source stem m watertight ->
  exp_type = "dxf" \/ exp_type = "svg" ->
  (forall j, (j < k)%nat ->
     path_exists (world s)
       (export_dir_name stem exp_type (clock (world s) (ticks (world s) + j))) = true) ->
  path_exists (world s)
    (export_dir_name stem exp_type (clock (world s) (ticks (world s) + k))) = false ->
  (k < fuel)%nat ->
  let dir := export_dir_name stem exp_type (clock (world s) (ticks (world s) + k)) in
  let base := os_path_split_tail stem in
  let items := effective_layers arg store in
  NoDupA Qeq (map fst items) ->
  (forall h p, In (h, p) items ->
     returns_or_AttributeError (export_outcome p (layer_file dir base exp_type h) exp_type)) ->
  let after := world (snd (Stlslicer.export_layers fuel exp_type arg s)) in
  fst (Stlslicer.export_layers fuel exp_type arg s) = Ok true /\
  file_lookup (files after) (dir ++ "/" ++ base ++ "_info.json")
    = Some (Document (index_document source (str_units m) watertight
                        (index_entries dir base exp_type items))) /\
  (forall h p text,
      In (h, p) items ->
      export_outcome p (layer_file dir base exp_type h) exp_type = Ok text ->
      layer_file dir base exp_type h
        = (dir ++ "/" ++ base ++ "_" ++ float_repr h ++ "." ++ exp_type)%string /\
      file_lookup (files after) (layer_file dir base exp_type h) <> None /\
      In (h, layer_file dir base exp_type h) (index_entries dir base exp_type items)) /\
  (forall h p a,
      In (h, p) items ->
      export_outcome p (layer_file dir base exp_type h) exp_type
        = Raise (AttributeError a) ->
      In (DEBUG, (layer_file dir base exp_type h
                  ++ " not created. No data to display.")%string) (logged after) /\
      ~ InA Qeq h (map fst (index_entries dir base exp_type items))) /\
  (forall h, In (h, VNone) items ->
             ~ InA Qeq h (map fst (index_entries dir base exp_type items))).
Proof.
  intros Hready Hfmt Hbusy Hfree Hfuel dir base items Hnd Hall after.
  pose proof (export_layers_directory_run fuel exp_type arg s store source stem m
                watertight k Hready Hfmt Hbusy Hfree Hfuel) as Hrun.
  cbv zeta in Hrun. fold dir items in Hrun.
  assert (Hstem : filename (self s) = Bound stem) by apply Hready.
  rewrite (export_into_run dir exp_type source stem m watertight items (self s)
             (world_with_dir (world s) dir k) Hstem Hall Hnd) in Hrun.
  fold base in Hrun.
  assert (Hmissing : forall h p a,
             In (h, p) items ->
             export_outcome p (layer_file dir base exp_type h) exp_type
               = Raise (AttributeError a) ->
             ~ InA Qeq h (map fst (index_entries dir base exp_type items))).
  { intros h p a Hin Hfail HinA.
    rewrite keys_index_entries in HinA. apply InA_alt in HinA.
    destruct HinA as [h' [Heq Hin']]. apply in_map_iff in Hin'.
    destruct Hin' as [[h'' p'] [E Hin']]. cbn in E. subst h''.
    apply filter_In in Hin'. destruct Hin' as [Hin' Hok].
    pose proof (keys_unique items h h' p p' Hnd Hin Hin' Heq) as Esame.
    injection Esame as <- <-.
    unfold export_succeeds in Hok. cbn [fst snd] in Hok.
    now rewrite Hfail in Hok. }
  subst after. rewrite Hrun. cbn [fst snd world].
  split; [reflexivity|]. split; [|split; [|split]].
  - unfold directory_exported, with_logged, world_write. cbn [files].
    apply file_lookup_file_set_same.
  - intros h p text Hin Hok. split; [reflexivity|]. split.
    + unfold directory_exported, with_logged. cbn [files].
      unfold world_write at 1. cbn [files].
      destruct (String.eqb_spec (layer_file dir base exp_type h)
                  (dir ++ "/" ++ base ++ "_info.json")) as [E | Hne].
      * rewrite E, file_lookup_file_set_same. discriminate.
      * rewrite file_lookup_file_set_other by exact Hne.
        now apply (layers_written_file dir base exp_type items _ h p text).
    + unfold index_entries. apply in_map_iff. exists (h, p). split; [reflexivity|].
      apply filter_In. split; [exact Hin|].
      unfold export_succeeds. cbn [fst snd]. now rewrite Hok.
  - intros h p a Hin Hfail. split; [|now apply (Hmissing h p a)].
    unfold directory_exported, with_logged. cbn [logged].
    apply in_or_app. left. unfold world_write at 1. cbn [logged].
    now apply (layers_written_record dir base exp_type items _ h p a).
  - intros h Hin. now apply (Hmissing h VNone "export" Hin).
Qed.

(** C7.  Directory export with format ["dxf"] or ["svg"] never writes
    into a directory that existed.  On any session, either no directory and
    no file changes, or exactly one directory is created, at a path that
    was free and that is named [<stem>_<format>_<timestamp>] after a reading
    of the clock, the timestamp being year, month, day, a dash, hour, minute
    and second as zero-padded decimals, and every file outside that
    directory is as it was.  On a session ready for export the creation is
    retried until it succeeds: when the next [k] readings name taken paths
    and the one after them a free path, the loop returns after [k + 1]
    readings with the name of the last one, and that directory is the one
    created. *)
Theorem export_directory_is_fresh
    (fuel : nat) (exp_type : string) (arg : option dict) (s : state) :
  exp_type = "dxf" \/ exp_type = "svg" ->
  let after := world (snd (Stlslicer.export_layers fuel exp_type arg s)) in
  ((dirs after = dirs (world s) /\ files after = files (world s)) \/
   (exists stem k,
       let t := clock (world s) (ticks (world s) + k) in
       let dir_name := (stem ++ "_" ++ exp_type ++ "_" ++ strftime t)%string in
       filename (self s) = Bound stem /\
       strftime t = (pad 4 (year t) ++ pad 2 (month t) ++ pad 2 (day t) ++ "-" ++
                     pad 2 (hour t) ++ pad 2 (minute t) ++ pad 2 (second t))%string /\
       path_exists (world s) dir_name = false /\
       dirs after = dirs (world s) ++ [dir_name] /\
       forall p, String.prefix (dir_name ++ "/") p = false ->
                 file_lookup (files after) p = file_lookup (files (world s)) p)) /\
  (forall (store : dict) (source stem : string) (m : Mesh) (watertight : bool) (k : nat),
      session_ready (self s) store source stem m watertight ->
      (forall j, (j < k)%nat ->
         path_exists (world s)
           (export_dir_name stem exp_type (clock (world s) (ticks (world s) + j))) = true) ->
      path_exists (world s)
        (export_dir_name stem exp_type (clock (world s) (ticks (world s) + k))) = false ->
      (k < fuel)%nat ->
      let t := clock (world s) (ticks (world s) + k) in
      let dir_name := (stem ++ "_" ++ exp_type ++ "_" ++ strftime t)%string in
      make_export_dir fuel exp_type s =
        (Ok dir_name,
         {| self := self s; world := world_with_dir (world s) dir_name k |}) /\
      dirs after = dirs (world s) ++ [dir_name] /\
      ticks after = (ticks (world s) + S k)%nat).
Proof.
  intros Hfmt after. split.
  - destruct (export_layers_directory_safe fuel exp_type arg s Hfmt)
      as [Hsame | (stem & k & Hstem & Hfree & Hd & Hf)].
    + left. exact Hsame.
    + right. exists stem, k. cbv zeta. repeat split; assumption.
  - intros store source stem m watertight k Hready Hbusy Hfree Hfuel t dir_name.
    destruct (export_directory_retry fuel exp_type arg s store source stem m watertight k
                Hready Hfmt Hbusy Hfree Hfuel)
      as (_ & Hloop & _ & Hd & Ht & _).
    repeat split; assumption.
Qed.

End ExportFacts.

Lemma export_layers_unsupported_format_witness :
  Stlslicer.export_layers (H := Demo.collaborators) 1 "obj" None (Demo.loaded "cube.stl") =
  (Ok false,
   {| self := self (Demo.loaded "cube.stl");
      world := with_logged (world (Demo.loaded "cube.stl"))
                 [(ERROR, "Extension 'obj' not supported. Currently supported: ['json', 'dxf', 'svg']")] |}).
Proof.
  apply (export_layers_unsupported_format (H := Demo.collaborators) 1 "obj" None
           (Demo.loaded "cube.stl") [] "cube.stl" "cube" (set_units Demo.cube "mm") true).
  - repeat split.
  - discriminate.
  - discriminate.
  - discriminate.
Defined.

(** Without a mesh the unsupported format is never looked at: on a new
    [STLSlicer()] of [stlslicer.py], [export_layers("obj")] raises
    [AttributeError] while it builds [slice_data]. *)
Lemma export_layers_unsupported_format_no_mesh :
  Stlslicer.export_layers (H := Demo.collaborators) 1 "obj" None Demo.fresh
  = (Raise (AttributeError "units"), Demo.fresh).
Proof. reflexivity. Qed.

(** The first reading of the clock names a directory that exists; the
    export skips it and creates the directory of the second reading. *)
Lemma export_directory_is_fresh_witness :
  make_export_dir 3 "svg" Demo.sliced_taken =
    (Ok "cube_svg_20240102-030406",
     {| self := self Demo.sliced_taken;
        world := world_with_dir (world Demo.sliced_taken) "cube_svg_20240102-030406" 1 |}) /\
  dirs (world (snd (Stlslicer.export_layers (H := Demo.collaborators) 3 "svg" None
                      Demo.sliced_taken)))
    = ["cube_svg_20240102-030405"; "cube_svg_20240102-030406"] /\
  ticks (world (snd (Stlslicer.export_layers (H := Demo.collaborators) 3 "svg" None
                       Demo.sliced_taken))) = 2%nat.
Proof.
  destruct (export_directory_is_fresh (H := Demo.collaborators) 3 "svg" None
              Demo.sliced_taken (or_intror eq_refl)) as [_ Hretry].
  destruct (Hretry Demo.cube_layers "cube.stl" "cube" (set_units Demo.cube "mm") true 1%nat)
    as (Hloop & Hdirs & Hticks).
  - repeat split.
  - intros j Hj. assert (j = 0)%nat as -> by lia. reflexivity.
  - reflexivity.
  - lia.
  - repeat split; assumption.
Defined.

Lemma directory_export_index_witness :
  let dir := "cube_svg_20240102-030406" in
  let items := [(0%Q, VNone); (5%Q, VPath2D [])] in
  let after :=
    world (snd (Stlslicer.export_layers (H := Demo.collaborators) 3 "svg" (Some items)
                  Demo.sliced_taken)) in
  fst (Stlslicer.export_layers (H := Demo.collaborators) 3 "svg" (Some items)
         Demo.sliced_taken) = Ok true /\
  file_lookup (files after) (dir ++ "/" ++ "cube" ++ "_info.json")
    = Some (Document
              (JObject [("source", JString "cube.stl"); ("units", JString "mm");
                        ("watertight", JBool true);
                        ("files", JObject [("5.0", JString (dir ++ "/cube_5.0.svg"))])])) /\
  file_lookup (files after) (dir ++ "/cube_5.0.svg") <> None /\
  In (DEBUG, (dir ++ "/cube_0.0.svg not created. No data to display.")%string)
     (logged after).
Proof.
  intros dir items after.
  destruct (directory_export_index (H := Demo.collaborators) 3 "svg" (Some items)
              Demo.sliced_taken Demo.cube_layers "cube.stl" "cube"
              (set_units Demo.cube "mm") true 1)
    as (Hres & Hindex & Hwritten & Hskipped & _).
  - repeat split.
  - right. reflexivity.
  - intros j Hj. assert (j = 0)%nat as -> by lia. reflexivity.
  - reflexivity.
  - lia.
  - constructor.
    + intros Hin. inversion Hin as [? ? E | ? ? Hin']; subst.
      * discriminate E.
      * inversion Hin'.
    + constructor; [intros Hin; inversion Hin | constructor].
  - intros h p [E | [E | []]]; injection E as <- <-.
    + right. now exists "export".
    + left. now exists "<svg>".
  - split; [exact Hres|]. split; [exact Hindex|]. split.
    + destruct (Hwritten 5%Q (VPath2D []) "<svg>") as (_ & Hfile & _).
      * right. now left.
      * reflexivity.
      * exact Hfile.
    + destruct (Hskipped 0%Q VNone "export") as (Hlog & _).
      * now left.
      * reflexivity.
      * exact Hlog.
Defined.

(** Two ways in which directory export differs from the statement.  When
    the vector writer raises anything but [AttributeError], here
    [ValueError], the layer is not skipped: the exception leaves
    [export_layers] of [stlslicer.py], no [True] is returned, nothing is
    logged and the index file stays empty.  And [export_layers] of [main.py]
    names the index [<base>.json]: no [<base>_info.json] is written. *)
Lemma directory_export_not_as_stated :
  (let run :=
     Stlslicer.export_layers (H := Demo.collaborators_rejecting) 3 "svg"
       (Some [(0%Q, VPath2D []); (5%Q, VPath2D [])]) Demo.sliced_taken in
   fst run = Raise ValueError /\
   file_lookup (files (world (snd run))) "cube_svg_20240102-030406/cube_info.json"
     = Some (Text "") /\
   logged (world (snd run)) = logged (world Demo.sliced_taken)) /\
  (let run :=
     Main.export_layers (H := Demo.collaborators) 3 "svg" (Some [(5%Q, VPath2D [])])
       (Demo.main_loaded "cube.stl") in
   fst run = Ok true /\
   map fst (files (world (snd run)))
     = ["cube_svg_20240102-030405/cube.json"; "cube_svg_20240102-030405/cube_5.0.svg"] /\
   file_lookup (files (world (snd run))) "cube_svg_20240102-030405/cube_info.json" = None).
Proof. repeat split. Qed.

(** * Further properties of util.py *)

Section UtilMore.
Context `{Collaborators}.

(** X1.  [type_named(obj, name)] returns a class whose [__name__] is [name],
    which is the class of [obj] or one of [type_bases(obj)], and otherwise
    raises [ValueError]; [is_instance_named] never raises and is [True]
    exactly in the first case. *)
Theorem type_named_contract (obj : value) (name : string) :
  (exists c,
      Util.type_named obj name = Ok c /\
      cls_name c = name /\
      (c = class_of obj \/ In c (Util.type_bases obj 4)) /\
      Util.is_instance_named obj name = Ok true)
  \/
  (Util.type_named obj name = Raise ValueError /\
   cls_name (class_of obj) <> name /\
   (forall c, In c (Util.type_bases obj 4) -> cls_name c <> name) /\
   Util.is_instance_named obj name = Ok false).
Proof.
  unfold Util.is_instance_named, Util.type_named.
  destruct (String.eqb_spec (cls_name (class_of obj)) name) as [E | Hne].
  - left. exists (class_of obj). repeat split; auto.
  - destruct (find (fun base => String.eqb (cls_name base) name) (Util.type_bases obj 4))
      as [base|] eqn:Hfind.
    + apply find_some in Hfind. destruct Hfind as [Hin Hname].
      apply String.eqb_eq in Hname.
      left. exists base. repeat split; auto.
    + right. repeat split; auto.
      intros c Hin Hname.
      pose proof (find_none _ _ Hfind c Hin) as Hc. cbn in Hc.
      apply String.eqb_neq in Hc. contradiction.
Qed.

Lemma ancestor_snoc (c b a : pyclass) :
  ancestor c b -> In a (cls_bases b) -> ancestor c a.
Proof.
  intros Hcb Ha. induction Hcb as [c b Hb | c b b' Hb Hbb' IH].
  - eapply ancestor_step; [exact Hb | now apply ancestor_base].
  - eapply ancestor_step; [exact Hb | now apply IH].
Qed.

Lemma cls_base_in_bases (c b : pyclass) : cls_base c = Some b -> In b (cls_bases c).
Proof.
  unfold cls_base. destruct (cls_bases c) as [|x xs]; cbn; [discriminate|].
  intros E. injection E as ->. now left.
Qed.

Lemma issubclass_unfold (c : pyclass) (target : string) :
  issubclass c target
  = (String.eqb (cls_name c) target || existsb (fun b => issubclass b target) (cls_bases c))%bool.
Proof. destruct c. reflexivity. Qed.

Lemma issubclass_self (c : pyclass) : issubclass c (cls_name c) = true.
Proof. rewrite issubclass_unfold, String.eqb_refl. reflexivity. Qed.

Lemma ancestor_issubclass (c a : pyclass) :
  ancestor c a -> issubclass c (cls_name a) = true.
Proof.
  intros Hca. induction Hca as [c b Hb | c b a Hb Hba IH];
    rewrite issubclass_unfold; apply orb_true_iff; right;
    apply existsb_exists; exists b; split; auto using issubclass_self.
Qed.

Lemma next_bases_ancestors (c : pyclass) (l : list (option pyclass)) :
  (forall x, In (Some x) l -> ancestor c x) ->
  forall x, In (Some x) (Util.next_bases l) -> ancestor c x.
Proof.
  intros Hl x Hin. unfold Util.next_bases in Hin.
  apply in_flat_map in Hin. destruct Hin as [[y|] [Hy Hx]]; [|contradiction].
  destruct Hx as [Hx | []].
  apply (ancestor_snoc c y x); [apply Hl; exact Hy | apply cls_base_in_bases; exact Hx].
Qed.

Lemma base_rounds_ancestors (c : pyclass) (depth : nat) :
  forall l : list (option pyclass),
    (forall x, In (Some x) l -> ancestor c x) ->
    forall r x, In r (Util.base_rounds depth l) -> In (Some x) r -> ancestor c x.
Proof.
  induction depth as [|d IH]; intros l Hl r x Hr Hx; cbn in Hr; [contradiction|].
  destruct Hr as [<- | Hr].
  - now apply (next_bases_ancestors c l Hl).
  - apply (IH (Util.next_bases l)) with (r := r); auto.
    now apply next_bases_ancestors.
Qed.

Lemma type_bases_ancestors (obj : value) (depth : nat) (a : pyclass) :
  In a (Util.type_bases obj depth) -> ancestor (class_of obj) a.
Proof.
  unfold Util.type_bases. intros Hin.
  apply in_flat_map in Hin. destruct Hin as [[y|] [Hy Hx]]; [|contradiction].
  destruct Hx as [-> | []].
  apply in_concat in Hy. destruct Hy as [r [Hr Hy]].
  assert (Hfirst : forall x, In (Some x) (map Some (cls_bases (class_of obj))) ->
                             ancestor (class_of obj) x).
  { intros x Hx. apply in_map_iff in Hx. destruct Hx as [x' [E Hx']].
    injection E as ->. now apply ancestor_base. }
  destruct Hr as [<- | Hr].
  - now apply Hfirst.
  - now apply (base_rounds_ancestors (class_of obj) depth _ Hfirst r a Hr).
Qed.

Lemma is_instance_named_existsb (obj : value) (name : string) :
  Util.is_instance_named obj name
  = Ok (String.eqb (cls_name (class_of obj)) name
        || existsb (fun b => String.eqb (cls_name b) name) (Util.type_bases obj 4))%bool.
Proof.
  unfold Util.is_instance_named, Util.type_named.
  destruct (String.eqb (cls_name (class_of obj)) name); [reflexivity|].
  destruct (find (fun base => String.eqb (cls_name base) name) (Util.type_bases obj 4))
    as [base|] eqn:Hfind; cbn [orb].
  - apply find_some in Hfind. destruct Hfind as [Hin Hname].
    symmetry. f_equal. apply existsb_exists. now exists base.
  - symmetry. f_equal. apply not_true_is_false. intros Hex.
    apply existsb_exists in Hex. destruct Hex as [b [Hin Hname]].
    pose proof (find_none _ _ Hfind b Hin) as Hb. cbn in Hb. congruence.
Qed.

(** X2.  The name test is sound for inheritance: every class that
    [type_bases] lists is reached from the class of the object through
    [__bases__], so whenever [is_instance_named(obj, name)] is [True] the
    class of [obj] is, or derives from, a class named [name]. *)
Theorem is_instance_named_sound (obj : value) (name : string) :
  (forall a, In a (Util.type_bases obj 4) -> ancestor (class_of obj) a) /\
  (Util.is_instance_named obj name = Ok true ->
   issubclass (class_of obj) name = true).
Proof.
  split; [intros a; apply (type_bases_ancestors obj 4)|].
  intros Htrue. rewrite is_instance_named_existsb in Htrue. injection Htrue as Ht.
  apply orb_true_iff in Ht. destruct Ht as [E | E].
  - apply String.eqb_eq in E. rewrite <- E. apply issubclass_self.
  - apply existsb_exists in E. destruct E as (c & Hin & Hname).
    apply String.eqb_eq in Hname. rewrite <- Hname.
    apply ancestor_issubclass. now apply (type_bases_ancestors obj 4).
Qed.

Lemma base_rounds_empty (depth : nat) : List.concat (Util.base_rounds depth []) = [].
Proof. induction depth as [|d IH]; cbn; [reflexivity | exact IH]. Qed.

Lemma chain_rounds (depth : nat) :
  forall b : pyclass,
    single_inheritance b ->
    somes (List.concat ([Some b] :: Util.base_rounds depth [Some b]))
    = firstn (S depth) (b :: lineage b).
Proof.
  induction depth as [|d IH]; intros b Hb.
  - reflexivity.
  - cbn [Util.base_rounds]. unfold Util.next_bases at 1 2. cbn [flat_map app].
    destruct b as [n [|b2 [|b3 rest]]]; cbn [single_inheritance] in Hb; [| |contradiction].
    + cbn [cls_base cls_bases hd_error lineage].
      destruct d as [|d']; [reflexivity|].
      cbn [Util.base_rounds]. unfold Util.next_bases at 1 2.
      cbn [flat_map app List.concat somes].
      rewrite base_rounds_empty. reflexivity.
    + cbn [cls_base cls_bases hd_error lineage].
      specialize (IH b2 Hb).
      cbn [List.concat app somes flat_map] in IH |- *.
      fold (somes (List.concat (Util.base_rounds d [Some b2]))) in IH |- *.
      cbn [firstn]. f_equal. exact IH.
Qed.

(** X3.  For an object whose class hierarchy has no multiple inheritance,
    [type_bases] lists the five classes next above the class of the object
    on its [__base__] chain and nothing else, so [is_instance_named] is
    [True] exactly when the class or one of these five carries the name: an
    ancestor six or more levels up is not seen. *)
Theorem type_bases_depth (obj : value) (name : string) :
  single_inheritance (class_of obj) ->
  Util.type_bases obj 4 = firstn 5 (lineage (class_of obj)) /\
  Util.is_instance_named obj name
  = Ok (String.eqb (cls_name (class_of obj)) name
        || existsb (fun b => String.eqb (cls_name b) name)
                   (firstn 5 (lineage (class_of obj))))%bool.
Proof.
  intros Hsingle.
  assert (Hbases : Util.type_bases obj 4 = firstn 5 (lineage (class_of obj))).
  { unfold Util.type_bases.
    destruct (class_of obj) as [n [|b [|b' rest]]]; cbn [single_inheritance] in Hsingle;
      [| |contradiction].
    - cbn [cls_bases map lineage firstn].
      change (flat_map _ ?l) with (somes l).
      cbn [List.concat app]. rewrite base_rounds_empty. reflexivity.
    - cbn [cls_bases map lineage].
      change (flat_map _ ?l) with (somes l).
      apply (chain_rounds 4 b Hsingle). }
  split; [exact Hbases|].
  rewrite is_instance_named_existsb. now rewrite Hbases.
Qed.

Lemma rmap_list_Ok_mono {A B : Type} (f g : A -> result B) (l : list A) :
  (forall x y, In x l -> f x = Ok y -> g x = Ok y) ->
  forall ys, rmap_list f l = Ok ys -> rmap_list g l = Ok ys.
Proof.
  induction l as [|x xs IH]; intros Hfg ys Hf; cbn in *.
  - exact Hf.
  - destruct (f x) as [y| |] eqn:Ex; cbn in Hf; try discriminate.
    rewrite (Hfg x y (or_introl eq_refl) Ex). cbn.
    destruct (rmap_list f xs) as [ys'| |] eqn:Exs; cbn in Hf; try discriminate.
    rewrite (IH (fun x0 y0 Hin => Hfg x0 y0 (or_intror Hin)) ys' eq_refl).
    exact Hf.
Qed.

Lemma rmap_list_map_Ok {A B C : Type} (f : B -> result C) (g : A -> B) (h : A -> result C)
    (l : list A) :
  (forall x y, In x l -> f (g x) = Ok y -> h x = Ok y) ->
  forall ys, rmap_list f (map g l) = Ok ys -> rmap_list h l = Ok ys.
Proof.
  intros Hfh ys Hf. rewrite rmap_list_map in Hf.
  now apply (rmap_list_Ok_mono (fun x => f (g x)) h l Hfh).
Qed.

Ltac encode_by_default n IH Hv :=
  match type of Hv with
  | Util.encode (S n) ?v = Ok _ =>
      change (Util.encode (S (S n)) v)
        with (rbind (Util.default v) (Util.encode (S n)));
      change (Util.encode (S n) v)
        with (rbind (Util.default v) (Util.encode n)) in Hv;
      destruct (Util.default v); cbn [rbind] in *; auto
  end.

(** A larger nesting budget never changes a rendering. *)
Lemma encode_mono (n : nat) :
  forall v j, Util.encode n v = Ok j -> Util.encode (S n) v = Ok j.
Proof.
  induction n as [|n IH]; intros v j Hv; [discriminate|].
  destruct v; try exact Hv.
  - (* list *)
    cbn [Util.encode] in Hv. change (Util.encode (S (S n)) (VList items))
      with (rbind (rmap_list (Util.encode (S n)) items) (fun js => Ok (JArray js))).
    destruct (rmap_list (Util.encode n) items) as [js| |] eqn:E; cbn in Hv; try discriminate.
    rewrite (rmap_list_Ok_mono _ (Util.encode (S n)) items (fun x y _ => IH x y) js E).
    exact Hv.
  - (* dict *)
    rewrite encode_VDict in Hv. rewrite encode_VDict.
    match type of Hv with
    | rbind (rmap_list ?f items) _ = _ =>
        destruct (rmap_list f items) as [ms| |] eqn:E; cbn in Hv; try discriminate
    end.
    erewrite rmap_list_Ok_mono; [exact Hv | | exact E].
    intros [k x] y _ Hf. cbn [fst snd] in *.
    destruct (Util.json_key k); cbn [rbind] in *; try discriminate.
    destruct (Util.encode n x) as [jx| |] eqn:Ex; cbn [rbind] in *; try discriminate.
    rewrite (IH x jx Ex). exact Hf.
  - encode_by_default n IH Hv.
  - encode_by_default n IH Hv.
  - encode_by_default n IH Hv.
  - encode_by_default n IH Hv.
  - encode_by_default n IH Hv.
Qed.

Lemma encode_le (n m : nat) (v : value) (j : json) :
  (n <= m)%nat -> Util.encode n v = Ok j -> Util.encode m v = Ok j.
Proof.
  intros Hle Hv. induction Hle as [|m Hle IH]; [exact Hv | now apply encode_mono].
Qed.

Lemma encode_plain_items (n m : nat) (items : list value) (js : list json) :
  (forall v j, Util.encode n (plain v) = Ok j -> Util.encode m v = Ok j) ->
  rmap_list (Util.encode n) (map plain items) = Ok js ->
  rmap_list (Util.encode m) items = Ok js.
Proof.
  intros IH. apply rmap_list_map_Ok. intros x y _. apply IH.
Qed.

Lemma encode_plain_members (n m : nat) (items : list (value * value))
    (ms : list (string * json)) :
  (forall v j, Util.encode n (plain v) = Ok j -> Util.encode m v = Ok j) ->
  rmap_list (fun kv : value * value =>
               rbind (Util.json_key (fst kv)) (fun k =>
               rbind (Util.encode n (snd kv)) (fun j => Ok (k, j))))
            (map (fun kv : value * value => (fst kv, plain (snd kv))) items) = Ok ms ->
  rmap_list (fun kv : value * value =>
               rbind (Util.json_key (fst kv)) (fun k =>
               rbind (Util.encode m (snd kv)) (fun j => Ok (k, j))))
            items = Ok ms.
Proof.
  intros IH. apply rmap_list_map_Ok. intros [k x] y _ Hf. cbn [fst snd] in *.
  destruct (Util.json_key k); cbn [rbind] in *; try discriminate.
  destruct (Util.encode n (plain x)) as [jx| |] eqn:Ex; cbn [rbind] in *; try discriminate.
  rewrite (IH x jx Ex). exact Hf.
Qed.

(** X4.  The encoder renders a value as the plain data its conversions lead
    to: whenever the value with every numpy integer, float and array and
    every [Path2D] replaced by [int(obj)], [float(obj)], [obj.tolist()] and
    [obj.to_dict()], and every numpy boolean by [True], has a rendering
    within a nesting budget [n], the value itself has the same rendering
    within any budget of at least [2 * n] (each conversion costs one more
    level). *)
Theorem encode_plain (n : nat) :
  forall (v : value) (j : json),
    Util.encode n (plain v) = Ok j ->
    forall m, (2 * n <= m)%nat -> Util.encode m v = Ok j.
Proof.
  induction n as [|n IH]; intros v j Hv m Hm; [discriminate|].
  destruct m as [|[|m]]; try lia.
  assert (Hm' : (2 * n <= m)%nat) by lia.
  assert (IHm : forall v j, Util.encode n (plain v) = Ok j -> Util.encode m v = Ok j)
    by (intros v' j' Hv'; now apply (IH v' j' Hv' m)).
  assert (IHSm : forall v j, Util.encode n (plain v) = Ok j -> Util.encode (S m) v = Ok j)
    by (intros v' j' Hv'; apply (IH v' j' Hv' (S m)); lia).
  destruct v; cbn [plain] in Hv; try exact Hv.
  - (* list *)
    cbn [Util.encode] in Hv.
    change (Util.encode (S (S m)) (VList items))
      with (rbind (rmap_list (Util.encode (S m)) items) (fun js => Ok (JArray js))).
    destruct (rmap_list (Util.encode n) (map plain items)) as [js| |] eqn:E;
      cbn [rbind] in Hv; try discriminate.
    now rewrite (encode_plain_items n (S m) items js IHSm E).
  - (* dict *)
    rewrite encode_VDict in Hv. rewrite encode_VDict.
    match type of Hv with
    | rbind ?r _ = _ => destruct r as [ms| |] eqn:E; cbn [rbind] in Hv; try discriminate
    end.
    now rewrite (encode_plain_members n (S m) items ms IHSm E).
  - (* numpy boolean *)
    destruct b; exact Hv.
  - (* numpy array *)
    cbn [Util.encode] in Hv.
    change (Util.encode (S (S m)) (NdArray items))
      with (Util.encode (S m) (VList items)).
    destruct m as [|m0].
    + assert (n = 0)%nat as -> by lia.
      destruct items as [|x items]; [exact Hv | discriminate Hv].
    + change (Util.encode (S (S m0)) (VList items))
        with (rbind (rmap_list (Util.encode (S m0)) items) (fun js => Ok (JArray js))).
      destruct (rmap_list (Util.encode n) (map plain items)) as [js| |] eqn:E;
        cbn [rbind] in Hv; try discriminate.
      now rewrite (encode_plain_items n (S m0) items js IHm E).
  - (* Path2D *)
    rewrite encode_VDict in Hv.
    change (Util.encode (S (S m)) (VPath2D as_dict))
      with (Util.encode (S m) (VDict as_dict)).
    destruct m as [|m0].
    + assert (n = 0)%nat as -> by lia.
      destruct as_dict as [|[k x] as_dict]; [exact Hv|].
      cbn in Hv. destruct (Util.json_key k); discriminate Hv.
    + rewrite encode_VDict.
      match type of Hv with
      | rbind ?r _ = _ => destruct r as [ms| |] eqn:E; cbn [rbind] in Hv; try discriminate
      end.
      now rewrite (encode_plain_members n (S m0) as_dict ms IHm E).
  - (* other instances *)
    apply (encode_le (S n)); [lia | exact Hv].
Qed.

End UtilMore.

Lemma is_instance_named_sound_witness :
  issubclass (class_of (NpBool true)) "bool_" = true.
Proof.
  apply (is_instance_named_sound (NpBool true) "bool_"). reflexivity.
Defined.

(** A class whose [Path2D] ancestor is six levels up is a subclass of
    [Path2D] that the name test does not recognise. *)
Lemma type_bases_depth_witness :
  issubclass deep_path_class "Path2D" = true /\
  Util.type_bases (Opaque deep_path_class) 4 = firstn 5 (lineage deep_path_class) /\
  Util.is_instance_named (Opaque deep_path_class) "Path2D" = Ok false.
Proof.
  split; [reflexivity|].
  destruct (type_bases_depth (Opaque deep_path_class) "Path2D") as [Hbases Hnamed].
  - cbn. exact I.
  - split; [exact Hbases|]. rewrite Hnamed. reflexivity.
Defined.

(** A store entry as trimesh returns it, numpy values inside, and its plain
    rendering. *)
Lemma encode_plain_witness :
  Util.json_dumps (H := Demo.collaborators)
    (VPath2D [(VStr "closed", NpBool false);
              (VStr "vertices", NdArray [NdArray [NpFloating (1 # 2); NpInteger 3]])])
  = Ok (JObject [("closed", JBool true);
                 ("vertices", JArray [JArray [JNumber (1 # 2); JNumber 3]])]).
Proof.
  apply (encode_plain (H := Demo.collaborators) 4
           (VPath2D [(VStr "closed", NpBool false);
                     (VStr "vertices", NdArray [NdArray [NpFloating (1 # 2); NpInteger 3]])])).
  - reflexivity.
  - unfold Util.recursion_limit. lia.
Defined.

(** * Further properties of the export *)

Section ExportMore.
Context `{Collaborators}.

Lemma layer_budget_eq : Util.recursion_limit = S (S layer_budget).
Proof. reflexivity. Qed.

Lemma json_dumps_slice_data (source units_str : string) (watertight : bool) (items : dict) :
  Util.json_dumps
    (VDict ([(VStr "source", VStr source); (VStr "units", VStr units_str);
             (VStr "watertight", VBool watertight)]
            ++ [(VStr "layers", dict_value items)]))
  = rbind (layer_members items)
          (fun members => Ok (slice_document source units_str watertight members)).
Proof.
  unfold Util.json_dumps. rewrite layer_budget_eq.
  rewrite encode_VDict.
  cbn [app rmap_list fst snd Util.json_key rbind].
  rewrite !encode_VStr, encode_VBool. cbn [rbind].
  unfold dict_value. rewrite encode_VDict, rmap_list_map.
  cbn [fst snd Util.json_key rbind]. fold (layer_members items).
  destruct (layer_members items); reflexivity.
Qed.

Lemma rmap_list_keys (g : value -> result json) (k : Q -> string)
    (items : dict) (members : list (string * json)) :
  rmap_list (fun kv : Q * value => rbind (g (snd kv)) (fun j => Ok (k (fst kv), j))) items
  = Ok members ->
  map fst members = map (fun kv => k (fst kv)) items.
Proof.
  revert members.
  induction items as [|[h p] items IH]; intros members Hm; cbn [rmap_list] in Hm.
  - injection Hm as <-. reflexivity.
  - cbn [fst snd] in Hm.
    destruct (g p); cbn [rbind] in Hm; try discriminate.
    match type of Hm with
    | rbind ?r _ = _ => destruct r as [ms| |] eqn:E; cbn [rbind] in Hm; try discriminate
    end.
    injection Hm as <-. cbn [map fst]. f_equal. now apply IH.
Qed.

Lemma layer_members_keys (items : dict) (members : list (string * json)) :
  layer_members items = Ok members ->
  map fst members = map (fun kv => float_repr (fst kv)) items.
Proof. apply rmap_list_keys. Qed.

(** What a run of the JSON branch of [export_layers] amounts to on a
    session with a mesh. *)
Lemma json_export_run
    (fuel : nat) (arg : option dict) (s : state)
    (store : dict) (source stem : string) (m : Mesh) (watertight : bool) :
  session_ready (self s) store source stem m watertight ->
  let file := (stem ++ ".json")%string in
  Stlslicer.export_layers fuel "json" arg s =
  match layer_members (effective_layers arg store) with
  | Ok members =>
      (Ok true,
       {| self := self s;
          world := with_logged
                     (world_write (world_write (world s) file (Text "")) file
                        (Document (slice_document source (str_units m) watertight members)))
                     [(DEBUG, ("Export to " ++ file ++ " finished.")%string)] |})
  | Raise e => (Raise e, {| self := self s; world := world_write (world s) file (Text "") |})
  | OutOfFuel =>
      (OutOfFuel, {| self := self s; world := world_write (world s) file (Text "") |})
  end.
Proof.
  intros Hready file. subst file.
  unfold Stlslicer.export_layers. unfold bind at 1.
  rewrite (layers_or_self_run arg s store) by apply Hready.
  unfold bind at 1.
  rewrite (slice_data_head_run s store source stem m watertight Hready).
  cbn [String.eqb Ascii.eqb Bool.eqb andb].
  destruct Hready as (_ & _ & Hstem & _). destruct s as [o w]. cbn [self world] in *.
  unfold getattr, get_self, open_w, write_file, get_world, put_world, lift, log, ret, bind.
  cbn [self world]. rewrite Hstem. cbv beta iota.
  rewrite json_dumps_slice_data.
  destruct (layer_members (effective_layers arg store)); reflexivity.
Qed.

(** X5.  JSON export on a session with a mesh writes one file,
    [<stem>.json], and touches no directory, no other file and not the
    clock.  When every cross-section of the store has a rendering, the file
    holds the document with [source], [units], [watertight] and [layers],
    the latter with one member per stored height, in store order, keyed by
    the printed height, and the result is [True].  When a cross-section
    cannot be rendered the exception leaves [export_layers] and the file,
    already opened for writing, is left empty. *)
Theorem json_export_document
    (fuel : nat) (arg : option dict) (s : state)
    (store : dict) (source stem : string) (m : Mesh) (watertight : bool) :
  session_ready (self s) store source stem m watertight ->
  let items := effective_layers arg store in
  let file := (stem ++ ".json")%string in
  let after := world (snd (Stlslicer.export_layers fuel "json" arg s)) in
  (forall members,
      layer_members items = Ok members ->
      fst (Stlslicer.export_layers fuel "json" arg s) = Ok true /\
      file_lookup (files after) file
        = Some (Document (slice_document source (str_units m) watertight members)) /\
      map fst members = map (fun kv => float_repr (fst kv)) items) /\
  (forall e,
      layer_members items = Raise e ->
      fst (Stlslicer.export_layers fuel "json" arg s) = Raise e /\
      file_lookup (files after) file = Some (Text "")) /\
  dirs after = dirs (world s) /\
  ticks after = ticks (world s) /\
  (forall p, p <> file -> file_lookup (files after) p = file_lookup (files (world s)) p).
Proof.
  intros Hready items file after.
  pose proof (json_export_run fuel arg s store source stem m watertight Hready) as Hrun.
  cbv zeta in Hrun. fold items in Hrun. fold file in Hrun.
  subst after. rewrite Hrun. clear Hrun.
  split; [|split; [|split; [|split]]].
  - intros members Hm. rewrite Hm. cbn [fst snd world]. split; [reflexivity|]. split.
    + unfold with_logged, world_write. cbn [files]. apply file_lookup_file_set_same.
    + now apply layer_members_keys.
  - intros e He. rewrite He. cbn [fst snd world]. split; [reflexivity|].
    unfold world_write. cbn [files]. apply file_lookup_file_set_same.
  - destruct (layer_members items); reflexivity.
  - destruct (layer_members items); reflexivity.
  - intros p Hp.
    destruct (layer_members items); cbn [snd world with_logged world_write files];
      rewrite ?file_lookup_file_set_other by exact Hp; reflexivity.
Qed.

End ExportMore.

(** A store with a missing cross-section and a path with numpy data is
    written as a document; the missing one becomes [null]. *)
Lemma json_export_document_witness :
  let items := [(0%Q, VNone); (5%Q, VPath2D [(VStr "closed", NpBool false)])] in
  let run := Stlslicer.export_layers (H := Demo.collaborators) 0 "json" (Some items)
               Demo.sliced_taken in
  fst run = Ok true /\
  file_lookup (files (world (snd run))) "cube.json"
    = Some (Document
              (JObject [("source", JString "cube.stl"); ("units", JString "mm");
                        ("watertight", JBool true);
                        ("layers", JObject [("0.0", JNull);
                                            ("5.0", JObject [("closed", JBool true)])])])).
Proof.
  intros items run.
  destruct (json_export_document (H := Demo.collaborators) 0 (Some items) Demo.sliced_taken
              Demo.cube_layers "cube.stl" "cube" (set_units Demo.cube "mm") true)
    as (Hok & _).
  - repeat split.
  - destruct (Hok [("0.0", JNull); ("5.0", JObject [("closed", JBool true)])])
      as (Hres & Hfile & _).
    + reflexivity.
    + split; [exact Hres | exact Hfile].
Defined.

(** * What the methods leave alone *)

Section Frames.
Context `{Collaborators}.

Lemma keeps_self_ret {A : Type} (a : A) : keeps_self (ret a).
Proof. intros s. reflexivity. Qed.

Lemma keeps_self_raise {A : Type} (e : exn) : keeps_self (raise (A := A) e).
Proof. intros s. reflexivity. Qed.

Lemma keeps_self_lift {A : Type} (r : result A) : keeps_self (lift r).
Proof. intros s. reflexivity. Qed.

Lemma keeps_self_bind {A B : Type} (c : M A) (k : A -> M B) :
  keeps_self c -> (forall a, keeps_self (k a)) -> keeps_self (bind c k).
Proof.
  intros Hc Hk s. unfold bind. specialize (Hc s).
  destruct (c s) as [[a|e|] s1]; cbn [snd] in *; try exact Hc.
  now rewrite (Hk a s1).
Qed.

Lemma keeps_self_try_except {A : Type} (c : M A) (handled : exn -> bool) (h : exn -> M A) :
  keeps_self c -> (forall e, keeps_self (h e)) -> keeps_self (try_except c handled h).
Proof.
  intros Hc Hh s. unfold try_except. specialize (Hc s).
  destruct (c s) as [[a|e|] s1]; cbn [snd] in *; try exact Hc.
  destruct (handled e); [|exact Hc]. now rewrite (Hh e s1).
Qed.

Lemma keeps_self_getattr {A : Type} (name : string) (proj : STLSlicer -> attr A) :
  keeps_self (getattr name proj).
Proof. intros s. now rewrite getattr_reads_only. Qed.

Lemma keeps_self_log (l : level) (msg : string) : keeps_self (log l msg).
Proof. intros [o w]. reflexivity. Qed.

Lemma keeps_self_write_file (p : string) (c : content) : keeps_self (write_file p c).
Proof. intros [o w]. reflexivity. Qed.

Lemma keeps_self_now : keeps_self now.
Proof. intros [o w]. reflexivity. Qed.

Lemma keeps_self_makedirs (p : string) : keeps_self (makedirs p).
Proof.
  intros [o w]. unfold makedirs, get_world, put_world, raise, bind. cbn.
  now destruct (path_exists w p).
Qed.

Lemma keeps_self_make_export_dir (fuel : nat) (exp_type : string) :
  keeps_self (make_export_dir fuel exp_type).
Proof.
  induction fuel as [|fuel IH]; cbn [make_export_dir].
  - intros s. reflexivity.
  - apply keeps_self_bind; [apply keeps_self_now|]. intros t.
    apply keeps_self_bind; [apply keeps_self_getattr|]. intros stem.
    apply keeps_self_bind.
    + apply keeps_self_try_except.
      * apply keeps_self_bind; [apply keeps_self_makedirs|].
        intros _. apply keeps_self_ret.
      * intros e. apply keeps_self_ret.
    + intros [|]; [apply keeps_self_ret | exact IH].
Qed.

Lemma keeps_self_export_path (p : value) (file fmt : string) :
  keeps_self (export_path p file fmt).
Proof.
  unfold export_path. apply keeps_self_bind; [apply keeps_self_lift|].
  intros text. apply keeps_self_write_file.
Qed.

Lemma keeps_self_export_each (dir base fmt : string) (items : dict) :
  forall index, keeps_self (Stlslicer.export_each items dir base fmt index).
Proof.
  induction items as [|[h p] items IH]; intros index; cbn [Stlslicer.export_each].
  - apply keeps_self_ret.
  - apply keeps_self_bind; [|intros a; apply IH].
    apply keeps_self_try_except.
    + apply keeps_self_bind; [apply keeps_self_export_path|].
      intros _. apply keeps_self_ret.
    + intros e. apply keeps_self_bind; [apply keeps_self_log|].
      intros _. apply keeps_self_ret.
Qed.

Lemma keeps_self_main_export_each (dir base fmt : string) (items : dict) :
  forall index, keeps_self (Main.export_each items dir base fmt index).
Proof.
  induction items as [|[h p] items IH]; intros index; cbn [Main.export_each].
  - apply keeps_self_ret.
  - apply keeps_self_bind; [|intros a; apply IH].
    apply keeps_self_try_except.
    + apply keeps_self_bind; [apply keeps_self_export_path|].
      intros _. apply keeps_self_ret.
    + intros e. apply keeps_self_bind; [apply keeps_self_log|].
      intros _. apply keeps_self_ret.
Qed.

Lemma keeps_self_layers_or_self (arg : option dict) : keeps_self (layers_or_self arg).
Proof. intros s. now rewrite layers_or_self_reads_only. Qed.

Lemma keeps_self_slice_data_head : keeps_self slice_data_head.
Proof. intros s. now rewrite slice_data_head_reads_only. Qed.

Ltac keeps_self_step :=
  cbv zeta;
  first
    [ apply keeps_self_ret
    | apply keeps_self_getattr
    | apply keeps_self_log
    | apply keeps_self_write_file
    | apply keeps_self_lift
    | apply keeps_self_layers_or_self
    | apply keeps_self_slice_data_head
    | apply keeps_self_make_export_dir
    | apply keeps_self_export_each
    | apply keeps_self_main_export_each
    | (apply keeps_self_bind; [|intro]) ].

(** X6.  Exporting never changes the session object: whatever the format,
    the arguments and the outcome (result or exception), [export_layers] of
    [stlslicer.py] and of [main.py] leave every attribute, the layer store
    included, as it was. *)
Theorem export_layers_keeps_session
    (fuel : nat) (exp_type : string) (arg : option dict) (s : state) :
  self (snd (Stlslicer.export_layers fuel exp_type arg s)) = self s /\
  self (snd (Main.export_layers fuel exp_type arg s)) = self s.
Proof.
  split.
  - revert s. change (keeps_self (Stlslicer.export_layers fuel exp_type arg)).
    unfold Stlslicer.export_layers, Stlslicer.export_into, open_w.
    apply keeps_self_bind; [apply keeps_self_layers_or_self | intros layers].
    apply keeps_self_bind; [apply keeps_self_slice_data_head | intros head].
    destruct (String.eqb exp_type "json"); [repeat keeps_self_step|].
    destruct (existsb (String.eqb exp_type) ["dxf"; "svg"]); repeat keeps_self_step.
  - revert s. change (keeps_self (Main.export_layers fuel exp_type arg)).
    unfold Main.export_layers, Main.export_into, open_w.
    apply keeps_self_bind; [apply keeps_self_layers_or_self | intros layers].
    apply keeps_self_bind; [apply keeps_self_slice_data_head | intros head].
    destruct (String.eqb exp_type "json"); [repeat keeps_self_step|].
    destruct (existsb (String.eqb exp_type) ["dxf"; "svg"]); repeat keeps_self_step.
Qed.

End Frames.

(** * Further properties of loading and construction *)

Section LoadMore.
Context `{Collaborators}.

(** X7.  When [trimesh.load] raises, [load_mesh] of [stlslicer.py] logs the
    failure and raises the same exception; by then it has already pointed
    [full_filename] and [filename] at the file that failed, while the mesh,
    the watertight flag, the layer store and the distance are those of
    before. *)
Theorem load_mesh_failure (f : string) (e : exn) (s : state) :
  trimesh_load f false = Raise e ->
  let s' := snd (Stlslicer.load_mesh f s) in
  fst (Stlslicer.load_mesh f s) = Raise e /\
  full_filename (self s') = Bound f /\
  filename (self s') = Bound (os_path_splitext_root f) /\
  mesh (self s') = mesh (self s) /\
  mesh_watertight (self s') = mesh_watertight (self s) /\
  layers (self s') = layers (self s) /\
  distance (self s') = distance (self s) /\
  exists text,
    world s' = with_logged (world s)
                 [(INFO, ("File '" ++ f ++ "' not loaded. ERROR: " ++ text)%string)].
Proof.
  intros Hload s'. subst s'. destruct s as [o w].
  unfold Stlslicer.load_mesh, set_full_filename, set_filename, try_except, lift,
    get_self, put_self, log, get_world, put_world, raise, ret, bind.
  cbn [self world]. rewrite Hload. cbn.
  repeat (split; [reflexivity|]). eexists. reflexivity.
Qed.

(** X8.  Loading never touches the layer store or the distance: whether it
    succeeds or fails, [load_mesh] of both files leaves [self.layers] and
    [self.distance] as they were, so the store sliced from an earlier mesh
    stays in the session next to the new file name. *)
Theorem load_mesh_keeps_layers (f : string) (s : state) :
  layers (self (snd (Stlslicer.load_mesh f s))) = layers (self s) /\
  distance (self (snd (Stlslicer.load_mesh f s))) = distance (self s) /\
  layers (self (snd (Main.load_mesh f s))) = layers (self s) /\
  distance (self (snd (Main.load_mesh f s))) = distance (self s).
Proof.
  destruct s as [o w].
  assert (Hst : layers (self (snd (Stlslicer.load_mesh f {| self := o; world := w |})))
                  = layers o /\
                distance (self (snd (Stlslicer.load_mesh f {| self := o; world := w |})))
                  = distance o).
  { unfold Stlslicer.load_mesh, Stlslicer.repair_mesh_watertight, set_full_filename,
      set_filename, set_mesh, set_mesh_watertight, try_except, lift, getattr,
      get_self, put_self, log, get_world, put_world, raise, ret, bind.
    cbn [self world].
    destruct (trimesh_load f false) as [m|e|]; cbn; [|now split|now split].
    destruct (is_watertight m); cbn; now split. }
  assert (Hmain : layers (self (snd (Main.load_mesh f {| self := o; world := w |})))
                    = layers o /\
                  distance (self (snd (Main.load_mesh f {| self := o; world := w |})))
                    = distance o).
  { unfold Main.load_mesh, set_full_filename, set_filename, set_mesh,
      set_mesh_watertight, lift, getattr, get_self, put_self, log, get_world,
      put_world, raise, ret, bind.
    cbn [self world].
    destruct (trimesh_load f true) as [m|e|]; cbn; [|now split|now split].
    destruct (is_watertight m); cbn; now split. }
  cbn [self]. tauto.
Qed.

(** X9.  [STLSlicer()] of [main.py] without a file (no argument, or the
    empty string) only creates [layers] and [distance]: nothing is logged,
    and on that object [slice_mesh] raises [AttributeError] for [mesh] and
    [export_layers] raises [AttributeError] for [full_filename], whatever
    their arguments. *)
Theorem main_init_without_file
    (f : option string) (w : World) (pitch : option Q) (fuel : nat)
    (exp_type : string) (arg : option dict) :
  f = None \/ f = Some "" ->
  let s := snd (Main.__init__ f {| self := Main.blank; world := w |}) in
  fst (Main.__init__ f {| self := Main.blank; world := w |}) = Ok tt /\
  s = {| self := {| layers := Bound []; distance := Bound 1%Q;
                    full_filename := Unset; filename := Unset;
                    mesh := Unset; mesh_watertight := Unset |};
         world := w |} /\
  Main.slice_mesh pitch s = (Raise (AttributeError "mesh"), s) /\
  Main.export_layers fuel exp_type arg s = (Raise (AttributeError "full_filename"), s).
Proof.
  intros Hf s.
  assert (Hs : s = {| self := {| layers := Bound []; distance := Bound 1%Q;
                                 full_filename := Unset; filename := Unset;
                                 mesh := Unset; mesh_watertight := Unset |};
                      world := w |})
    by (destruct Hf as [-> | ->]; reflexivity).
  split; [destruct Hf as [-> | ->]; reflexivity|].
  split; [exact Hs|]. rewrite Hs. split.
  - unfold Main.slice_mesh, distance_or_self, mesh_attr, getattr, get_self, raise, ret, bind.
    destruct pitch as [q|]; cbn [self distance mesh]; [|reflexivity].
    destruct (truthy (VFloat q)); reflexivity.
  - unfold Main.export_layers, layers_or_self, slice_data_head, mesh_attr, getattr,
      get_self, raise, ret, bind.
    destruct arg as [d|]; cbn [self layers full_filename]; [|reflexivity].
    destruct (truthy (dict_value d)); reflexivity.
Qed.

(** X10.  [STLSlicer(f)] of [main.py] swallows a failing load: the
    constructor returns normally, logs the failure, and leaves an object
    with empty file names, [mesh = None], [mesh_watertight = False], an
    empty store and distance 1; slicing that object raises
    [AttributeError]. *)
Theorem main_init_failed_load (f : string) (e : exn) (w : World) (pitch : option Q) :
  f <> "" ->
  trimesh_load f true = Raise e ->
  let s := snd (Main.__init__ (Some f) {| self := Main.blank; world := w |}) in
  fst (Main.__init__ (Some f) {| self := Main.blank; world := w |}) = Ok tt /\
  (exists text,
     s = {| self := {| layers := Bound []; distance := Bound 1%Q;
                       full_filename := Bound ""; filename := Bound "";
                       mesh := Bound None; mesh_watertight := Bound false |};
            world := with_logged w
                       [(INFO, ("File '" ++ f ++ "' not loaded. ERROR: " ++ text)%string)] |}) /\
  Main.slice_mesh pitch s = (Raise (AttributeError "bounds"), s).
Proof.
  intros Hf Hload s.
  assert (Hs : Main.__init__ (Some f) {| self := Main.blank; world := w |} =
               (Ok tt,
                {| self := {| layers := Bound []; distance := Bound 1%Q;
                              full_filename := Bound ""; filename := Bound "";
                              mesh := Bound None; mesh_watertight := Bound false |};
                   world := with_logged w
                              [(INFO, ("File '" ++ f ++ "' not loaded. ERROR: "
                                       ++ exn_name e)%string)] |})).
  { unfold Main.__init__, Main.load_mesh, set_layers, set_distance, set_full_filename,
      set_filename, set_mesh, set_mesh_watertight, try_except, lift, getattr,
      get_self, put_self, log, get_world, put_world, raise, ret, bind.
    cbn [self world truthy]. apply String.eqb_neq in Hf. rewrite Hf. cbn [negb].
    rewrite Hload. reflexivity. }
  subst s. rewrite Hs. cbn [fst snd]. split; [reflexivity|].
  split; [eexists; reflexivity|].
  unfold Main.slice_mesh, distance_or_self, mesh_attr, getattr, get_self, raise, ret, bind.
  destruct pitch as [q|]; cbn [self distance mesh]; [|reflexivity].
  destruct (truthy (VFloat q)); reflexivity.
Qed.

End LoadMore.

Lemma load_mesh_failure_witness :
  fst (Stlslicer.load_mesh (H := Demo.collaborators) "missing.stl" (Demo.loaded "cube.stl"))
    = Raise (OtherError "ValueError") /\
  full_filename (self (snd (Stlslicer.load_mesh (H := Demo.collaborators) "missing.stl"
                              (Demo.loaded "cube.stl")))) = Bound "missing.stl" /\
  mesh (self (snd (Stlslicer.load_mesh (H := Demo.collaborators) "missing.stl"
                     (Demo.loaded "cube.stl")))) = Bound (Some (set_units Demo.cube "mm")).
Proof.
  destruct (load_mesh_failure (H := Demo.collaborators) "missing.stl"
              (OtherError "ValueError") (Demo.loaded "cube.stl"))
    as (Hres & Hfull & _ & Hmesh & _).
  - reflexivity.
  - repeat split; assumption.
Defined.

Lemma main_init_without_file_witness :
  Main.slice_mesh (H := Demo.collaborators) (Some 5%Q)
    (snd (Main.__init__ (H := Demo.collaborators) None
            {| self := Main.blank; world := Demo.world0 |}))
  = (Raise (AttributeError "mesh"),
     snd (Main.__init__ (H := Demo.collaborators) None
            {| self := Main.blank; world := Demo.world0 |})).
Proof.
  destruct (main_init_without_file (H := Demo.collaborators) None Demo.world0
              (Some 5%Q) 0 "json" None) as (_ & _ & Hslice & _).
  - left. reflexivity.
  - exact Hslice.
Defined.

Lemma main_init_failed_load_witness :
  fst (Main.__init__ (H := Demo.collaborators) (Some "missing.stl")
         {| self := Main.blank; world := Demo.world0 |}) = Ok tt /\
  mesh (self (snd (Main.__init__ (H := Demo.collaborators) (Some "missing.stl")
                     {| self := Main.blank; world := Demo.world0 |}))) = Bound None.
Proof.
  destruct (main_init_failed_load (H := Demo.collaborators) "missing.stl"
              (OtherError "ValueError") Demo.world0 None) as (Hres & Hs & _).
  - discriminate.
  - reflexivity.
  - split; [exact Hres|]. cbv zeta in Hs. destruct Hs as [text Hs]. now rewrite Hs.
Defined.

(** * Further properties of slicing *)

Section SliceMore.
Context `{Collaborators}.

Lemma int_of_quotient_comp (x y d : Q) :
  (x == y)%Q -> int_of_quotient x d = int_of_quotient y d.
Proof.
  intros E. unfold int_of_quotient.
  assert (E0 : Qeq_bool x 0 = Qeq_bool y 0) by now rewrite E.
  assert (Ed : (x / d == y / d)%Q) by now rewrite E.
  assert (El : Qle_bool 0 (x / d) = Qle_bool 0 (y / d)) by now rewrite Ed.
  rewrite E0, El, (Qfloor_comp _ _ Ed).
  unfold Qceiling.
  assert (En : (- (x / d) == - (y / d))%Q) by now rewrite Ed.
  now rewrite (Qfloor_comp _ _ En).
Qed.

(** [int(x / d)] for a negative numerator and a positive divisor. *)
Lemma int_of_quotient_negative_numerator (x d : Q) :
  (x < 0)%Q -> (0 < d)%Q -> int_of_quotient x d = Ok (- Qfloor (- x / d))%Z.
Proof.
  intros Hx Hd. unfold int_of_quotient.
  rewrite (Qeq_bool_pos d Hd).
  assert (Hnz : ~ (d == 0)%Q)
    by (intros E; rewrite E in Hd; now apply Qlt_irrefl in Hd).
  assert (E : (- (x / d) == - x / d)%Q) by (field; exact Hnz).
  destruct (Qle_bool 0 (x / d)) eqn:Hq.
  - exfalso. apply Qle_bool_iff in Hq.
    assert (Hprod : (0 <= x / d * d)%Q)
      by (apply Qmult_le_0_compat; [exact Hq | now apply Qlt_le_weak]).
    assert (Ex : (x / d * d == x)%Q) by (field; exact Hnz).
    rewrite Ex in Hprod.
    apply (Qlt_irrefl 0). now apply Qle_lt_trans with x.
  - unfold Qceiling. now rewrite (Qfloor_comp _ _ E).
Qed.

Lemma distance_or_self_truthy (q : Q) (s : state) :
  ~ (q == 0)%Q -> distance_or_self (Some q) s = (Ok q, s).
Proof.
  intros Hq. unfold distance_or_self. cbn [truthy].
  destruct (Qeq_bool q 0) eqn:E; [|reflexivity].
  apply Qeq_bool_eq in E. contradiction.
Qed.

Lemma distance_or_self_falsy (arg : option Q) (s : state) :
  (arg = None \/ exists q, arg = Some q /\ (q == 0)%Q) ->
  distance_or_self arg s = getattr "distance" distance s.
Proof.
  intros [-> | [q [-> Hq]]]; unfold distance_or_self; [reflexivity|].
  cbn [truthy]. now rewrite (Qeq_eq_bool _ _ Hq).
Qed.

(** X11.  With no pitch given (omitted, [None] or 0) [slice_mesh] of both
    files slices with [self.distance]: the call equals the call with that
    distance as its argument.  When [self.distance] is 0 as well, the
    division by zero surfaces in [stlslicer.py], for a mesh with bounds, as
    [OverflowError] when the mesh has some height and as [ValueError] when
    it has none; nothing is logged. *)
Theorem slice_mesh_default_distance (s : state) (arg : option Q) (d : Q) :
  distance (self s) = Bound d ->
  (arg = None \/ exists q, arg = Some q /\ (q == 0)%Q) ->
  (~ (d == 0)%Q ->
     Stlslicer.slice_mesh arg s = Stlslicer.slice_mesh (Some d) s /\
     Main.slice_mesh arg s = Main.slice_mesh (Some d) s) /\
  ((d == 0)%Q ->
     forall (m : Mesh) (x0 y0 z_min x1 y1 z_max : Q),
       mesh (self s) = Bound (Some m) ->
       bounds m = Some ((x0, y0, z_min), (x1, y1, z_max)) ->
       Stlslicer.slice_mesh arg s
       = (Raise (if Qeq_bool (z_max - z_min) 0 then ValueError else OverflowError), s)).
Proof.
  intros Hd Harg.
  assert (Hget : distance_or_self arg s = (Ok d, s)).
  { rewrite (distance_or_self_falsy arg s Harg). destruct s as [o w]. cbn [self] in Hd.
    unfold getattr, get_self, bind. cbn. now rewrite Hd. }
  split.
  - intros Hnz.
    pose proof (distance_or_self_truthy d s Hnz) as Hsome.
    split.
    + unfold Stlslicer.slice_mesh. unfold bind at 1. rewrite Hget.
      symmetry. unfold bind at 1. now rewrite Hsome.
    + unfold Main.slice_mesh. unfold bind at 1. rewrite Hget.
      symmetry. unfold bind at 1. now rewrite Hsome.
  - intros Hz m x0 y0 z_min x1 y1 z_max Hmesh Hbounds.
    unfold Stlslicer.slice_mesh. unfold bind at 1. rewrite Hget.
    destruct s as [o w]. cbn [self] in Hmesh.
    unfold mesh_attr, getattr, get_self, lift, raise, ret, bind. cbn [self].
    rewrite Hmesh. cbv beta iota. rewrite Hbounds.
    unfold int_of_quotient. rewrite (Qeq_eq_bool _ _ Hz).
    destruct (Qeq_bool (z_max - z_min) 0); reflexivity.
Qed.

(** X12.  [slice_mesh] of [main.py] on a mesh that lies below [Z = 0], with
    a positive pitch: when the top of the mesh is at least one pitch below
    zero the schedule is empty and the call raises [IndexError] without
    logging or slicing; when it is less than one pitch below zero the
    schedule is the single height [0], a plane above the mesh. *)
Theorem main_slice_mesh_below_zero
    (s : state) (m : Mesh) (lo : vec3) (x1 y1 z_max pitch : Q) :
  mesh (self s) = Bound (Some m) ->
  bounds m = Some (lo, (x1, y1, z_max)) ->
  (0 < pitch)%Q ->
  (z_max < 0)%Q ->
  ((z_max <= - pitch)%Q ->
     Main.slice_mesh (Some pitch) s = (Raise IndexError, s)) /\
  ((- pitch < z_max)%Q ->
     fst (Main.slice_mesh (Some pitch) s) =
     let z_list := [(inject_Z 0 * pitch)%Q] in
     let slices_2D := section_multiplane m (Main.plane_origin m) [0; 0; 1]%Q z_list in
     assign_layers (seq 0 (List.length slices_2D)) z_list slices_2D []).
Proof.
  intros Hmesh Hbounds Hp Hz.
  assert (Hnz : ~ (pitch == 0)%Q)
    by (intros E; rewrite E in Hp; now apply Qlt_irrefl in Hp).
  assert (Hpos : (0 <= - z_max)%Q).
  { apply Qlt_le_weak. apply (Qplus_lt_l _ _ z_max). ring_simplify. exact Hz. }
  destruct s as [o w]. cbn [self] in Hmesh. destruct lo as [[x0 y0] z0].
  split.
  - intros Hdeep.
    assert (Hr : (1 <= Qfloor (- z_max / pitch))%Z).
    { apply Qfloor_ge_1. apply Qle_shift_div_l; [exact Hp|].
      rewrite Qmult_1_l. apply (Qplus_le_l _ _ (z_max - pitch)). ring_simplify.
      setoid_replace (-1 * pitch)%Q with (- pitch)%Q by ring. exact Hdeep. }
    unfold Main.slice_mesh. unfold bind at 1.
    rewrite (distance_or_self_truthy pitch _ Hnz).
    unfold mesh_attr, getattr, get_self, lift, raise, ret, bind. cbn [self].
    rewrite Hmesh. cbv beta iota. rewrite Hbounds.
    rewrite (int_of_quotient_negative_numerator _ _ Hz Hp). cbv beta iota.
    unfold heights.
    replace (Z.to_nat (- Qfloor (- z_max / pitch) + 1)) with 0%nat by lia.
    reflexivity.
  - intros Hshallow.
    assert (Hr : (Qfloor (- z_max / pitch) = 0)%Z).
    { assert (Hlo : (0 <= Qfloor (- z_max / pitch))%Z)
        by (apply Qfloor_nonneg; now apply Qdiv_nonneg).
      assert (Hhi : (Qfloor (- z_max / pitch) < 1)%Z).
      { apply Qfloor_lt_1. apply Qlt_shift_div_r; [exact Hp|].
        rewrite Qmult_1_l. apply (Qplus_lt_l _ _ (z_max - pitch)). ring_simplify.
        setoid_replace (-1 * pitch)%Q with (- pitch)%Q by ring. exact Hshallow. }
      lia. }
    unfold Main.slice_mesh. unfold bind at 1.
    rewrite (distance_or_self_truthy pitch _ Hnz).
    unfold mesh_attr, getattr, get_self, lift, raise, ret, bind. cbn [self].
    rewrite Hmesh. cbv beta iota. rewrite Hbounds.
    rewrite (int_of_quotient_negative_numerator _ _ Hz Hp). cbv beta iota.
    rewrite Hr. change (heights (- 0) pitch) with [(inject_Z 0 * pitch)%Q].
    cbn [first_item last_item rev app]. cbv beta iota zeta.
    unfold log, set_layers, get_self, get_world, put_self, put_world, bind, ret.
    cbn [world self].
    destruct (assign_layers _ _ _ _); reflexivity.
Qed.

End SliceMore.

Lemma slice_mesh_default_distance_witness :
  Main.slice_mesh (H := Demo.collaborators) None (Demo.main_loaded "cube.stl")
  = Main.slice_mesh (H := Demo.collaborators) (Some 1%Q) (Demo.main_loaded "cube.stl") /\
  Stlslicer.slice_mesh (H := Demo.collaborators) (Some 0%Q)
    (DemoMore.session (Some Demo.cube) (Bound 0%Q))
  = (Raise OverflowError, DemoMore.session (Some Demo.cube) (Bound 0%Q)).
Proof.
  split.
  - destruct (slice_mesh_default_distance (H := Demo.collaborators)
                (Demo.main_loaded "cube.stl") None 1%Q) as [Hsame _].
    + reflexivity.
    + left. reflexivity.
    + apply Hsame. discriminate.
  - destruct (slice_mesh_default_distance (H := Demo.collaborators)
                (DemoMore.session (Some Demo.cube) (Bound 0%Q)) (Some 0%Q) 0%Q)
      as [_ Hzero].
    + reflexivity.
    + right. exists 0%Q. split; reflexivity.
    + apply (Hzero (reflexivity _) Demo.cube 0 0 0 10 10 10)%Q; reflexivity.
Defined.

Lemma main_slice_mesh_below_zero_witness :
  Main.slice_mesh (H := Demo.collaborators) (Some 5%Q)
    (DemoMore.session (Some DemoMore.sunk_cube) (Bound 1%Q))
  = (Raise IndexError, DemoMore.session (Some DemoMore.sunk_cube) (Bound 1%Q)).
Proof.
  destruct (main_slice_mesh_below_zero (H := Demo.collaborators)
              (DemoMore.session (Some DemoMore.sunk_cube) (Bound 1%Q))
              DemoMore.sunk_cube (0, 0, -15)%Q 10 10 (-5) 5)%Q as [Hdeep _].
  - reflexivity.
  - reflexivity.
  - unfold Qlt; simpl; lia.
  - unfold Qlt; simpl; lia.
  - apply Hdeep. unfold Qle; simpl; lia.
Defined.

(** * Slicing: what it changes, what it reads *)

Section SliceFrames.
Context `{Collaborators}.

Ltac slice_unfold :=
  unfold Stlslicer.slice_mesh, Main.slice_mesh, distance_or_self, mesh_attr, set_layers,
    log, getattr, get_self, put_self, get_world, put_world, lift, raise, ret, bind.

Ltac slice_simpl :=
  cbv beta iota zeta;
  cbn [fst snd self world with_layers layers distance full_filename filename
       mesh mesh_watertight dirs files ticks truthy].

Ltac slice_case :=
  match goal with
  | |- context [match ?arg with Some _ => _ | None => _ end] => is_var arg; destruct arg
  | |- context [if negb ?b then _ else _] => destruct b; cbn [negb]
  | |- context [match distance ?o with _ => _ end] => destruct (distance o) eqn:?
  | |- context [match mesh ?o with _ => _ end] => destruct (mesh o) as [|[?|]] eqn:?
  | |- context [match bounds ?m with _ => _ end] =>
      destruct (bounds m) as [[[[? ?] ?] [[? ?] ?]]|]
  | |- context [match int_of_quotient ?a ?b with _ => _ end] =>
      destruct (int_of_quotient a b)
  | |- context [match first_item ?l with _ => _ end] => destruct (first_item l)
  | |- context [match last_item ?l with _ => _ end] => destruct (last_item l)
  | |- context [match assign_layers ?a ?b ?c ?d with _ => _ end] =>
      destruct (assign_layers a b c d)
  end.

Ltac slice_cases := slice_simpl; repeat (slice_case; slice_simpl).

Lemma stlslicer_changes_only_layers : changes_only_layers Stlslicer.slice_mesh.
Proof.
  intros arg [o w] run s'. subst s' run. slice_unfold.
  slice_cases; repeat split; assumption.
Qed.

Lemma main_changes_only_layers : changes_only_layers Main.slice_mesh.
Proof.
  intros arg [o w] run s'. subst s' run. slice_unfold.
  slice_cases; repeat split; assumption.
Qed.

Lemma stlslicer_reads_only : reads_only_distance_and_mesh Stlslicer.slice_mesh.
Proof.
  intros arg [o1 w1] [o2 w2] Hd Hm. cbn [self] in Hd, Hm. slice_unfold.
  slice_simpl; rewrite ?Hd, ?Hm.
  repeat (slice_case; slice_simpl; rewrite ?Hd, ?Hm); reflexivity.
Qed.

Lemma main_reads_only : reads_only_distance_and_mesh Main.slice_mesh.
Proof.
  intros arg [o1 w1] [o2 w2] Hd Hm. cbn [self] in Hd, Hm. slice_unfold.
  slice_simpl; rewrite ?Hd, ?Hm.
  repeat (slice_case; slice_simpl; rewrite ?Hd, ?Hm); reflexivity.
Qed.

Lemma reslicing_stable_of (slice : option Q -> M dict) :
  changes_only_layers slice -> reads_only_distance_and_mesh slice ->
  reslicing_stable slice.
Proof.
  intros Hframe Hreads arg s s'.
  destruct (Hframe arg s) as (_ & (Hd & Hf & Hn & Hm & Hw) & Hl).
  fold s' in Hd, Hf, Hn, Hm, Hw, Hl.
  assert (Hsame : fst (slice arg s') = fst (slice arg s)) by now apply Hreads.
  split; [exact Hsame|].
  destruct (Hframe arg s') as (_ & (Hd' & Hf' & Hn' & Hm' & Hw') & Hl').
  rewrite Hsame in Hl'.
  assert (Hll : layers (self (snd (slice arg s'))) = layers (self s')).
  { rewrite Hl'. destruct (fst (slice arg s)); [now rewrite Hl | reflexivity | reflexivity]. }
  destruct (self (snd (slice arg s'))), (self s'). cbn in *. congruence.
Qed.

(** X13.  [slice_mesh], in [stlslicer.py] and in [main.py] alike, changes
    nothing but [self.layers] and the log: directories, files, the clock
    and the other attributes stay as they are, and [self.layers] is the
    returned store on success and the old store on an exception.  Its
    result depends on the object only through [self.distance] and
    [self.mesh], so slicing again with the same argument returns the same
    result and leaves the object as the first call left it. *)
Theorem slice_mesh_frame :
  (changes_only_layers Stlslicer.slice_mesh /\
   reads_only_distance_and_mesh Stlslicer.slice_mesh /\
   reslicing_stable Stlslicer.slice_mesh) /\
  (changes_only_layers Main.slice_mesh /\
   reads_only_distance_and_mesh Main.slice_mesh /\
   reslicing_stable Main.slice_mesh).
Proof.
  split; (split; [|split]).
  - exact stlslicer_changes_only_layers.
  - exact stlslicer_reads_only.
  - apply reslicing_stable_of;
      [exact stlslicer_changes_only_layers | exact stlslicer_reads_only].
  - exact main_changes_only_layers.
  - exact main_reads_only.
  - apply reslicing_stable_of; [exact main_changes_only_layers | exact main_reads_only].
Qed.

(** X14.  On a mesh that rests on the plane [Z = 0] the two copies of
    [slice_mesh] agree: [main.py], which never reads the lower bound,
    returns the same store, logs the same record and leaves the same state
    as [stlslicer.py]. *)
Theorem slice_mesh_copies_agree_on_plate
    (arg : option Q) (s : state) (m : Mesh) (x0 y0 x1 y1 z_max : Q) :
  mesh (self s) = Bound (Some m) ->
  bounds m = Some ((x0, y0, 0%Q), (x1, y1, z_max)) ->
  Main.slice_mesh arg s = Stlslicer.slice_mesh arg s.
Proof.
  intros Hmesh Hbounds. destruct s as [o w]. cbn [self] in Hmesh.
  slice_unfold. unfold Main.plane_origin, Stlslicer.plane_origin. slice_simpl.
  repeat (first [ rewrite Hmesh
                | rewrite Hbounds
                | rewrite (int_of_quotient_comp (z_max - 0) z_max) by ring
                | slice_case ];
          slice_simpl);
    reflexivity.
Qed.

(** X15.  Slicing a session that has no usable mesh fails before anything
    is computed or logged, in both files: with no mesh loaded
    ([self.mesh] is [None]) a non-zero pitch gives [AttributeError] for
    [bounds], and with a mesh that has no bounds (an empty mesh) it gives
    [TypeError]; the state is unchanged. *)
Theorem slice_mesh_without_geometry (q : Q) (s : state) :
  ~ (q == 0)%Q ->
  (mesh (self s) = Bound None ->
     Stlslicer.slice_mesh (Some q) s = (Raise (AttributeError "bounds"), s) /\
     Main.slice_mesh (Some q) s = (Raise (AttributeError "bounds"), s)) /\
  (forall m, mesh (self s) = Bound (Some m) -> bounds m = None ->
     Stlslicer.slice_mesh (Some q) s = (Raise TypeError, s) /\
     Main.slice_mesh (Some q) s = (Raise TypeError, s)).
Proof.
  intros Hq. pose proof (distance_or_self_truthy q s Hq) as Hd.
  split.
  - intros Hmesh.
    split; [unfold Stlslicer.slice_mesh | unfold Main.slice_mesh];
      unfold bind at 1; rewrite Hd; destruct s as [o w]; cbn [self] in Hmesh;
      unfold mesh_attr, getattr, get_self, raise, ret, bind; cbn [self];
      rewrite Hmesh; reflexivity.
  - intros m Hmesh Hbounds.
    split; [unfold Stlslicer.slice_mesh | unfold Main.slice_mesh];
      unfold bind at 1; rewrite Hd; destruct s as [o w]; cbn [self] in Hmesh;
      unfold mesh_attr, getattr, get_self, raise, ret, bind; cbn [self];
      rewrite Hmesh; cbv beta iota; rewrite Hbounds; reflexivity.
Qed.

End SliceFrames.

Lemma slice_mesh_copies_agree_on_plate_witness :
  Main.slice_mesh (H := Demo.collaborators) (Some 5%Q)
    (DemoMore.session (Some Demo.cube) Unset)
  = Stlslicer.slice_mesh (H := Demo.collaborators) (Some 5%Q)
      (DemoMore.session (Some Demo.cube) Unset).
Proof.
  apply (slice_mesh_copies_agree_on_plate (H := Demo.collaborators) (Some 5%Q)
           (DemoMore.session (Some Demo.cube) Unset) Demo.cube 0 0 10 10 10)%Q;
    reflexivity.
Defined.

Lemma slice_mesh_without_geometry_witness :
  Stlslicer.slice_mesh (H := Demo.collaborators) (Some 5%Q) (DemoMore.session None Unset)
  = (Raise (AttributeError "bounds"), DemoMore.session None Unset) /\
  Main.slice_mesh (H := Demo.collaborators) (Some 5%Q)
    (DemoMore.session (Some DemoMore.empty_mesh) Unset)
  = (Raise TypeError, DemoMore.session (Some DemoMore.empty_mesh) Unset).
Proof.
  destruct (slice_mesh_without_geometry (H := Demo.collaborators) 5%Q
              (DemoMore.session None Unset)) as [Hnone _]; [discriminate|].
  destruct (slice_mesh_without_geometry (H := Demo.collaborators) 5%Q
              (DemoMore.session (Some DemoMore.empty_mesh) Unset)) as [_ Hempty];
    [discriminate|].
  split.
  - apply Hnone. reflexivity.
  - apply (Hempty DemoMore.empty_mesh); reflexivity.
Defined.

(** * The script of [main.py] *)

Section Script.
Context `{Collaborators}.




End Script.

